(** * nba-realtime-service: the python bridge, embedded and verified

    A shallow embedding of the identifier mapper, the ETag controller, the
    status classifier, the store lookup, the response transformers and the
    HTTP handlers of [python-bridge/app], followed by the properties proved
    about them.

    Conventions.
    - A Python [str] is a list of code points ([Z]); text literals are written
      with [U], which reads an ASCII Rocq string.
    - A [bytes] value is a list of [Z] in [0, 255].
    - A call that may raise returns a [result]: [Ok v] or [Raise e]. *)

From Stdlib Require Import ZArith String Ascii Bool Lia DecimalString List
  Sorting.Permutation.
Import ListNotations.
Local Open Scope Z_scope.

Set Implicit Arguments.

(** ** Strings and bytes *)

Definition str := list Z.
Definition bytes := list Z.

Definition U (s : string) : str :=
  map (fun a => Z.of_N (N_of_ascii a)) (list_ascii_of_string s).

Definition str_eqb (a b : str) : bool :=
  if list_eq_dec Z.eq_dec a b then true else false.

(** A code point that UTF-8 can encode: a Unicode scalar value. *)
Definition is_scalar (c : Z) : bool :=
  (0 <=? c) && (c <? 1114112) && negb ((55296 <=? c) && (c <=? 57343)).

(** ** Exceptions *)

Inductive exc_kind :=
| ValueError | UnicodeEncodeError | TypeError | AttributeError | KeyError
| IndexError | ImportError | ConnectionError | TimeoutError | JSONDecodeError
| UpstreamError.

(** The [detail] of an [HTTPException]: a literal text, or the f-string
    [prefix + str(e)] the handlers build from a caught exception. *)
Inductive exn :=
| PyExc (k : exc_kind)
| HTTPException (status_code : Z) (detail : http_detail)
with http_detail :=
| Text (s : str)
| Wrapped (prefix : str) (cause : exn).

Inductive result (A : Type) :=
| Ok (a : A)
| Raise (e : exn).
Arguments Ok {A} a.
Arguments Raise {A} e.

Definition bind {A B} (r : result A) (k : A -> result B) : result B :=
  match r with
  | Ok a => k a
  | Raise e => Raise e
  end.

Notation "x <- r ;; k" := (bind r (fun x => k))
  (at level 61, r at next level, right associativity).

(** [for x in xs: acc = body(acc, x)], stopping at the first exception. *)
Fixpoint for_each {A S} (body : S -> A -> result S) (xs : list A) (acc : S)
  : result S :=
  match xs with
  | [] => Ok acc
  | x :: rest => acc' <- body acc x ;; for_each body rest acc'
  end.

(** ** [str.strip], [str.isdigit] (CPython 3.11, Unicode 14) *)

(** [str.isspace] of one character. *)
Definition isspace_cp (c : Z) : bool :=
  ((9 <=? c) && (c <=? 13)) || ((28 <=? c) && (c <=? 32))
  || (c =? 133) || (c =? 160) || (c =? 5760)
  || ((8192 <=? c) && (c <=? 8202))
  || (c =? 8232) || (c =? 8233) || (c =? 8239) || (c =? 8287) || (c =? 12288).

Fixpoint lstrip (s : str) : str :=
  match s with
  | [] => []
  | c :: rest => if isspace_cp c then lstrip rest else s
  end.

Definition rstrip (s : str) : str := rev (lstrip (rev s)).

Definition strip (s : str) : str := rstrip (lstrip s).

(** The code points for which [str.isdigit] holds, as inclusive ranges. *)
Definition digit_ranges : list (Z * Z) :=
  [ (48, 57); (178, 179); (185, 185); (1632, 1641); (1776, 1785);
    (1984, 1993); (2406, 2415); (2534, 2543); (2662, 2671); (2790, 2799);
    (2918, 2927); (3046, 3055); (3174, 3183); (3302, 3311); (3430, 3439);
    (3558, 3567); (3664, 3673); (3792, 3801); (3872, 3881); (4160, 4169);
    (4240, 4249); (4969, 4977); (6112, 6121); (6160, 6169); (6470, 6479);
    (6608, 6618); (6784, 6793); (6800, 6809); (6992, 7001); (7088, 7097);
    (7232, 7241); (7248, 7257); (8304, 8304); (8308, 8313); (8320, 8329);
    (9312, 9320); (9332, 9340); (9352, 9360); (9450, 9450); (9461, 9469);
    (9471, 9471); (10102, 10110); (10112, 10120); (10122, 10130);
    (42528, 42537); (43216, 43225); (43264, 43273); (43472, 43481);
    (43504, 43513); (43600, 43609); (44016, 44025); (65296, 65305);
    (66720, 66729); (68160, 68163); (68912, 68921); (69216, 69224);
    (69714, 69722); (69734, 69743); (69872, 69881); (69942, 69951);
    (70096, 70105); (70384, 70393); (70736, 70745); (70864, 70873);
    (71248, 71257); (71360, 71369); (71472, 71481); (71904, 71913);
    (72016, 72025); (72784, 72793); (73040, 73049); (73120, 73129);
    (92768, 92777); (92864, 92873); (93008, 93017); (120782, 120831);
    (123200, 123209); (123632, 123641); (125264, 125273); (127232, 127242);
    (130032, 130041) ].

Definition isdigit_cp (c : Z) : bool :=
  existsb (fun r => (fst r <=? c) && (c <=? snd r)) digit_ranges.

(** [s.isdigit()]: every character is a digit and there is at least one. *)
Definition isdigit (s : str) : bool :=
  match s with
  | [] => false
  | _ => forallb isdigit_cp s
  end.

Definition is_ascii_digit (c : Z) : bool := (48 <=? c) && (c <=? 57).

(** ** UTF-8 *)

Definition utf8_cp (c : Z) : result bytes :=
  if negb (is_scalar c) then Raise (PyExc UnicodeEncodeError)
  else if c <? 128 then Ok [c]
  else if c <? 2048 then
    Ok [Z.lor 192 (Z.shiftr c 6); Z.lor 128 (Z.land c 63)]
  else if c <? 65536 then
    Ok [Z.lor 224 (Z.shiftr c 12);
        Z.lor 128 (Z.land (Z.shiftr c 6) 63);
        Z.lor 128 (Z.land c 63)]
  else
    Ok [Z.lor 240 (Z.shiftr c 18);
        Z.lor 128 (Z.land (Z.shiftr c 12) 63);
        Z.lor 128 (Z.land (Z.shiftr c 6) 63);
        Z.lor 128 (Z.land c 63)].

(** [s.encode()] / [bytes(s, "utf-8")]. *)
Fixpoint utf8_encode (s : str) : result bytes :=
  match s with
  | [] => Ok []
  | c :: rest =>
      b <- utf8_cp c ;;
      bs <- utf8_encode rest ;;
      Ok (b ++ bs)
  end.

(** ** Hexadecimal *)

Definition hex_digit (n : Z) : Z := if n <? 10 then 48 + n else 87 + n.

Definition hex_of_byte (b : Z) : str :=
  [hex_digit (Z.shiftr b 4); hex_digit (Z.land b 15)].

Definition hex_of_bytes (bs : bytes) : str := flat_map hex_of_byte bs.

(** ** 32-bit words, shared by SHA-1 and SHA-256 *)

Module Word32.

Definition wrap (x : Z) : Z := x mod 4294967296.
Definition add (x y : Z) : Z := wrap (x + y).
Definition rotl (n x : Z) : Z :=
  wrap (Z.lor (Z.shiftl x n) (Z.shiftr x (32 - n))).
Definition rotr (n x : Z) : Z :=
  wrap (Z.lor (Z.shiftr x n) (Z.shiftl x (32 - n))).
Definition not (x : Z) : Z := 4294967295 - x.

Definition to_bytes (w : Z) : bytes :=
  [Z.land (Z.shiftr w 24) 255; Z.land (Z.shiftr w 16) 255;
   Z.land (Z.shiftr w 8) 255; Z.land w 255].

Definition of_bytes (b3 b2 b1 b0 : Z) : Z :=
  Z.lor (Z.shiftl b3 24) (Z.lor (Z.shiftl b2 16) (Z.lor (Z.shiftl b1 8) b0)).

(** Big-endian words of a block of bytes. *)
Fixpoint words (bs : bytes) : list Z :=
  match bs with
  | b3 :: b2 :: b1 :: b0 :: rest => of_bytes b3 b2 b1 b0 :: words rest
  | _ => []
  end.

(** Merkle-Damgard padding: 0x80, zeros up to 56 mod 64, the bit length on
    eight big-endian bytes. *)
Definition pad (msg : bytes) : bytes :=
  let len := Z.of_nat (length msg) in
  let zeros := Z.to_nat ((55 - len) mod 64) in
  let bits := 8 * len in
  msg ++ [128] ++ repeat 0 zeros
      ++ map (fun i => Z.land (Z.shiftr bits (8 * i)) 255) [7; 6; 5; 4; 3; 2; 1; 0].

(** The 64-byte blocks of a padded message. *)
Fixpoint blocks (fuel : nat) (bs : bytes) : list bytes :=
  match fuel, bs with
  | O, _ => []
  | _, [] => []
  | S fuel', _ => firstn 64 bs :: blocks fuel' (skipn 64 bs)
  end.

Definition blocks_of (msg : bytes) : list bytes :=
  let p := pad msg in blocks (length p) p.

End Word32.

(** ** SHA-1 ([hashlib.sha1]) *)

Module SHA1.
Import Word32.

Record state := State { h0 : Z; h1 : Z; h2 : Z; h3 : Z; h4 : Z }.

Definition init : state :=
  State 0x67452301 0xEFCDAB89 0x98BADCFE 0x10325476 0xC3D2E1F0.

(** The schedule, most recent word first. *)
Fixpoint extend (n : nat) (ws : list Z) : list Z :=
  match n with
  | O => ws
  | S n' =>
      let w := rotl 1 (Z.lxor (Z.lxor (nth 2 ws 0) (nth 7 ws 0))
                              (Z.lxor (nth 13 ws 0) (nth 15 ws 0))) in
      extend n' (w :: ws)
  end.

Definition schedule (block : bytes) : list Z :=
  rev (extend 64 (rev (words block))).

Definition f (t : nat) (b c d : Z) : Z :=
  if Nat.ltb t 20 then Z.lor (Z.land b c) (Z.land (not b) d)
  else if Nat.ltb t 40 then Z.lxor (Z.lxor b c) d
  else if Nat.ltb t 60 then
    Z.lor (Z.lor (Z.land b c) (Z.land b d)) (Z.land c d)
  else Z.lxor (Z.lxor b c) d.

Definition k (t : nat) : Z :=
  if Nat.ltb t 20 then 0x5A827999
  else if Nat.ltb t 40 then 0x6ED9EBA1
  else if Nat.ltb t 60 then 0x8F1BBCDC
  else 0xCA62C1D6.

Fixpoint rounds (t : nat) (ws : list Z) (s : state) : state :=
  match ws with
  | [] => s
  | w :: ws' =>
      let tmp := add (add (add (add (rotl 5 (h0 s)) (f t (h1 s) (h2 s) (h3 s)))
                               (h4 s)) (k t)) w in
      rounds (S t) ws' (State tmp (h0 s) (rotl 30 (h1 s)) (h2 s) (h3 s))
  end.

Definition compress (s : state) (block : bytes) : state :=
  let r := rounds 0 (schedule block) s in
  State (add (h0 s) (h0 r)) (add (h1 s) (h1 r)) (add (h2 s) (h2 r))
        (add (h3 s) (h3 r)) (add (h4 s) (h4 r)).

Definition digest (msg : bytes) : bytes :=
  let s := fold_left compress (blocks_of msg) init in
  flat_map to_bytes [h0 s; h1 s; h2 s; h3 s; h4 s].

End SHA1.

(** ** SHA-256 ([hashlib.sha256]) *)

Module SHA256.
Import Word32.

Record state := State
  { a : Z; b : Z; c : Z; d : Z; e : Z; f : Z; g : Z; h : Z }.

Definition init : state :=
  State 1779033703 3144134277 1013904242 2773480762
        1359893119 2600822924 528734635 1541459225.

(** The round constants: the first 32 bits of the fractional parts of the
    cube roots of the first 64 primes. *)
Definition K : list Z :=
  [
    1116352408; 1899447441; 3049323471; 3921009573;
    961987163; 1508970993; 2453635748; 2870763221;
    3624381080; 310598401; 607225278; 1426881987;
    1925078388; 2162078206; 2614888103; 3248222580;
    3835390401; 4022224774; 264347078; 604807628;
    770255983; 1249150122; 1555081692; 1996064986;
    2554220882; 2821834349; 2952996808; 3210313671;
    3336571891; 3584528711; 113926993; 338241895;
    666307205; 773529912; 1294757372; 1396182291;
    1695183700; 1986661051; 2177026350; 2456956037;
    2730485921; 2820302411; 3259730800; 3345764771;
    3516065817; 3600352804; 4094571909; 275423344;
    430227734; 506948616; 659060556; 883997877;
    958139571; 1322822218; 1537002063; 1747873779;
    1955562222; 2024104815; 2227730452; 2361852424;
    2428436474; 2756734187; 3204031479; 3329325298
  ].

Definition ssig0 (x : Z) : Z :=
  Z.lxor (Z.lxor (rotr 7 x) (rotr 18 x)) (Z.shiftr x 3).
Definition ssig1 (x : Z) : Z :=
  Z.lxor (Z.lxor (rotr 17 x) (rotr 19 x)) (Z.shiftr x 10).
Definition bsig0 (x : Z) : Z :=
  Z.lxor (Z.lxor (rotr 2 x) (rotr 13 x)) (rotr 22 x).
Definition bsig1 (x : Z) : Z :=
  Z.lxor (Z.lxor (rotr 6 x) (rotr 11 x)) (rotr 25 x).
Definition ch (x y z : Z) : Z := Z.lxor (Z.land x y) (Z.land (not x) z).
Definition maj (x y z : Z) : Z :=
  Z.lxor (Z.lxor (Z.land x y) (Z.land x z)) (Z.land y z).

(** The schedule, most recent word first. *)
Fixpoint extend (n : nat) (ws : list Z) : list Z :=
  match n with
  | O => ws
  | S n' =>
      let w := add (add (add (ssig1 (nth 1 ws 0)) (nth 6 ws 0))
                        (ssig0 (nth 14 ws 0))) (nth 15 ws 0) in
      extend n' (w :: ws)
  end.

Definition schedule (block : bytes) : list Z :=
  rev (extend 48 (rev (words block))).

Fixpoint rounds (kws : list (Z * Z)) (s : state) : state :=
  match kws with
  | [] => s
  | (kt, w) :: rest =>
      let t1 := add (add (add (add (h s) (bsig1 (e s))) (ch (e s) (f s) (g s)))
                         kt) w in
      let t2 := add (bsig0 (a s)) (maj (a s) (b s) (c s)) in
      rounds rest (State (add t1 t2) (a s) (b s) (c s)
                         (add (d s) t1) (e s) (f s) (g s))
  end.

Definition compress (s : state) (block : bytes) : state :=
  let r := rounds (combine K (schedule block)) s in
  State (add (a s) (a r)) (add (b s) (b r)) (add (c s) (c r))
        (add (d s) (d r)) (add (e s) (e r)) (add (f s) (f r))
        (add (g s) (g r)) (add (h s) (h r)).

Definition digest (msg : bytes) : bytes :=
  let s := fold_left compress (blocks_of msg) init in
  flat_map to_bytes [a s; b s; c s; d s; e s; f s; g s; h s].

Definition hexdigest (msg : bytes) : str := hex_of_bytes (digest msg).

End SHA256.

(** ** [uuid.UUID] and [uuid.uuid5] *)

Module UUID.

(** A UUID is its 128-bit integer ([UUID.int]). *)
Definition t := Z.

Definition hex_value (c : Z) : Z :=
  if (48 <=? c) && (c <=? 57) then c - 48
  else if (97 <=? c) && (c <=? 102) then c - 87
  else c - 55.

(** [UUID(hex)]: the dashes are dropped and the 32 digits read in base 16. *)
Definition of_string (s : str) : t :=
  fold_left (fun acc c => 16 * acc + hex_value c)
            (filter (fun c => negb (c =? 45)) s) 0.

Definition of_bytes (bs : bytes) : t :=
  fold_left (fun acc b => 256 * acc + b) bs 0.

(** [UUID.bytes]: the integer on 16 big-endian bytes. *)
Definition to_bytes (u : t) : bytes :=
  map (fun i => Z.land (Z.shiftr u (8 * i)) 255)
      [15; 14; 13; 12; 11; 10; 9; 8; 7; 6; 5; 4; 3; 2; 1; 0].

(** [UUID(bytes=..., version=v)]: the RFC 4122 variant and the version
    are written over the hash bits. *)
Definition with_version (version : Z) (int : Z) : t :=
  let int := Z.land int (Z.lnot (Z.shiftl 0xc000 48)) in
  let int := Z.lor int (Z.shiftl 0x8000 48) in
  let int := Z.land int (Z.lnot (Z.shiftl 0xf000 64)) in
  Z.lor int (Z.shiftl version 76).

(** [str(u)]: ['%032x' % int] cut 8-4-4-4-12. *)
Definition to_string (u : t) : str :=
  let hex := hex_of_bytes (to_bytes u) in
  firstn 8 hex ++ [45] ++ firstn 4 (skipn 8 hex) ++ [45]
    ++ firstn 4 (skipn 12 hex) ++ [45] ++ firstn 4 (skipn 16 hex) ++ [45]
    ++ skipn 20 hex.

Definition uuid5 (namespace : t) (name : str) : result t :=
  name_bytes <- utf8_encode name ;;
  let hash := SHA1.digest (to_bytes namespace ++ name_bytes) in
  Ok (with_version 5 (of_bytes (firstn 16 hash))).

End UUID.

(** ** app/utils/game_id_mapper.py *)

Definition NBA_GAME_ID_NAMESPACE : UUID.t :=
  UUID.of_string (U "6ba7b810-9dad-11d1-80b4-00c04fd430c8").

Definition nba_game_id_to_uuid (nba_game_id : str) : result str :=
  let normalized_id := strip nba_game_id in
  match normalized_id with
  | [] => Raise (PyExc ValueError)
  | _ =>
      game_uuid <- UUID.uuid5 NBA_GAME_ID_NAMESPACE normalized_id ;;
      Ok (UUID.to_string game_uuid)
  end.

Definition is_nba_game_id (game_id : str) : bool :=
  match game_id with
  | [] => false
  | _ => isdigit game_id && (Z.of_nat (length game_id) =? 10)
  end.

(** ** Python values

    The values that travel through the bridge are the ones [json.loads]
    builds: [None], booleans, integers, floats, strings, lists, and dicts
    with string keys.  A dict keeps its items in insertion order; its keys
    are pairwise distinct ([wf_json]).  A float is carried by its [repr],
    which is what [str] and [json.dumps] print. *)

#[local] Unset Elimination Schemes.
Inductive json :=
| JNull
| JBool (b : bool)
| JInt (n : Z)
| JFloat (repr : str)
| JStr (s : str)
| JList (l : list json)
| JDict (items : list (str * json)).
#[local] Set Elimination Schemes.

Definition str_of_Z (n : Z) : str := U (NilZero.string_of_int (Z.to_int n)).

Fixpoint dict_lookup {V} (k : str) (items : list (str * V)) : option V :=
  match items with
  | [] => None
  | (k', v) :: rest => if str_eqb k k' then Some v else dict_lookup k rest
  end.

(** [d[k] = v]: the value is replaced in place, a new key goes last. *)
Fixpoint dict_set {V} (k : str) (v : V) (items : list (str * V))
  : list (str * V) :=
  match items with
  | [] => [(k, v)]
  | (k', v') :: rest =>
      if str_eqb k k' then (k, v) :: rest else (k', v') :: dict_set k v rest
  end.

(** Comparison of strings, code point by code point. *)
Fixpoint str_leb (x y : str) : bool :=
  match x, y with
  | [], _ => true
  | _ :: _, [] => false
  | c :: x', d :: y' =>
      if c <? d then true else if c =? d then str_leb x' y' else false
  end.

(** [sorted(d.items())]: a stable sort on the keys.  The keys of a dict are
    distinct, so the comparison of two items never looks at the values. *)
Fixpoint insert_item {V} (kv : str * V) (l : list (str * V))
  : list (str * V) :=
  match l with
  | [] => [kv]
  | x :: rest =>
      if str_leb (fst kv) (fst x) then kv :: l else x :: insert_item kv rest
  end.

Fixpoint sort_items {V} (l : list (str * V)) : list (str * V) :=
  match l with
  | [] => []
  | kv :: rest => insert_item kv (sort_items rest)
  end.

(** [sep.join(parts)] *)
Fixpoint join (sep : str) (parts : list str) : str :=
  match parts with
  | [] => []
  | [p] => p
  | p :: rest => p ++ sep ++ join sep rest
  end.

(** ** [json.dumps] (default [ensure_ascii], default separators) *)

Module Json.

Definition hex4 (n : Z) : str :=
  [hex_digit (Z.land (Z.shiftr n 12) 15); hex_digit (Z.land (Z.shiftr n 8) 15);
   hex_digit (Z.land (Z.shiftr n 4) 15); hex_digit (Z.land n 15)].

Definition escape_cp (c : Z) : str :=
  if c =? 34 then [92; 34]
  else if c =? 92 then [92; 92]
  else if c =? 10 then [92; 110]
  else if c =? 13 then [92; 114]
  else if c =? 9 then [92; 116]
  else if c =? 8 then [92; 98]
  else if c =? 12 then [92; 102]
  else if (32 <=? c) && (c <=? 126) then [c]
  else if c <? 65536 then [92; 117] ++ hex4 c
  else
    let n := c - 65536 in
    [92; 117] ++ hex4 (Z.lor 55296 (Z.land (Z.shiftr n 10) 1023))
      ++ [92; 117] ++ hex4 (Z.lor 56320 (Z.land n 1023)).

(** [encode_basestring_ascii] *)
Definition encode_str (s : str) : str := [34] ++ flat_map escape_cp s ++ [34].

(** [floatstr] *)
Definition floatstr (repr : str) : str :=
  if str_eqb repr (U "nan") then U "NaN"
  else if str_eqb repr (U "inf") then U "Infinity"
  else if str_eqb repr (U "-inf") then U "-Infinity"
  else repr.

Definition render_item (kv : str * str) : str :=
  encode_str (fst kv) ++ U ": " ++ snd kv.

(** [json.dumps(v, sort_keys=sorted)].  The values of a dict are rendered
    item by item and the rendered items ordered by key; [dumps_dict] below
    shows this is the encoder's order of work (sort, then render). *)
Fixpoint dumps (sort_keys : bool) (v : json) : str :=
  match v with
  | JNull => U "null"
  | JBool true => U "true"
  | JBool false => U "false"
  | JInt n => str_of_Z n
  | JFloat r => floatstr r
  | JStr s => encode_str s
  | JList l => U "[" ++ join (U ", ") (map (dumps sort_keys) l) ++ U "]"
  | JDict items =>
      let rendered := map (fun kv => (fst kv, dumps sort_keys (snd kv))) items in
      let ordered := if sort_keys then sort_items rendered else rendered in
      U "{" ++ join (U ", ") (map render_item ordered) ++ U "}"
  end.

End Json.

(** ** app/utils/etag.py *)

Definition calculate_etag (data : json) : result str :=
  let json_str := Json.dumps true data in
  encoded <- utf8_encode json_str ;;
  let hexdigest := SHA256.hexdigest encoded in
  Ok ([34] ++ firstn 16 hexdigest ++ [34]).

(** ** What the interpreter does with these values *)

Definition py_truthy (v : json) : bool :=
  match v with
  | JNull => false
  | JBool b => b
  | JInt n => negb (n =? 0)
  | JFloat r => negb (str_eqb r (U "0.0") || str_eqb r (U "-0.0"))
  | JStr s => match s with [] => false | _ => true end
  | JList l => match l with [] => false | _ => true end
  | JDict items => match items with [] => false | _ => true end
  end.

Definition is_none (v : json) : bool :=
  match v with JNull => true | _ => false end.

Definition is_dict (v : json) : bool :=
  match v with JDict _ => true | _ => false end.

Definition is_list (v : json) : bool :=
  match v with JList _ => true | _ => false end.

(** [x or y] *)
Definition py_or (x y : json) : json := if py_truthy x then x else y.

Fixpoint starts_with (p s : str) : bool :=
  match p, s with
  | [], _ => true
  | _ :: _, [] => false
  | a :: p', b :: s' => (a =? b) && starts_with p' s'
  end.

(** [p in s] for two strings. *)
Fixpoint contains (p s : str) : bool :=
  starts_with p s
  || match s with
     | [] => false
     | _ :: s' => contains p s'
     end.

Definition ends_with (p s : str) : bool := starts_with (rev p) (rev s).

(** [s.replace(old, new)] for a one-character [old]. *)
Definition replace_cp (old : Z) (new : str) (s : str) : str :=
  flat_map (fun c => if c =? old then new else [c]) s.

(** [v.get(k, default)]; only a dict has [get]. *)
Definition py_get (v : json) (k : str) (default : json) : result json :=
  match v with
  | JDict items =>
      Ok (match dict_lookup k items with Some x => x | None => default end)
  | _ => Raise (PyExc AttributeError)
  end.

(** [k in v] for a string [k]. *)
Definition py_contains (k : str) (v : json) : result bool :=
  match v with
  | JDict items =>
      Ok (match dict_lookup k items with Some _ => true | None => false end)
  | JList l =>
      Ok (existsb (fun x => match x with JStr s => str_eqb s k | _ => false end) l)
  | JStr s => Ok (contains k s)
  | _ => Raise (PyExc TypeError)
  end.

(** [v[k]] for a string [k]. *)
Definition py_item (v : json) (k : str) : result json :=
  match v with
  | JDict items =>
      match dict_lookup k items with
      | Some x => Ok x
      | None => Raise (PyExc KeyError)
      end
  | _ => Raise (PyExc TypeError)
  end.

(** [v[i]] for an index [0 <= i]. *)
Definition py_index (v : json) (i : nat) : result json :=
  match v with
  | JList l =>
      match nth_error l i with
      | Some x => Ok x
      | None => Raise (PyExc IndexError)
      end
  | JStr s =>
      match nth_error s i with
      | Some c => Ok (JStr [c])
      | None => Raise (PyExc IndexError)
      end
  | JDict _ => Raise (PyExc KeyError)
  | _ => Raise (PyExc TypeError)
  end.

Definition py_len (v : json) : result nat :=
  match v with
  | JList l => Ok (length l)
  | JStr s => Ok (length s)
  | JDict items => Ok (length items)
  | _ => Raise (PyExc TypeError)
  end.

(** [for x in v]: the elements of a list, the characters of a string, the
    keys of a dict. *)
Definition py_iter (v : json) : result (list json) :=
  match v with
  | JList l => Ok l
  | JStr s => Ok (map (fun c => JStr [c]) s)
  | JDict items => Ok (map (fun kv => JStr (fst kv)) items)
  | _ => Raise (PyExc TypeError)
  end.

(** [v == n] for an integer literal [n]. *)
Definition py_eq_int (v : json) (n : Z) : bool :=
  match v with
  | JInt m => m =? n
  | JFloat r => str_eqb r (str_of_Z n ++ U ".0")
  | JBool b => (if b then 1 else 0) =? n
  | _ => false
  end.

(** [v == s] for a string literal [s]. *)
Definition py_eq_str (v : json) (s : str) : bool :=
  match v with
  | JStr t => str_eqb t s
  | _ => false
  end.

Definition opt_str_eqb (x y : option str) : bool :=
  match x, y with
  | Some a, Some b => str_eqb a b
  | None, None => true
  | _, _ => false
  end.

Definition json_of_opt_str (x : option str) : json :=
  match x with
  | Some s => JStr s
  | None => JNull
  end.

(** ** The library calls the bridge relies on

    [str.lower], the [repr] of a list or dict, [datetime.fromisoformat]
    followed by [isoformat], and [json.loads] are taken from the runtime. *)

Class PyRuntime := {
  str_lower : str -> str;
  container_repr : json -> str;
  iso_normalize : str -> option str;
  json_loads : str -> option json
}.

Section Transformers.

Context {rt : PyRuntime}.

(** [str(v)] *)
Definition py_str (v : json) : str :=
  match v with
  | JNull => U "None"
  | JBool true => U "True"
  | JBool false => U "False"
  | JInt n => str_of_Z n
  | JFloat r => r
  | JStr s => s
  | JList _ | JDict _ => container_repr v
  end.

(** [v.lower()] *)
Definition py_lower (v : json) : result str :=
  match v with
  | JStr s => Ok (str_lower s)
  | _ => Raise (PyExc AttributeError)
  end.

(** ** app/services/transformers.py *)

Definition _map_game_status (status_text game_status period clock : json)
  : result str :=
  if py_eq_int game_status 2 then Ok (U "inprogress")
  else if py_eq_int game_status 3 then Ok (U "closed")
  else
    status_text_lower <-
      (if py_truthy status_text then py_lower status_text else Ok []) ;;
    if contains (U "final") status_text_lower then Ok (U "closed")
    else if contains (U "live") status_text_lower
            || contains (U "in progress") status_text_lower
    then Ok (U "inprogress")
    else if contains (U "postponed") status_text_lower then Ok (U "postponed")
    else if contains (U "delayed") status_text_lower then Ok (U "delayed")
    else if contains (U "pm") status_text_lower
            || contains (U "am") status_text_lower
            || contains (U "et") status_text_lower
    then Ok (U "scheduled")
    else if negb (is_none period) && py_truthy clock then Ok (U "inprogress")
    else Ok (U "scheduled").

(** The body of [_parse_nba_date], inside its [try]. *)
Definition parse_nba_date_body (date_str : json) : result str :=
  match date_str with
  | JStr s =>
      let parsed :=
        if ends_with (U "ET") s then
          iso_normalize (firstn (length s - 2) s)
        else if ends_with (U "Z") s then
          iso_normalize (replace_cp 90 (U "+00:00") s)
        else iso_normalize s in
      match parsed with
      | Some iso => Ok iso
      | None => Raise (PyExc ValueError)
      end
  | _ => Raise (PyExc AttributeError)
  end.

(** [except Exception: return None] *)
Definition _parse_nba_date (date_str : json) : option str :=
  match parse_nba_date_body date_str with
  | Ok iso => Some iso
  | Raise _ => None
  end.

(** [if scheduled_time: game["scheduled"] = scheduled_time] *)
Definition add_scheduled (game : list (str * json)) (time : json)
  : list (str * json) :=
  if py_truthy time then
    match _parse_nba_date time with
    | Some ((_ :: _) as iso) => dict_set (U "scheduled") (JStr iso) game
    | _ => game
    end
  else game.

(** The team block the live formats build: the source writes it out for the
    home and for the away team, in the schedule and in the summary. *)
Definition live_team (team_data : json) (name : str) : result json :=
  id <- py_get team_data (U "teamId") (JStr []) ;;
  alias <- py_get team_data (U "teamTricode") (JStr []) ;;
  city <- py_get team_data (U "teamCity") (JStr []) ;;
  team_name <- py_get team_data (U "teamName") (JStr []) ;;
  score <- py_get team_data (U "score") JNull ;;
  wins <- py_get team_data (U "wins") JNull ;;
  losses <- py_get team_data (U "losses") JNull ;;
  timeouts <- py_get team_data (U "timeoutsRemaining") JNull ;;
  in_bonus <- py_get team_data (U "inBonus") JNull ;;
  periods <- py_get team_data (U "periods") (JList []) ;;
  Ok (JDict [ (U "id", JStr (py_str id)); (U "name", JStr name);
              (U "alias", alias); (U "city", city);
              (U "team_name", team_name); (U "score", score);
              (U "wins", wins); (U "losses", losses);
              (U "timeouts_remaining", timeouts); (U "in_bonus", in_bonus);
              (U "periods", periods) ]).

(** [f"{t.get('teamCity', '')} {t.get('teamName', '')}".strip()] *)
Definition full_team_name (team_data : json) : result str :=
  city <- py_get team_data (U "teamCity") (JStr []) ;;
  name <- py_get team_data (U "teamName") (JStr []) ;;
  Ok (strip (py_str city ++ [32] ++ py_str name)).

(** One turn of the loop over the live scoreboard's games. *)
Definition live_game (games : list json) (nba_game : json)
  : result (list json) :=
  game_id <- py_get nba_game (U "gameId") (JStr []) ;;
  let nba_game_id := py_str game_id in
  match nba_game_id with
  | [] => Ok games
  | _ =>
      game_uuid <- nba_game_id_to_uuid nba_game_id ;;
      game_status_text <- py_get nba_game (U "gameStatusText") (JStr (U "Scheduled")) ;;
      game_status_code <- py_get nba_game (U "gameStatus") JNull ;;
      period <- py_get nba_game (U "period") JNull ;;
      clock <- py_get nba_game (U "gameClock") JNull ;;
      status <- _map_game_status game_status_text game_status_code period clock ;;
      home_team_data <- py_get nba_game (U "homeTeam") (JDict []) ;;
      away_team_data <- py_get nba_game (U "awayTeam") (JDict []) ;;
      home_team_name <- full_team_name home_team_data ;;
      away_team_name <- full_team_name away_team_data ;;
      home <- live_team home_team_data home_team_name ;;
      away <- live_team away_team_data away_team_name ;;
      let game := [ (U "id", JStr game_uuid); (U "nba_game_id", JStr nba_game_id);
                    (U "status", JStr status); (U "home", home); (U "away", away) ] in
      game_et <- py_get nba_game (U "gameEt") JNull ;;
      game_time_utc <- py_get nba_game (U "gameTimeUTC") JNull ;;
      let game := add_scheduled game (py_or game_et game_time_utc) in
      let game := if py_truthy period then dict_set (U "period") period game else game in
      let game := if py_truthy clock then dict_set (U "clock") clock game else game in
      Ok (games ++ [JDict game])
  end.

(** [for rs in result_sets: if rs.get('name') == name: ... break] *)
Fixpoint find_result_set (name : str) (result_sets : list json)
  : result (option json) :=
  match result_sets with
  | [] => Ok None
  | rs :: rest =>
      n <- py_get rs (U "name") JNull ;;
      if py_eq_str n name then
        rows <- py_get rs (U "rowSet") (JList []) ;;
        Ok (Some rows)
      else find_result_set name rest
  end.

(** [row[i] if len(row) > i else default] *)
Definition column (row : json) (i : nat) (default : json) : result json :=
  n <- py_len row ;;
  if Nat.ltb i n then py_index row i else Ok default.

(** [str(row[i]) if len(row) > i else None] *)
Definition column_str (row : json) (i : nat) : result (option str) :=
  n <- py_len row ;;
  if Nat.ltb i n then
    x <- py_index row i ;; Ok (Some (py_str x))
  else Ok None.

(** One turn of the loop over the LineScore rows. *)
Definition line_score_row (home_team_id visitor_team_id : option str)
    (teams : (json * json) * (json * json)) (row : json)
  : result ((json * json) * (json * json)) :=
  team_id <- column_str row 1 ;;
  team_abbrev <- column row 2 (JStr []) ;;
  team_name <- column row 3 (JStr []) ;;
  if opt_str_eqb team_id home_team_id then Ok ((team_name, team_abbrev), snd teams)
  else if opt_str_eqb team_id visitor_team_id
       then Ok (fst teams, (team_name, team_abbrev))
       else Ok teams.

(** The pair of (name, alias) pairs for the home and the away team. *)
Definition _extract_teams_from_scoreboard (scoreboard_data : json)
    (home_team_id visitor_team_id : option str)
  : result ((json * json) * (json * json)) :=
  let blank := ((JStr [], JStr []), (JStr [], JStr [])) in
  result_sets <- py_get scoreboard_data (U "resultSets") (JList []) ;;
  sets <- py_iter result_sets ;;
  line_score <- find_result_set (U "LineScore") sets ;;
  match line_score with
  | None => Ok blank
  | Some ls =>
      if py_truthy ls then
        rows <- py_iter ls ;;
        for_each (line_score_row home_team_id visitor_team_id) rows blank
      else Ok blank
  end.

Definition opt_truthy (x : option str) : bool :=
  match x with
  | Some (_ :: _) => true
  | _ => false
  end.

(** The [home] / [away] block of the stats format. *)
Definition stats_team (team_id : option str) (team : json * json) : json :=
  JDict [ (U "id", if opt_truthy team_id then json_of_opt_str team_id else JNull);
          (U "name", fst team); (U "alias", snd team) ].

(** One turn of the loop over the GameHeader rows. *)
Definition stats_game (scoreboard_data : json) (games : list json)
    (game_row : json) : result (list json) :=
  nba_game_id <- column_str game_row 0 ;;
  game_date_est <- column game_row 1 JNull ;;
  game_status_text <- column game_row 4 (JStr (U "Scheduled")) ;;
  home_team_id <- column_str game_row 6 ;;
  visitor_team_id <- column_str game_row 7 ;;
  match nba_game_id with
  | Some ((_ :: _) as nba_game_id) =>
      game_uuid <- nba_game_id_to_uuid nba_game_id ;;
      status <- _map_game_status game_status_text JNull JNull JNull ;;
      teams <- _extract_teams_from_scoreboard scoreboard_data
                 home_team_id visitor_team_id ;;
      let game := [ (U "id", JStr game_uuid); (U "nba_game_id", JStr nba_game_id);
                    (U "status", JStr status);
                    (U "home", stats_team home_team_id (fst teams));
                    (U "away", stats_team visitor_team_id (snd teams)) ] in
      let game := add_scheduled game game_date_est in
      Ok (games ++ [JDict game])
  | _ => Ok games
  end.

Definition schedule_of (game_date : json) (games : list json) : json :=
  JDict [ (U "date", game_date); (U "games", JList games) ].

Definition transform_scoreboard_to_schedule (scoreboard_data : json)
    (game_date : json) : result json :=
  has_scoreboard <- py_contains (U "scoreboard") scoreboard_data ;;
  is_live <-
    (if has_scoreboard then
       sb <- py_item scoreboard_data (U "scoreboard") ;;
       py_contains (U "games") sb
     else Ok false) ;;
  if is_live then
    scoreboard_info <- py_item scoreboard_data (U "scoreboard") ;;
    date_in_board <- py_get scoreboard_info (U "gameDate") JNull ;;
    let game_date := if py_truthy date_in_board then date_in_board else game_date in
    nba_games <- py_item scoreboard_info (U "games") ;;
    entries <- py_iter nba_games ;;
    games <- for_each live_game entries [] ;;
    Ok (schedule_of game_date games)
  else
    has_result_sets <- py_contains (U "resultSets") scoreboard_data ;;
    if has_result_sets then
      result_sets <- py_get scoreboard_data (U "resultSets") (JList []) ;;
      sets <- py_iter result_sets ;;
      game_header <- find_result_set (U "GameHeader") sets ;;
      match game_header with
      | None => Ok (schedule_of game_date [])
      | Some gh =>
          if py_truthy gh then
            rows <- py_iter gh ;;
            games <- for_each (stats_game scoreboard_data) rows [] ;;
            Ok (schedule_of game_date games)
          else Ok (schedule_of game_date [])
      end
    else
      (* the warning prints [scoreboard_data.keys()] *)
      if is_dict scoreboard_data then Ok (schedule_of game_date [])
      else Raise (PyExc AttributeError).

(** The team blocks and the optional fields of the live-scoreboard summary. *)
Definition live_summary (summary : list (str * json)) (game : json)
  : result json :=
  game_status_text <- py_get game (U "gameStatusText") (JStr []) ;;
  game_status_code <- py_get game (U "gameStatus") JNull ;;
  period <- py_get game (U "period") JNull ;;
  clock <- py_get game (U "gameClock") JNull ;;
  status <- _map_game_status game_status_text game_status_code period clock ;;
  let summary := dict_set (U "status") (JStr status) summary in
  home_team <- py_get game (U "homeTeam") (JDict []) ;;
  home_name <- full_team_name home_team ;;
  home <- live_team home_team home_name ;;
  let summary := dict_set (U "home") home summary in
  away_team <- py_get game (U "awayTeam") (JDict []) ;;
  away_name <- full_team_name away_team ;;
  away <- live_team away_team away_name ;;
  let summary := dict_set (U "away") away summary in
  let summary :=
    if py_truthy period then dict_set (U "period") period summary else summary in
  let summary :=
    if py_truthy clock then dict_set (U "clock") clock summary else summary in
  let summary :=
    if py_truthy game_status_code
    then dict_set (U "game_status") game_status_code summary else summary in
  game_leaders <- py_get game (U "gameLeaders") (JDict []) ;;
  if py_truthy game_leaders then
    home_leaders <- py_get game_leaders (U "homeLeaders") (JDict []) ;;
    away_leaders <- py_get game_leaders (U "awayLeaders") (JDict []) ;;
    Ok (JDict (dict_set (U "leaders")
                 (JDict [(U "home", home_leaders); (U "away", away_leaders)])
                 summary))
  else Ok (JDict summary).

Definition transform_boxscore_to_summary (boxscore_data : json) (game_id : json)
  : result json :=
  let summary := [ (U "id", game_id); (U "status", JStr (U "inprogress"));
                   (U "home", JDict []); (U "away", JDict []) ] in
  source <- py_get boxscore_data (U "_source") JNull ;;
  game <- py_get boxscore_data (U "game") JNull ;;
  if py_eq_str source (U "live_scoreboard") && py_truthy game then
    live_summary summary game
  else if py_truthy game && negb (py_truthy source) then
    game_status_text <- py_get game (U "gameStatusText") (JStr []) ;;
    status <- _map_game_status game_status_text JNull JNull JNull ;;
    Ok (JDict (dict_set (U "status") (JStr status) summary))
  else
    result_sets <- py_get boxscore_data (U "resultSets") (JList []) ;;
    sets <- py_iter result_sets ;;
    game_summary <- find_result_set (U "GameSummary") sets ;;
    match game_summary with
    | Some gs =>
        if py_truthy gs then _ <- py_len gs ;; Ok (JDict summary)
        else Ok (JDict summary)
    | None => Ok (JDict summary)
    end.

(** The keys of an action that the event renames. *)
Definition renamed_action_keys : list str :=
  [ U "actionNumber"; U "actionType"; U "period"; U "clock"; U "description";
    U "scoreHome"; U "scoreAway"; U "teamId"; U "teamTricode"; U "playerName";
    U "playerNameI" ].

(** The event built from one action: twelve named fields, then every other
    field of the action ([**{...}]), a repeated key taking the later value. *)
Definition action_event (idx : nat) (action : list (str * json)) : json :=
  let get k default :=
    match dict_lookup k action with Some x => x | None => default end in
  let seq := JInt (Z.of_nat idx + 1) in
  let named :=
    [ (U "sequence", seq);
      (U "event_num", get (U "actionNumber") seq);
      (U "action_type", get (U "actionType") (JStr []));
      (U "period", get (U "period") (JInt 0));
      (U "clock", get (U "clock") (JStr []));
      (U "description", get (U "description") (JStr []));
      (U "score_home", get (U "scoreHome") (JStr []));
      (U "score_away", get (U "scoreAway") (JStr []));
      (U "team_id", get (U "teamId") JNull);
      (U "team_tricode", get (U "teamTricode") (JStr []));
      (U "player_name", get (U "playerName") (JStr []));
      (U "player_name_i", get (U "playerNameI") (JStr [])) ] in
  let others :=
    filter (fun kv => negb (existsb (str_eqb (fst kv)) renamed_action_keys))
           action in
  JDict (fold_left (fun d kv => dict_set (fst kv) (snd kv) d) others named).

(** [for idx, action in enumerate(actions)], from index [idx] on. *)
Fixpoint live_events (idx : nat) (actions : list json) : list json :=
  match actions with
  | [] => []
  | JDict action :: rest => action_event idx action :: live_events (S idx) rest
  | _ :: rest => live_events (S idx) rest
  end.

(** [for idx, row in enumerate(pbp_rows)], from index [idx] on. *)
Fixpoint stats_events (idx : nat) (rows : list json) : result (list json) :=
  match rows with
  | [] => Ok []
  | row :: rest =>
      let seq := JInt (Z.of_nat idx + 1) in
      event_num <- column row 1 seq ;;
      events <- stats_events (S idx) rest ;;
      Ok (JDict [(U "sequence", seq); (U "event_num", event_num)] :: events)
  end.

(** [actions = ...] followed by the debug line, which takes [len(actions)]
    of the truthy value it found. *)
Definition found_actions (actions : json) : result (option json) :=
  if py_truthy actions then _ <- py_len actions ;; Ok (Some actions)
  else Ok None.

(** The search for the actions, over the shapes the live endpoint may take. *)
Definition find_actions (pbp_data : json) : result (option json) :=
  game <- py_get pbp_data (U "game") JNull ;;
  if py_truthy game && is_dict game then
    actions <- py_get game (U "actions") JNull ;;
    found_actions actions
  else
    top_actions <- py_get pbp_data (U "actions") JNull ;;
    if py_truthy top_actions then found_actions top_actions
    else
      has_game <- py_contains (U "game") pbp_data ;;
      if has_game then
        let game_data :=
          match game with
          | JList (first :: _) => first
          | _ => game
          end in
        if is_dict game_data then
          actions <- py_get game_data (U "actions") JNull ;;
          found_actions actions
        else Ok None
      else Ok None.

Definition pbp_of (game_id : json) (events : list json) : json :=
  JDict [ (U "id", game_id); (U "sequence", JInt (Z.of_nat (length events)));
          (U "events", JList events) ].

Definition transform_playbyplay_to_pbp (pbp_data : json) (game_id : json)
  : result json :=
  actions <- find_actions pbp_data ;;
  match actions with
  | Some acts =>
      let actions := match acts with JList l => l | _ => [] end in
      Ok (pbp_of game_id (live_events 0 actions))
  | None =>
      result_sets <- py_get pbp_data (U "resultSets") JNull ;;
      if py_truthy result_sets then
        _ <- py_len result_sets ;;
        sets <- py_iter result_sets ;;
        pbp_rows <- find_result_set (U "PlayByPlay") sets ;;
        match pbp_rows with
        | Some rows_v =>
            if py_truthy rows_v then
              _ <- py_len rows_v ;;
              rows <- py_iter rows_v ;;
              events <- stats_events 0 rows ;;
              Ok (pbp_of game_id events)
            else Ok (pbp_of game_id [])
        | None => Ok (pbp_of game_id [])
        end
      else Ok (pbp_of game_id [])
  end.

End Transformers.

(** ** The world outside the bridge

    The Redis server and the [nba_api] client are collaborators.  A request
    sees one answer from each call it makes; the handlers' own state is the
    module-level Redis client and, for the proofs, the log of the calls made
    to the upstream client. *)

Inductive upstream_call :=
| GetScoreboard (year month day : Z)
| GetGameSummary (game_id : json)
| GetPlayByPlay (game_id : json).

Record world := {
  redis_installed : bool;
  redis_from_url : result unit;
  redis_ping : result unit;
  redis_get : str -> result (option str);
  nba_get_scoreboard : Z -> Z -> Z -> result json;
  nba_get_game_summary : json -> result json;
  nba_get_play_by_play : json -> result json
}.

Record hstate := {
  _redis_client : bool;
  upstream_log : list upstream_call
}.

(** A computation that reads and writes [hstate] and may raise. *)
Definition M (A : Type) := hstate -> result A * hstate.

Definition ret {A} (a : A) : M A := fun st => (Ok a, st).

Definition throw {A} (e : exn) : M A := fun st => (Raise e, st).

Definition lift {A} (r : result A) : M A := fun st => (r, st).

Definition mbind {A B} (m : M A) (k : A -> M B) : M B :=
  fun st =>
    match m st with
    | (Ok a, st') => k a st'
    | (Raise e, st') => (Raise e, st')
    end.

Notation "x <~ m ;; k" := (mbind m (fun x => k))
  (at level 61, m at next level, right associativity).

(** [try: m  except Exception as e: handler(e)] *)
Definition try_except {A} (m : M A) (handler : exn -> M A) : M A :=
  fun st =>
    match m st with
    | (Ok a, st') => (Ok a, st')
    | (Raise e, st') => handler e st'
    end.

Definition call_upstream (c : upstream_call) (answer : result json) : M json :=
  fun st =>
    (answer, {| _redis_client := _redis_client st;
                upstream_log := upstream_log st ++ [c] |}).

Section Service.

Context {rt : PyRuntime} (w : world).

(** ** app/utils/redis_client.py *)

Definition get_redis_client : M unit :=
  fun st =>
    if _redis_client st then (Ok tt, st)
    else if negb (redis_installed w) then (Raise (PyExc ImportError), st)
    else
      match redis_from_url w with
      | Raise e => (Raise e, st)
      | Ok _ =>
          let st' := {| _redis_client := true;
                        upstream_log := upstream_log st |} in
          match redis_ping w with
          | Raise e => (Raise e, st')
          | Ok _ => (Ok tt, st')
          end
      end.

(** [json.loads(text)] *)
Definition loads (text : str) : result json :=
  match json_loads text with
  | Some v => Ok v
  | None => Raise (PyExc JSONDecodeError)
  end.

(** [None] is [JNull]. *)
Definition get_game_metadata (game_uuid : str) : M json :=
  try_except
    (_ <~ get_redis_client ;;
     let key := U "game:meta:" ++ game_uuid in
     metadata_json <~ lift (redis_get w key) ;;
     match metadata_json with
     | Some ((_ :: _) as text) => lift (loads text)
     | _ => ret JNull
     end)
    (fun _ => ret JNull).

Definition get_nba_game_id_from_uuid (game_uuid : str) : M json :=
  metadata <~ get_game_metadata game_uuid ;;
  if py_truthy metadata then
    present <~ lift (py_contains (U "nba_game_id") metadata) ;;
    if present then lift (py_item metadata (U "nba_game_id"))
    else ret JNull
  else ret JNull.

(** ** The responses of the handlers *)

Inductive response :=
| JsonBody (headers : list (str * str)) (body : json)
| EmptyResponse (status_code : Z).

(** The status the client sees. *)
Definition http_status (r : result response) : Z :=
  match r with
  | Ok (JsonBody _ _) => 200
  | Ok (EmptyResponse c) => c
  | Raise (HTTPException c _) => c
  | Raise (PyExc _) => 500
  end.

(** The end of every handler: the ETag and the cache lifetime are set on the
    outgoing headers, and a matching [If-None-Match] gets a bare 304. *)
Definition conditional_response (if_none_match : option str) (max_age : str)
    (payload : json) : result response :=
  etag <- calculate_etag payload ;;
  let headers := [ (U "ETag", etag); (U "Cache-Control", U "max-age=" ++ max_age) ] in
  match if_none_match with
  | Some ((_ :: _) as header) =>
      if str_eqb header etag then Ok (EmptyResponse 304)
      else Ok (JsonBody headers payload)
  | _ => Ok (JsonBody headers payload)
  end.

(** ** app/endpoints/games.py *)

Definition not_in_cache (game_id : str) : exn :=
  HTTPException 404
    (Text (U "Game ID " ++ game_id
           ++ U " not found in cache. Game may not be in today's schedule.")).

(** The first lines of both game handlers: the two forms of the id.
    Returns [(nba_game_id, game_uuid)]. *)
Definition resolve_game_id (game_id : str) : M (json * str) :=
  if is_nba_game_id game_id then
    game_uuid <~ lift (nba_game_id_to_uuid game_id) ;;
    ret (JStr game_id, game_uuid)
  else
    nba_game_id <~ get_nba_game_id_from_uuid game_id ;;
    if negb (py_truthy nba_game_id) then throw (not_in_cache game_id)
    else ret (nba_game_id, game_id).

Definition get_game_summary (game_id : str) (if_none_match : option str)
  : M response :=
  try_except
    (ids <~ resolve_game_id game_id ;;
     boxscore_data <~ call_upstream (GetGameSummary (fst ids))
                                    (nba_get_game_summary w (fst ids)) ;;
     summary <~ lift (transform_boxscore_to_summary boxscore_data (JStr (snd ids))) ;;
     lift (conditional_response if_none_match (U "60") summary))
    (fun e => throw (HTTPException 500 (Wrapped (U "Error fetching game summary: ") e))).

Definition get_play_by_play (game_id : str) (if_none_match : option str)
  : M response :=
  try_except
    (ids <~ resolve_game_id game_id ;;
     pbp_data <~ call_upstream (GetPlayByPlay (fst ids))
                               (nba_get_play_by_play w (fst ids)) ;;
     pbp <~ lift (transform_playbyplay_to_pbp pbp_data (JStr (snd ids))) ;;
     lift (conditional_response if_none_match (U "30") pbp))
    (fun e => throw (HTTPException 500 (Wrapped (U "Error fetching play-by-play: ") e))).

(** ** app/endpoints/schedule.py *)

Definition is_leap (year : Z) : bool :=
  (year mod 4 =? 0) && (negb (year mod 100 =? 0) || (year mod 400 =? 0)).

Definition days_in_month (year month : Z) : Z :=
  if month =? 2 then (if is_leap year then 29 else 28)
  else if (month =? 4) || (month =? 6) || (month =? 9) || (month =? 11) then 30
  else 31.

(** [date(year, month, day)] *)
Definition make_date (year month day : Z) : result unit :=
  if (1 <=? year) && (year <=? 9999) && (1 <=? month) && (month <=? 12)
     && (1 <=? day) && (day <=? days_in_month year month)
  then Ok tt else Raise (PyExc ValueError).

(** [f"{n:02d}"] for [0 <= n] *)
Definition format_02d (n : Z) : str :=
  if n <? 10 then U "0" ++ str_of_Z n else str_of_Z n.

(** The classes [except ValueError] catches. *)
Definition is_value_error (e : exn) : bool :=
  match e with
  | PyExc ValueError | PyExc UnicodeEncodeError | PyExc JSONDecodeError => true
  | _ => false
  end.

Definition get_schedule (year month day : Z) (if_none_match : option str)
  : M response :=
  try_except
    (_ <~ lift (make_date year month day) ;;
     scoreboard_data <~ call_upstream (GetScoreboard year month day)
                                      (nba_get_scoreboard w year month day) ;;
     let date_str := str_of_Z year ++ U "-" ++ format_02d month
                       ++ U "-" ++ format_02d day in
     schedule <~ lift (transform_scoreboard_to_schedule scoreboard_data (JStr date_str)) ;;
     lift (conditional_response if_none_match (U "3600") schedule))
    (fun e =>
       if is_value_error e
       then throw (HTTPException 400 (Wrapped (U "Invalid date: ") e))
       else throw (HTTPException 500 (Wrapped (U "Error fetching schedule: ") e))).

End Service.

(** ** Definitions used by the statements *)

(** A text UTF-8 can encode: every code point is a Unicode scalar value. *)
Definition encodable (s : str) : bool := forallb is_scalar s.

(** No whitespace at either end. *)
Definition trimmed (s : str) : Prop :=
  (forall c rest, s = c :: rest -> isspace_cp c = false)
  /\ (forall c init, s = init ++ [c] -> isspace_cp c = false).

(** Ten superscript twos (U+00B2). *)
Definition superscript_twos : str := repeat 178 10.

(** *** Well-formed values *)

Definition printable (s : str) : bool :=
  forallb (fun c => (32 <=? c) && (c <=? 126)) s.

Fixpoint distinct (keys : list str) : bool :=
  match keys with
  | [] => true
  | k :: rest => negb (existsb (str_eqb k) rest) && distinct rest
  end.

(** The values Python can hold: the keys of a dict are pairwise distinct,
    and the [repr] of a float is printable ASCII. *)
Fixpoint wf_json (v : json) : bool :=
  match v with
  | JFloat r => printable r
  | JList l => forallb wf_json l
  | JDict items =>
      distinct (map fst items) && forallb (fun kv => wf_json (snd kv)) items
  | _ => true
  end.

(** *** The canonical form the specification describes *)

Fixpoint ascending (keys : list str) : bool :=
  match keys with
  | k :: (k' :: _) as rest => str_leb k k' && ascending rest
  | _ => true
  end.

(** Every dict, at every depth, lists its keys in ascending order. *)
Fixpoint keys_sorted (v : json) : bool :=
  match v with
  | JList l => forallb keys_sorted l
  | JDict items =>
      ascending (map fst items) && forallb (fun kv => keys_sorted (snd kv)) items
  | _ => true
  end.

(** The same value with the items of every dict put in key order. *)
Fixpoint canonicalize (v : json) : json :=
  match v with
  | JList l => JList (map canonicalize l)
  | JDict items =>
      JDict (sort_items (map (fun kv => (fst kv, canonicalize (snd kv))) items))
  | _ => v
  end.

(** The canonical serialization: the canonical form, written out in the
    order it stands in. *)
Definition canonical_serialization (v : json) : str :=
  Json.dumps false (canonicalize v).

(** Two values that are equal as mappings: the same scalars, lists equal
    element by element, dicts with the same keys bound to equal values, the
    items in any order. *)
#[local] Unset Elimination Schemes.
Inductive same_mapping : json -> json -> Prop :=
| SM_null : same_mapping JNull JNull
| SM_bool b : same_mapping (JBool b) (JBool b)
| SM_int n : same_mapping (JInt n) (JInt n)
| SM_float r : same_mapping (JFloat r) (JFloat r)
| SM_str s : same_mapping (JStr s) (JStr s)
| SM_list l1 l2 :
    Forall2 same_mapping l1 l2 -> same_mapping (JList l1) (JList l2)
| SM_dict items1 items2 reordered :
    Permutation items2 reordered ->
    Forall2 (fun kv kv' => fst kv = fst kv' /\ same_mapping (snd kv) (snd kv'))
            items1 reordered ->
    same_mapping (JDict items1) (JDict items2).
#[local] Set Elimination Schemes.

(** Induction over a value and the values nested in it. *)
Section JsonInd.

Variable P : json -> Prop.
Hypothesis Hnull : P JNull.
Hypothesis Hbool : forall b, P (JBool b).
Hypothesis Hint : forall n, P (JInt n).
Hypothesis Hfloat : forall r, P (JFloat r).
Hypothesis Hstr : forall s, P (JStr s).
Hypothesis Hlist : forall l, Forall P l -> P (JList l).
Hypothesis Hdict :
  forall items, Forall (fun kv => P (snd kv)) items -> P (JDict items).

Fixpoint json_nested_ind (v : json) : P v :=
  match v with
  | JNull => Hnull
  | JBool b => Hbool b
  | JInt n => Hint n
  | JFloat r => Hfloat r
  | JStr s => Hstr s
  | JList l =>
      Hlist ((fix go (l : list json) : Forall P l :=
                match l with
                | [] => Forall_nil _
                | x :: rest => Forall_cons _ (json_nested_ind x) (go rest)
                end) l)
  | JDict items =>
      Hdict ((fix go (l : list (str * json))
                : Forall (fun kv => P (snd kv)) l :=
                match l with
                | [] => Forall_nil _
                | kv :: rest =>
                    Forall_cons kv (json_nested_ind (snd kv)) (go rest)
                end) items)
  end.

End JsonInd.

(** The two payloads of the specification's example. *)
Definition payload_ab : json := JDict [(U "a", JInt 1); (U "b", JInt 2)].
Definition payload_ba : json := JDict [(U "b", JInt 2); (U "a", JInt 1)].

(** *** Key order *)

Definition key_le {V} (x y : str * V) : Prop :=
  str_leb (fst x) (fst y) = true.

(** Every later item has a key at least as large. *)
Fixpoint in_key_order {V} (l : list (str * V)) : Prop :=
  match l with
  | [] => True
  | x :: rest => Forall (key_le x) rest /\ in_key_order rest
  end.

(** A text whose characters all fit in eight bits. *)
Definition text8 (s : str) : Prop := Forall (fun c => 0 <= c < 256) s.

(** *** The status classifier as the specification words it *)

(** The four upstream signals, each possibly absent. *)
Record signals := {
  sig_code : option Z;
  sig_text : option str;
  sig_period : option Z;
  sig_clock : option str
}.

Definition json_of_opt_int (x : option Z) : json :=
  match x with
  | Some n => JInt n
  | None => JNull
  end.

Definition code_is (n : Z) (s : signals) : bool :=
  match sig_code s with
  | Some m => m =? n
  | None => false
  end.

(** Case-insensitive substring match on the free text. *)
Definition text_has {rt : PyRuntime} (pattern : str) (s : signals) : bool :=
  match sig_text s with
  | Some t => contains pattern (str_lower t)
  | None => false
  end.

Definition clock_running (s : signals) : bool :=
  match sig_period s, sig_clock s with
  | Some _, Some (_ :: _) => true
  | _, _ => false
  end.

(** The rules, top to bottom. *)
Definition status_rules {rt : PyRuntime} (s : signals) : list (bool * str) :=
  [ (code_is 2 s, U "inprogress");
    (code_is 3 s, U "closed");
    (text_has (U "final") s, U "closed");
    (text_has (U "live") s, U "inprogress");
    (text_has (U "in progress") s, U "inprogress");
    (text_has (U "postponed") s, U "postponed");
    (text_has (U "delayed") s, U "delayed");
    (text_has (U "pm") s, U "scheduled");
    (text_has (U "am") s, U "scheduled");
    (text_has (U "et") s, U "scheduled");
    (clock_running s, U "inprogress") ].

Fixpoint first_match {A} (rules : list (bool * A)) (default : A) : A :=
  match rules with
  | [] => default
  | (true, a) :: _ => a
  | (false, _) :: rest => first_match rest default
  end.

Definition classify_status {rt : PyRuntime} (s : signals) : str :=
  first_match (status_rules s) (U "scheduled").

Definition status_values : list str :=
  [ U "scheduled"; U "inprogress"; U "closed"; U "postponed"; U "delayed" ].

(** *** What is asked of the runtime *)

Definition ascii_lower_cp (c : Z) : Z :=
  if (65 <=? c) && (c <=? 90) then c + 32 else c.

Definition is_ascii (s : str) : bool :=
  forallb (fun c => (0 <=? c) && (c <? 128)) s.

(** On ASCII text [str.lower] maps A-Z to a-z and nothing else. *)
Class PyRuntimeLaws (rt : PyRuntime) : Prop := {
  lower_ascii : forall s, is_ascii s = true -> str_lower s = map ascii_lower_cp s
}.

(** *** A runtime and worlds for the examples *)

Definition example_record : json :=
  JDict [(U "nba_game_id", JStr (U "0022300123"))].

(** [json.loads] on the three texts the examples store. *)
Definition example_loads (text : str) : option json :=
  if str_eqb text (Json.dumps false example_record) then Some example_record
  else if str_eqb text (U "5") then Some (JInt 5)
  else if str_eqb text (U "{}") then Some (JDict [])
  else None.

Definition example_runtime : PyRuntime := {|
  str_lower := map ascii_lower_cp;
  container_repr := fun _ => U "[...]";
  iso_normalize := fun s => Some s;
  json_loads := example_loads
|}.

Definition fresh : hstate := {| _redis_client := false; upstream_log := [] |}.

(** A reachable store holding [stored] under every key, and an upstream
    client that answers every call with [answer]. *)
Definition example_world (stored : option str) (answer : result json) : world := {|
  redis_installed := true;
  redis_from_url := Ok tt;
  redis_ping := Ok tt;
  redis_get := fun _ => Ok stored;
  nba_get_scoreboard := fun _ _ _ => answer;
  nba_get_game_summary := fun _ => answer;
  nba_get_play_by_play := fun _ => answer
|}.

(** A store that cannot be reached. *)
Definition unreachable_world : world := {|
  redis_installed := true;
  redis_from_url := Ok tt;
  redis_ping := Raise (PyExc ConnectionError);
  redis_get := fun _ => Raise (PyExc TimeoutError);
  nba_get_scoreboard := fun _ _ _ => Raise (PyExc UpstreamError);
  nba_get_game_summary := fun _ => Raise (PyExc UpstreamError);
  nba_get_play_by_play := fun _ => Raise (PyExc UpstreamError)
|}.

Definition example_uuid : str := U "23c1b90f-1dbe-559f-b598-498878ed17f0".

(** The two inputs of the specification's examples. *)
Definition final_with_clock : signals :=
  {| sig_code := Some 3; sig_text := Some (U "Q4 0:00");
     sig_period := Some 4; sig_clock := Some (U "0:00") |}.

Definition tip_off_time : signals :=
  {| sig_code := None; sig_text := Some (U "7:00 pm ET");
     sig_period := None; sig_clock := None |}.

(** The store answers: a client exists already, or one can be created. *)
Definition reachable (w : world) (st : hstate) : Prop :=
  _redis_client st = true
  \/ (redis_installed w = true /\ redis_from_url w = Ok tt
      /\ redis_ping w = Ok tt).

Definition meta_key (game_uuid : str) : str := U "game:meta:" ++ game_uuid.

(** The part of [get_nba_game_id_from_uuid] after the metadata is read. *)
Definition field_of (metadata : json) : result json :=
  if py_truthy metadata then
    present <- py_contains (U "nba_game_id") metadata ;;
    if present then py_item metadata (U "nba_game_id") else Ok JNull
  else Ok JNull.

(** *** Shapes the transformers do not know *)

Definition absent_or_empty (k : str) (items : list (str * json)) : bool :=
  match dict_lookup k items with
  | None => true
  | Some v => negb (py_truthy v)
  end.

(** Neither scoreboard format: no [resultSets], and no [scoreboard] entry
    that holds [games]. *)
Definition unknown_scoreboard (items : list (str * json)) : bool :=
  match dict_lookup (U "resultSets") items with
  | Some _ => false
  | None =>
      match dict_lookup (U "scoreboard") items with
      | None => true
      | Some sb =>
          match py_contains (U "games") sb with
          | Ok false => true
          | _ => false
          end
      end
  end.

(** A value that is not a mapping with something under [actions]. *)
Definition without_actions (v : json) : bool :=
  match v with
  | JDict items => absent_or_empty (U "actions") items
  | _ => true
  end.

(** Neither play-by-play format: nothing under [resultSets], and no actions
    where the transformer looks for them.  When [game] is a non-empty
    mapping that is under its [actions] only; otherwise it is under the
    top-level [actions] and, when there is a [game] entry, under the
    [actions] of that entry, or of its first element when it is a list. *)
Definition unknown_pbp (items : list (str * json)) : bool :=
  absent_or_empty (U "resultSets") items
  && match dict_lookup (U "game") items with
     | Some game =>
         if py_truthy game && is_dict game then without_actions game
         else absent_or_empty (U "actions") items
              && without_actions match game with
                                 | JList (first :: _) => first
                                 | _ => game
                                 end
     | None => absent_or_empty (U "actions") items
     end.

(** *** The two ids of a schedule entry *)

Definition has_ids (items : list (str * json)) (nba_game_id game_uuid : str)
  : Prop :=
  dict_lookup (U "nba_game_id") items = Some (JStr nba_game_id)
  /\ dict_lookup (U "id") items = Some (JStr game_uuid).

(** A game object whose provider id is not empty and whose stable id is
    the one [nba_game_id_to_uuid] derives from it. *)
Definition game_consistent (game : json) : Prop :=
  exists items nba_game_id game_uuid,
    game = JDict items
    /\ has_ids items nba_game_id game_uuid
    /\ nba_game_id <> []
    /\ nba_game_id_to_uuid nba_game_id = Ok game_uuid.

(** A live scoreboard with one game and one entry without a game id. *)
Definition example_scoreboard : json :=
  JDict [ (U "scoreboard",
           JDict [ (U "gameDate", JStr (U "2025-01-08"));
                   (U "games",
                    JList [ JDict [ (U "gameId", JStr (U "0022300123"));
                                    (U "gameStatus", JInt 2);
                                    (U "gameStatusText", JStr (U "Q1 1:42")) ];
                            JDict [ (U "gameId", JStr []) ] ]) ]) ].

(** *** The text form of a UUID *)

Definition is_lower_hex (c : Z) : bool :=
  ((48 <=? c) && (c <=? 57)) || ((97 <=? c) && (c <=? 102)).

(** Position [i] of the 8-4-4-4-12 form holds a dash or a lowercase
    hexadecimal digit. *)
Definition uuid_char_ok (i : nat) (c : Z) : bool :=
  if existsb (Nat.eqb i) [8; 13; 18; 23]%nat then c =? 45 else is_lower_hex c.

Fixpoint uuid_chars_ok (i : nat) (s : str) : bool :=
  match s with
  | [] => true
  | c :: rest => uuid_char_ok i c && uuid_chars_ok (S i) rest
  end.

(** Thirty-six characters, dashes at 8, 13, 18 and 23, lowercase
    hexadecimal digits elsewhere. *)
Definition canonical_uuid_text (s : str) : bool :=
  Nat.eqb (length s) 36 && uuid_chars_ok 0 s.

(** *** What a handler may answer *)

(** A body goes out with the ETag of that very body and the endpoint's
    cache lifetime, to a request that did not already hold this ETag; a
    bodiless answer is a 304, to a request that sent [If-None-Match]. *)
Definition answer_ok (max_age : str) (if_none_match : option str)
    (r : response) : Prop :=
  match r with
  | JsonBody headers body =>
      exists etag,
        calculate_etag body = Ok etag
        /\ headers = [ (U "ETag", etag);
                       (U "Cache-Control", U "max-age=" ++ max_age) ]
        /\ if_none_match <> Some etag
  | EmptyResponse code =>
      code = 304 /\ exists etag, if_none_match = Some etag /\ etag <> []
  end.

(** A computation that makes at most [n] calls to the upstream client. *)
Definition calls_at_most (n : nat) {A} (m : M A) : Prop :=
  forall st, exists calls,
    upstream_log (snd (m st)) = upstream_log st ++ calls
    /\ (length calls <= n)%nat.

(** An integer that fits a C [int], as [date(...)] wants its arguments. *)
Definition c_int (v : Z) : Prop := -2147483648 <= v <= 2147483647.

(** A live scoreboard whose only entry has a blank game id. *)
Definition blank_id_scoreboard : json :=
  JDict [ (U "scoreboard",
           JDict [ (U "games", JList [ JDict [ (U "gameId", JStr (U "  ")) ] ]) ]) ].

(** *** The fields of a play-by-play event *)

(** The fields an event takes from the action under another name:
    (key in the action, key in the event, default). *)
Definition renamed_fields (idx : nat) : list (str * str * json) :=
  [ (U "actionNumber", U "event_num", JInt (Z.of_nat idx + 1));
    (U "actionType", U "action_type", JStr []);
    (U "period", U "period", JInt 0);
    (U "clock", U "clock", JStr []);
    (U "description", U "description", JStr []);
    (U "scoreHome", U "score_home", JStr []);
    (U "scoreAway", U "score_away", JStr []);
    (U "teamId", U "team_id", JNull);
    (U "teamTricode", U "team_tricode", JStr []);
    (U "playerName", U "player_name", JStr []);
    (U "playerNameI", U "player_name_i", JStr []) ].

Definition lookup_or {V} (k : str) (items : list (str * V)) (default : V) : V :=
  match dict_lookup k items with
  | Some v => v
  | None => default
  end.

Definition is_renamed (k : str) : bool := existsb (str_eqb k) renamed_action_keys.

(** The status read off the lowered text, the period and the clock. *)
Definition text_status (lowered : str) (period clock : json) : str :=
  if contains (U "final") lowered then U "closed"
  else if contains (U "live") lowered || contains (U "in progress") lowered
  then U "inprogress"
  else if contains (U "postponed") lowered then U "postponed"
  else if contains (U "delayed") lowered then U "delayed"
  else if contains (U "pm") lowered || contains (U "am") lowered
          || contains (U "et") lowered
  then U "scheduled"
  else if negb (is_none period) && py_truthy clock then U "inprogress"
  else U "scheduled".

(** *** Reading the schedule *)

(** The game id of an upstream entry, as the transformer reads it:
    [str(entry.get('gameId', ''))]. *)
Definition entry_game_id {rt : PyRuntime} (entry : json) : str :=
  match entry with
  | JDict items => py_str (lookup_or (U "gameId") items (JStr []))
  | _ => []
  end.

Definition game_provider_id (game : json) : option json :=
  match game with
  | JDict items => dict_lookup (U "nba_game_id") items
  | _ => None
  end.

Definition non_empty (s : str) : bool :=
  match s with
  | [] => false
  | _ => true
  end.

(** The keys a summary may carry after its four fixed ones. *)
Definition summary_extras : list str :=
  [ U "period"; U "clock"; U "game_status"; U "leaders" ].

(** A summary: id, status, home and away in this order, then some of the
    optional fields. *)
Definition summary_shape (game_id : json) (items : list (str * json)) : Prop :=
  exists status home away rest,
    items = (U "id", game_id) :: (U "status", JStr status)
              :: (U "home", home) :: (U "away", away) :: rest
    /\ In status status_values
    /\ Forall (fun kv => In (fst kv) summary_extras) rest.

(** *** The detailed health check *)

(** What the two imports of the health check give: the module
    [nba_api.stats.endpoints], as the test [hasattr(module, name)], and the
    import of [scoreboard] from [nba_api.live.nba.endpoints]. *)
Record libraries := {
  stats_endpoints : result (str -> bool);
  live_scoreboard : result unit
}.

Section Health.

(** [exc_text e] is [str(e)]. *)
Context (w : world) (libs : libraries) (exc_text : exn -> str).

Definition healthy : json := JStr (U "healthy").

Definition failed_check (status : str) (e : exn) : json :=
  JDict [ (U "status", JStr status); (U "error", JStr (exc_text e)) ].

(** The first [try]: the entry for [redis] and whether it passed. *)
Definition redis_check : M (json * bool) :=
  try_except
    (_ <~ get_redis_client w ;;
     _ <~ lift (redis_ping w) ;;
     ret (JDict [ (U "status", healthy); (U "connected", JBool true) ], true))
    (fun e => ret (failed_check (U "unhealthy") e, false)).

Definition key_endpoints : list str :=
  [ U "BoxScoreSummaryV2"; U "PlayByPlayV2"; U "ScoreboardV2" ].

(** [for endpoint_name in [...]]: the names found and the names missing. *)
Definition sort_endpoints (has : str -> bool) (names : list str)
  : list str * list str :=
  fold_left
    (fun acc endpoint_name =>
       if has endpoint_name then (fst acc ++ [endpoint_name], snd acc)
       else (fst acc, snd acc ++ [endpoint_name]))
    names ([], []).

(** The second [try]: the entry for [nba_api] and whether it passed. *)
Definition nba_api_check : json * bool :=
  match stats_endpoints libs with
  | Ok has =>
      let (endpoints_found, endpoints_missing) := sort_endpoints has key_endpoints in
      let none_missing := match endpoints_missing with [] => true | _ => false end in
      (JDict [ (U "status", if none_missing then healthy else JStr (U "degraded"));
               (U "endpoints_found", JList (map JStr endpoints_found));
               (U "endpoints_missing", JList (map JStr endpoints_missing)) ],
       none_missing)
  | Raise e => (failed_check (U "unhealthy") e, false)
  end.

(** The third [try]: the entry for [nba_api_live]. *)
Definition nba_api_live_check : json :=
  match live_scoreboard libs with
  | Ok _ => JDict [ (U "status", healthy); (U "available", JBool true) ]
  | Raise e => failed_check (U "degraded") e
  end.

(** [health["checks"]] is filled in place; [health] holds that same object. *)
Definition detailed_health_check : M json :=
  redis <~ redis_check ;;
  let checks := dict_set (U "redis") (fst redis) [] in
  let all_healthy := snd redis in
  let checks := dict_set (U "nba_api") (fst nba_api_check) checks in
  let all_healthy := all_healthy && snd nba_api_check in
  let checks := dict_set (U "nba_api_live") nba_api_live_check checks in
  let health := [ (U "status", healthy);
                  (U "service", JStr (U "nba-api-bridge"));
                  (U "checks", JDict checks) ] in
  ret (JDict (if all_healthy then health
              else dict_set (U "status") (JStr (U "degraded")) health)).

End Health.

(** The store can be pinged: a client exists or can be made, and it answers. *)
Definition store_answers (w : world) (st : hstate) : Prop :=
  (_redis_client st = true
   \/ (redis_installed w = true /\ redis_from_url w = Ok tt))
  /\ redis_ping w = Ok tt.

(** The stats module can be imported and has the three endpoints. *)
Definition endpoints_present (libs : libraries) : Prop :=
  exists has, stats_endpoints libs = Ok has
              /\ forall name, In name key_endpoints -> has name = true.

(** The report of the health check: status, service, and the three checks. *)
Definition health_report (status : str) (redis nba_api nba_api_live : json)
  : json :=
  JDict [ (U "status", JStr status);
          (U "service", JStr (U "nba-api-bridge"));
          (U "checks", JDict [ (U "redis", redis); (U "nba_api", nba_api);
                               (U "nba_api_live", nba_api_live) ]) ].

(** The [status] field of a check. *)
Definition check_status (check : json) : option json :=
  match check with
  | JDict items => dict_lookup (U "status") items
  | _ => None
  end.

(** Exceptions told apart by their kind or their status code only. *)
Definition example_exc_text (e : exn) : str :=
  match e with
  | PyExc _ => U "error"
  | HTTPException _ _ => U "http error"
  end.

Definition example_libraries : libraries :=
  {| stats_endpoints := Ok (fun _ => true);
     live_scoreboard := Raise (PyExc ImportError) |}.

(** *** [is_valid_uuid] and the constructor [uuid.UUID(hex)] *)

(** [s.replace(old, '')] for a non-empty [old]: the occurrences of [old] are
    dropped from left to right; [skip] counts the characters of an
    occurrence that are still to drop. *)
Fixpoint remove_sub (old : str) (skip : nat) (s : str) : str :=
  match s with
  | [] => []
  | c :: rest =>
      match skip with
      | S k => remove_sub old k rest
      | O =>
          if starts_with old s then remove_sub old (length old - 1) rest
          else c :: remove_sub old 0 rest
      end
  end.

Fixpoint lstrip_chars (chars : str) (s : str) : str :=
  match s with
  | [] => []
  | c :: rest =>
      if existsb (Z.eqb c) chars then lstrip_chars chars rest else s
  end.

(** [s.strip(chars)] *)
Definition strip_chars (chars : str) (s : str) : str :=
  rev (lstrip_chars chars (rev (lstrip_chars chars s))).

(** The code points with a decimal digit value ([Py_UNICODE_TODECIMAL]), as
    inclusive ranges; every range starts at a zero and counts up. *)
Definition decimal_ranges : list (Z * Z) :=
  [ (48, 57); (1632, 1641); (1776, 1785); (1984, 1993); (2406, 2415);
    (2534, 2543); (2662, 2671); (2790, 2799); (2918, 2927); (3046, 3055);
    (3174, 3183); (3302, 3311); (3430, 3439); (3558, 3567); (3664, 3673);
    (3792, 3801); (3872, 3881); (4160, 4169); (4240, 4249); (6112, 6121);
    (6160, 6169); (6470, 6479); (6608, 6617); (6784, 6793); (6800, 6809);
    (6992, 7001); (7088, 7097); (7232, 7241); (7248, 7257); (42528, 42537);
    (43216, 43225); (43264, 43273); (43472, 43481); (43504, 43513);
    (43600, 43609); (44016, 44025); (65296, 65305); (66720, 66729);
    (68912, 68921); (69734, 69743); (69872, 69881); (69942, 69951);
    (70096, 70105); (70384, 70393); (70736, 70745); (70864, 70873);
    (71248, 71257); (71360, 71369); (71472, 71481); (71904, 71913);
    (72016, 72025); (72784, 72793); (73040, 73049); (73120, 73129);
    (92768, 92777); (92864, 92873); (93008, 93017); (120782, 120831);
    (123200, 123209); (123632, 123641); (125264, 125273); (130032, 130041) ].

Definition to_decimal (c : Z) : option Z :=
  match find (fun r => (fst r <=? c) && (c <=? snd r)) decimal_ranges with
  | Some r => Some ((c - fst r) mod 10)
  | None => None
  end.

(** What [int] does to a [str] before it reads it: a character below 127
    stays, any other whitespace becomes a space, a decimal digit of any
    script its ASCII digit; at the first other character the text ends
    with a question mark.  An ASCII text is taken as it is. *)
Fixpoint transform_decimal_and_space (s : str) : str :=
  match s with
  | [] => []
  | c :: rest =>
      if c <? 127 then c :: transform_decimal_and_space rest
      else if isspace_cp c then 32 :: transform_decimal_and_space rest
      else match to_decimal c with
           | Some d => (48 + d) :: transform_decimal_and_space rest
           | None => [63]
           end
  end.

Definition to_ascii_digits (s : str) : str :=
  if forallb (fun c => c <? 128) s then s else transform_decimal_and_space s.

(** The C locale's [isspace]. *)
Definition c_isspace (c : Z) : bool :=
  ((9 <=? c) && (c <=? 13)) || (c =? 32).

Fixpoint skip_spaces (s : str) : str :=
  match s with
  | [] => []
  | c :: rest => if c_isspace c then skip_spaces rest else s
  end.

(** The value of a digit in a base up to 36. *)
Definition digit_value (c : Z) : option Z :=
  if (48 <=? c) && (c <=? 57) then Some (c - 48)
  else if (97 <=? c) && (c <=? 122) then Some (c - 87)
  else if (65 <=? c) && (c <=? 90) then Some (c - 55)
  else None.

(** The digits of a number in base 16, single underscores between them:
    the value read and the text left, or nothing when an underscore is
    doubled or comes last. *)
Fixpoint scan_digits (prev_underscore : bool) (acc : Z) (s : str)
  : option (Z * str) :=
  let stop := if prev_underscore then None else Some (acc, s) in
  match s with
  | [] => stop
  | c :: rest =>
      if c =? 95 then
        if prev_underscore then None else scan_digits true acc rest
      else
        match digit_value c with
        | Some d => if d <? 16 then scan_digits false (16 * acc + d) rest
                    else stop
        | None => stop
        end
  end.

(** The sign in front of a number: the sign and the text after it. *)
Definition read_sign (s : str) : Z * str :=
  match s with
  | c :: rest =>
      if c =? 43 then (1, rest)
      else if c =? 45 then (-1, rest)
      else (1, s)
  | [] => (1, s)
  end.

(** The prefix [0x] or [0X] of base 16 is skipped, and one underscore
    after it. *)
Definition skip_prefix (s : str) : str :=
  match s with
  | zero :: x :: rest =>
      if (zero =? 48) && ((x =? 120) || (x =? 88)) then
        match rest with
        | c :: rest' => if c =? 95 then rest' else rest
        | [] => rest
        end
      else s
  | _ => s
  end.

Definition starts_with_underscore (s : str) : bool :=
  match s with
  | c :: _ => c =? 95
  | [] => false
  end.

(** The digits, at least one, and nothing after them but whitespace. *)
Definition read_digits (sign : Z) (s : str) : option Z :=
  if starts_with_underscore s then None
  else
    match scan_digits false 0 s with
    | None => None
    | Some (n, rest) =>
        if Nat.eqb (length rest) (length s) then None
        else match skip_spaces rest with
             | [] => Some (sign * n)
             | _ => None
             end
    end.

(** [int(s, 16)] for a [str]; [None] is [ValueError]. *)
Definition int_base16 (s : str) : option Z :=
  let (sign, s) := read_sign (skip_spaces (to_ascii_digits s)) in
  read_digits sign (skip_prefix s).

(** The text [uuid.UUID] reads its digits from. *)
Definition uuid_digits (hex : str) : str :=
  let hex := remove_sub (U "uuid:") 0 (remove_sub (U "urn:") 0 hex) in
  replace_cp 45 [] (strip_chars (U "{}") hex).

(** [uuid.UUID(hex)], as the integer of the UUID. *)
Definition uuid_UUID (hex : json) : result UUID.t :=
  match hex with
  | JNull => Raise (PyExc TypeError)
  | JStr hex =>
      let hex := uuid_digits hex in
      if negb (Nat.eqb (length hex) 32) then Raise (PyExc ValueError)
      else match int_base16 hex with
           | None => Raise (PyExc ValueError)
           | Some int =>
               if (0 <=? int) && (int <? 2 ^ 128) then Ok int
               else Raise (PyExc ValueError)
           end
  | _ => Raise (PyExc AttributeError)
  end.

(** app/utils/game_id_mapper.py: [except (ValueError, AttributeError)]. *)
Definition is_valid_uuid (uuid_string : json) : result bool :=
  match uuid_UUID uuid_string with
  | Ok _ => Ok true
  | Raise e =>
      if is_value_error e then Ok false
      else match e with
           | PyExc AttributeError => Ok false
           | _ => Raise e
           end
  end.

(** A digit of base 16, in either case. *)
Definition is_hex (c : Z) : bool :=
  is_lower_hex c || ((65 <=? c) && (c <=? 70)).

Definition hex_digits (s : str) : Prop := forallb is_hex s = true.

(** An entry of the live scoreboard that the transformer can read: a
    mapping whose game id is empty, or is not blank and can be written in
    UTF-8, whose status text is a text, and whose teams are mappings. *)
Definition live_entry_ok {rt : PyRuntime} (entry : json) : Prop :=
  exists items,
    entry = JDict items
    /\ (entry_game_id entry = []
        \/ (strip (entry_game_id entry) <> []
            /\ encodable (strip (entry_game_id entry)) = true))
    /\ (forall v, dict_lookup (U "gameStatusText") items = Some v ->
                  exists s, v = JStr s)
    /\ (forall v, dict_lookup (U "homeTeam") items = Some v -> is_dict v = true)
    /\ (forall v, dict_lookup (U "awayTeam") items = Some v -> is_dict v = true).

(** * Properties *)

(** ** Strings *)

Lemma str_eqb_eq (a b : str) : str_eqb a b = true <-> a = b.
Proof.
  unfold str_eqb. destruct (list_eq_dec Z.eq_dec a b); split; congruence.
Qed.

Lemma str_eqb_refl (a : str) : str_eqb a a = true.
Proof. apply str_eqb_eq. reflexivity. Qed.

Lemma str_eqb_neq (a b : str) : str_eqb a b = false <-> a <> b.
Proof.
  unfold str_eqb. destruct (list_eq_dec Z.eq_dec a b); split; congruence.
Qed.

Lemma lstrip_split (s : str) :
  exists l, s = l ++ lstrip s /\ forallb isspace_cp l = true.
Proof.
  induction s as [|c s IH]; simpl.
  - exists []. auto.
  - destruct (isspace_cp c) eqn:E.
    + destruct IH as (l & Hs & Hl). exists (c :: l). simpl.
      rewrite E, Hl. split; [congruence | reflexivity].
    + exists []. auto.
Qed.

Lemma lstrip_head (s : str) c rest :
  lstrip s = c :: rest -> isspace_cp c = false.
Proof.
  induction s as [|d s IH]; simpl; [discriminate|].
  destruct (isspace_cp d) eqn:E; [exact IH|].
  intros H. injection H as -> _. exact E.
Qed.

Lemma rstrip_split (s : str) :
  exists r, s = rstrip s ++ r /\ forallb isspace_cp r = true.
Proof.
  unfold rstrip. destruct (lstrip_split (rev s)) as (l & Hs & Hl).
  exists (rev l). split.
  - rewrite <- rev_app_distr, <- Hs, rev_involutive. reflexivity.
  - rewrite forallb_forall in *. intros x Hx. apply Hl, in_rev, Hx.
Qed.

Lemma rstrip_last (s : str) c init :
  rstrip s = init ++ [c] -> isspace_cp c = false.
Proof.
  unfold rstrip. intros H.
  apply (f_equal (@rev Z)) in H. rewrite rev_involutive, rev_app_distr in H.
  simpl in H. eapply lstrip_head, H.
Qed.

Lemma strip_split (s : str) :
  exists l r, s = l ++ strip s ++ r
              /\ forallb isspace_cp l = true /\ forallb isspace_cp r = true.
Proof.
  destruct (lstrip_split s) as (l & Hs & Hl).
  destruct (rstrip_split (lstrip s)) as (r & Hr & Hr').
  exists l, r. unfold strip. rewrite <- Hr. auto.
Qed.

Lemma strip_trimmed (s : str) : trimmed (strip s).
Proof.
  split.
  - intros c rest H. unfold strip in H.
    destruct (rstrip_split (lstrip s)) as (r & Hr & _).
    rewrite H in Hr. simpl in Hr. eapply lstrip_head, Hr.
  - intros c init H. eapply rstrip_last, H.
Qed.

(** ** UTF-8 *)

Lemma utf8_cp_scalar (c : Z) :
  is_scalar c = true -> exists b, utf8_cp c = Ok b.
Proof.
  intros H. unfold utf8_cp. rewrite H. cbn [negb].
  repeat match goal with |- context [if ?b then _ else _] => destruct b end;
    eexists; reflexivity.
Qed.

Lemma utf8_encode_scalar (s : str) :
  encodable s = true -> exists b, utf8_encode s = Ok b.
Proof.
  induction s as [|c s IH]; simpl; intros H.
  - eexists; reflexivity.
  - apply andb_prop in H as [Hc Hs].
    destruct (utf8_cp_scalar c Hc) as (b & ->).
    destruct (IH Hs) as (bs & ->). simpl. eexists; reflexivity.
Qed.

(** A lone surrogate cannot be encoded: [uuid5] raises. *)
Lemma nba_game_id_lone_surrogate :
  nba_game_id_to_uuid [55296] = Raise (PyExc UnicodeEncodeError).
Proof. reflexivity. Qed.

(** ** UUIDs *)

Lemma testbit_ones (k n : Z) :
  0 <= k -> Z.testbit (Z.ones k) n = (0 <=? n) && (n <? k).
Proof.
  intros Hk. destruct (Z.ltb_spec n 0).
  - rewrite Z.testbit_neg_r by lia. lia.
  - destruct (Z.ltb_spec n k).
    + rewrite Z.ones_spec_low by lia. lia.
    + rewrite Z.ones_spec_high by lia. lia.
Qed.

Ltac bool_simpl :=
  rewrite ?andb_true_r, ?andb_false_r, ?orb_true_r, ?orb_false_r.

(** Bits 76..79 of a version-5 UUID hold 5. *)
Lemma with_version_5 (x : Z) :
  Z.land (Z.shiftr (UUID.with_version 5 x) 76) 15 = 5.
Proof.
  unfold UUID.with_version. apply Z.bits_inj'. intros n Hn.
  change 15 with (Z.ones 4).
  rewrite Z.land_spec, Z.shiftr_spec, Z.lor_spec, !Z.land_spec, Z.lor_spec,
    Z.land_spec by lia.
  rewrite testbit_ones by lia.
  destruct (Z.ltb_spec n 4).
  - assert (n = 0 \/ n = 1 \/ n = 2 \/ n = 3) as [->|[->|[->| ->]]] by lia;
      cbn; bool_simpl; reflexivity.
  - rewrite !andb_false_r. symmetry.
    apply (Z.bits_above_log2 5 n); cbn; lia.
Qed.

(** Bits 62..63 hold the RFC 4122 variant, binary 10. *)
Lemma with_version_variant (x : Z) :
  Z.land (Z.shiftr (UUID.with_version 5 x) 62) 3 = 2.
Proof.
  unfold UUID.with_version. apply Z.bits_inj'. intros n Hn.
  change 3 with (Z.ones 2).
  rewrite Z.land_spec, Z.shiftr_spec, Z.lor_spec, !Z.land_spec, Z.lor_spec,
    Z.land_spec by lia.
  rewrite testbit_ones by lia.
  destruct (Z.ltb_spec n 2).
  - assert (n = 0 \/ n = 1) as [->| ->] by lia; cbn; bool_simpl; reflexivity.
  - rewrite !andb_false_r. symmetry.
    apply (Z.bits_above_log2 2 n); cbn; lia.
Qed.

Lemma namespace_value :
  NBA_GAME_ID_NAMESPACE = 0x6ba7b8109dad11d180b400c04fd430c8
  /\ UUID.to_string NBA_GAME_ID_NAMESPACE
     = U "6ba7b810-9dad-11d1-80b4-00c04fd430c8".
Proof. split; vm_compute; reflexivity. Qed.

(** ** The identifier mapper *)

Lemma nba_game_id_to_uuid_ok (s name : str) :
  strip s <> [] -> utf8_encode (strip s) = Ok name ->
  nba_game_id_to_uuid s
  = Ok (UUID.to_string
          (UUID.with_version 5
             (UUID.of_bytes
                (firstn 16 (SHA1.digest
                   (UUID.to_bytes NBA_GAME_ID_NAMESPACE ++ name)))))).
Proof.
  intros Hne Hname. unfold nba_game_id_to_uuid, UUID.uuid5.
  destruct (strip s) as [|c rest]; [congruence|].
  rewrite Hname. cbv beta iota delta [bind]. reflexivity.
Qed.

(** C1. [nba_game_id_to_uuid] trims the input ([strip]: only whitespace is
    removed, and only at the two ends); an empty trimmed input raises
    [ValueError]; any other input, as long as it is encodable text, gives the
    string form of the version-5 UUID of the trimmed input under the
    namespace 6ba7b810-9dad-11d1-80b4-00c04fd430c8: the SHA-1 of the
    namespace bytes followed by the UTF-8 name, cut to 128 bits, stamped with
    version 5 and the RFC 4122 variant.  The result is a function of the
    input alone. *)
Theorem nba_game_id_to_uuid_spec (s : str) :
  (exists l r, s = l ++ strip s ++ r
               /\ forallb isspace_cp l = true /\ forallb isspace_cp r = true
               /\ trimmed (strip s))
  /\ (strip s = [] -> nba_game_id_to_uuid s = Raise (PyExc ValueError))
  /\ (strip s <> [] -> encodable (strip s) = true ->
      exists name u,
        utf8_encode (strip s) = Ok name
        /\ u = UUID.with_version 5
                 (UUID.of_bytes
                    (firstn 16 (SHA1.digest
                       (UUID.to_bytes 0x6ba7b8109dad11d180b400c04fd430c8 ++ name))))
        /\ Z.land (Z.shiftr u 76) 15 = 5
        /\ Z.land (Z.shiftr u 62) 3 = 2
        /\ nba_game_id_to_uuid s = Ok (UUID.to_string u)).
Proof.
  split; [|split].
  - destruct (strip_split s) as (l & r & H & Hl & Hr).
    exists l, r. auto using strip_trimmed.
  - intros H. unfold nba_game_id_to_uuid. rewrite H. reflexivity.
  - intros Hne Henc. destruct (utf8_encode_scalar _ Henc) as (name & Hname).
    exists name. eexists. split; [exact Hname|]. split; [reflexivity|].
    split; [apply with_version_5|]. split; [apply with_version_variant|].
    rewrite <- (proj1 namespace_value).
    apply nba_game_id_to_uuid_ok; assumption.
Qed.

Lemma nba_game_id_to_uuid_spec_witness :
  strip (U "  0022300123 ") <> []
  /\ encodable (strip (U "  0022300123 ")) = true
  /\ nba_game_id_to_uuid (U "  0022300123 ")
     = Ok (U "c5eb0d93-200d-5c7a-9cca-149bccf231bf").
Proof.
  assert (Hne : strip (U "  0022300123 ") <> []) by (vm_compute; discriminate).
  assert (Henc : encodable (strip (U "  0022300123 ")) = true) by reflexivity.
  split; [exact Hne|]. split; [exact Henc|].
  destruct (nba_game_id_to_uuid_spec (U "  0022300123 ")) as (_ & _ & H).
  destruct (H Hne Henc) as (name & u & Hname & Hu & _ & _ & ->).
  vm_compute in Hname. injection Hname as <-. subst u. vm_compute. reflexivity.
Defined.

(** C1, without the condition on the text.  A lone surrogate (U+D800) is
    its own trimmed form and is not empty, yet no identifier comes back:
    the name has no UTF-8 encoding and [uuid5] raises [UnicodeEncodeError].
    So not every input with a non-empty trimmed form has an identifier. *)
Lemma lone_surrogate_is_not_derived :
  strip [55296] = [55296]
  /\ nba_game_id_to_uuid [55296] = Raise (PyExc UnicodeEncodeError)
  /\ ~ (forall s, strip s <> [] ->
                  exists game_uuid, nba_game_id_to_uuid s = Ok game_uuid).
Proof.
  split; [reflexivity|]. split; [reflexivity|].
  intros H. destruct (H [55296]) as (game_uuid & Hu).
  - intros E. vm_compute in E. discriminate E.
  - vm_compute in Hu. discriminate Hu.
Qed.

Lemma nba_game_id_blank :
  nba_game_id_to_uuid (U "   ") = Raise (PyExc ValueError)
  /\ nba_game_id_to_uuid [] = Raise (PyExc ValueError).
Proof. split; reflexivity. Qed.

(** For a text of ASCII characters, [is_nba_game_id] is the ten-digit test. *)
Lemma isdigit_cp_ascii (c : Z) :
  c < 128 -> isdigit_cp c = is_ascii_digit c.
Proof.
  intros H. unfold isdigit_cp, is_ascii_digit, digit_ranges.
  cbn [existsb fst snd]. lia.
Qed.

Lemma is_nba_game_id_ascii (s : str) :
  Forall (fun c => c < 128) s ->
  is_nba_game_id s = true
  <-> length s = 10%nat /\ forallb is_ascii_digit s = true.
Proof.
  intros Hs.
  assert (Hd : forallb isdigit_cp s = forallb is_ascii_digit s).
  { induction Hs as [|c s Hc Hs IH]; simpl; [reflexivity|].
    rewrite IH, isdigit_cp_ascii by exact Hc. reflexivity. }
  unfold is_nba_game_id, isdigit. destruct s as [|c s].
  - simpl. split; [discriminate | intros [H _]; discriminate].
  - rewrite Hd. rewrite andb_true_iff, Z.eqb_eq. split.
    + intros [H1 H2]. split; [lia | exact H1].
    + intros [H1 H2]. split; [exact H2 | lia].
Qed.

(** C2. The test is [str.isdigit], which holds of every Unicode digit
    character: ten superscript twos are taken for a provider id although
    none of them is an ASCII decimal digit. *)
Theorem is_nba_game_id_accepts_unicode_digits :
  is_nba_game_id superscript_twos = true
  /\ length superscript_twos = 10%nat
  /\ forallb is_ascii_digit superscript_twos = false
  /\ encodable superscript_twos = true.
Proof. repeat split; reflexivity. Qed.

(** ** Ordering of keys *)

Lemma str_leb_refl (a : str) : str_leb a a = true.
Proof.
  induction a as [|c a IH]; simpl; [reflexivity|].
  rewrite Z.ltb_irrefl, Z.eqb_refl. exact IH.
Qed.

Lemma str_leb_total (a b : str) : str_leb a b = false -> str_leb b a = true.
Proof.
  revert b. induction a as [|c a IH]; intros [|d b]; simpl; try congruence.
  destruct (Z.ltb_spec c d); [discriminate|].
  destruct (Z.eqb_spec c d) as [->|Hne].
  - rewrite Z.ltb_irrefl, Z.eqb_refl. apply IH.
  - intros _. destruct (Z.ltb_spec d c); [reflexivity | lia].
Qed.

Lemma str_leb_antisym (a b : str) :
  str_leb a b = true -> str_leb b a = true -> a = b.
Proof.
  revert b. induction a as [|c a IH]; intros [|d b]; simpl; try congruence.
  destruct (Z.ltb_spec c d).
  - destruct (Z.ltb_spec d c); [lia|].
    destruct (Z.eqb_spec d c); [lia | discriminate].
  - destruct (Z.eqb_spec c d) as [->|Hne]; [|discriminate].
    rewrite Z.ltb_irrefl, Z.eqb_refl. intros H1 H2. f_equal. auto.
Qed.

Lemma str_leb_trans (a b c : str) :
  str_leb a b = true -> str_leb b c = true -> str_leb a c = true.
Proof.
  revert b c. induction a as [|x a IH]; intros [|y b] [|z c]; simpl;
    try congruence.
  destruct (Z.ltb_spec x y).
  - intros _. destruct (Z.ltb_spec y z).
    + intros _. destruct (Z.ltb_spec x z); [reflexivity | lia].
    + destruct (Z.eqb_spec y z) as [->|]; [|discriminate].
      intros _. destruct (Z.ltb_spec x z); [reflexivity | lia].
  - destruct (Z.eqb_spec x y) as [->|]; [|discriminate].
    intros Hab. destruct (Z.ltb_spec y z); [reflexivity|].
    destruct (Z.eqb_spec y z) as [->|]; [|discriminate].
    apply IH, Hab.
Qed.

(** ** [sorted(d.items())] *)

Section SortItems.

Context {V : Type}.

Lemma insert_item_perm (kv : str * V) l :
  Permutation (kv :: l) (insert_item kv l).
Proof.
  induction l as [|x l IH]; simpl; [reflexivity|].
  destruct (str_leb (fst kv) (fst x)); [reflexivity|].
  rewrite perm_swap. apply perm_skip, IH.
Qed.

Lemma sort_items_perm (l : list (str * V)) : Permutation l (sort_items l).
Proof.
  induction l as [|kv l IH]; simpl; [reflexivity|].
  rewrite <- insert_item_perm. apply perm_skip, IH.
Qed.

Lemma insert_item_order (kv : str * V) l :
  @in_key_order V l -> @in_key_order V (insert_item kv l).
Proof.
  induction l as [|x l IH]; simpl; intros Hl.
  - auto.
  - destruct Hl as [Hx Hl].
    destruct (str_leb (fst kv) (fst x)) eqn:E; simpl.
    + split; [|auto]. constructor; [exact E|].
      eapply Forall_impl; [|exact Hx].
      intros y Hy. unfold key_le in *. eapply str_leb_trans; eassumption.
    + split; [|auto].
      rewrite <- insert_item_perm. constructor; [|exact Hx].
      apply str_leb_total, E.
Qed.

Lemma sort_items_order (l : list (str * V)) : @in_key_order V (sort_items l).
Proof.
  induction l as [|kv l IH]; simpl; [exact I|].
  apply insert_item_order, IH.
Qed.

Lemma in_key_order_ascending (l : list (str * V)) :
  @in_key_order V l -> ascending (map fst l) = true.
Proof.
  induction l as [|x [|y l] IH]; simpl; intros H; try reflexivity.
  destruct H as [Hx Hl]. apply Forall_inv in Hx.
  apply andb_true_intro. split; [exact Hx | apply IH, Hl].
Qed.

(** Two lists in key order with the same items, the keys distinct, are the
    same list. *)
Lemma in_key_order_unique (l1 l2 : list (str * V)) :
  NoDup (map fst l1) -> Permutation l1 l2 ->
  @in_key_order V l1 -> @in_key_order V l2 -> l1 = l2.
Proof.
  revert l2. induction l1 as [|x l1 IH]; intros l2 Hnd Hp H1 H2.
  - apply Permutation_nil in Hp. congruence.
  - destruct l2 as [|y l2];
      [apply Permutation_sym, Permutation_nil in Hp; discriminate|].
    assert (Hxy : x = y).
    { assert (Hx : In x (y :: l2)) by (eapply Permutation_in; [exact Hp | left; reflexivity]).
      assert (Hy : In y (x :: l1))
        by (eapply Permutation_in; [apply Permutation_sym, Hp | left; reflexivity]).
      destruct Hx as [Hx|Hx]; [congruence|].
      destruct Hy as [Hy|Hy]; [congruence|].
      exfalso. simpl in H1, H2. destruct H1 as [H1 _], H2 as [H2 _].
      rewrite Forall_forall in H1, H2.
      assert (Hk : fst x = fst y)
        by (apply str_leb_antisym; [apply (H1 y Hy) | apply (H2 x Hx)]).
      inversion Hnd as [|? ? Hnot _]. apply Hnot. rewrite Hk.
      apply in_map, Hy. }
    subst y. f_equal. apply IH.
    + inversion Hnd; assumption.
    + eapply Permutation_cons_inv, Hp.
    + apply H1.
    + apply H2.
Qed.

Lemma sort_items_perm_eq (l l' : list (str * V)) :
  NoDup (map fst l) -> Permutation l l' -> sort_items l = sort_items l'.
Proof.
  intros Hnd Hp. apply in_key_order_unique.
  - eapply Permutation_NoDup; [|exact Hnd].
    apply Permutation_map, sort_items_perm.
  - rewrite <- (sort_items_perm l), <- (sort_items_perm l'). exact Hp.
  - apply sort_items_order.
  - apply sort_items_order.
Qed.

End SortItems.

(** Ordering looks at the keys only: it commutes with a change of values. *)
Lemma insert_item_map {V W} (f : V -> W) (kv : str * V) l :
  insert_item (fst kv, f (snd kv)) (map (fun x => (fst x, f (snd x))) l)
  = map (fun x => (fst x, f (snd x))) (insert_item kv l).
Proof.
  induction l as [|x l IH]; simpl; [reflexivity|].
  destruct (str_leb (fst kv) (fst x)); simpl; [reflexivity|].
  f_equal. exact IH.
Qed.

Lemma sort_items_map {V W} (f : V -> W) (l : list (str * V)) :
  sort_items (map (fun x => (fst x, f (snd x))) l)
  = map (fun x => (fst x, f (snd x))) (sort_items l).
Proof.
  induction l as [|kv l IH]; simpl; [reflexivity|].
  rewrite IH. apply insert_item_map.
Qed.

Lemma distinct_NoDup (keys : list str) :
  distinct keys = true -> NoDup keys.
Proof.
  induction keys as [|k keys IH]; simpl; intros H; constructor.
  - apply andb_prop in H as [H _]. intros Hin.
    apply negb_true_iff in H.
    assert (E : existsb (str_eqb k) keys = true)
      by (apply existsb_exists; exists k; split; [exact Hin | apply str_eqb_refl]).
    congruence.
  - apply andb_prop in H as [_ H]. auto.
Qed.

(** ** The serializer *)

(** The encoder's order of work on a dict: sort the items, then render. *)
Lemma dumps_dict (items : list (str * json)) :
  Json.dumps true (JDict items)
  = U "{" ++ join (U ", ")
               (map (fun kv => Json.encode_str (fst kv) ++ U ": "
                                 ++ Json.dumps true (snd kv))
                    (sort_items items))
      ++ U "}".
Proof.
  cbn [Json.dumps].
  rewrite (sort_items_map (Json.dumps true)), map_map. reflexivity.
Qed.

Lemma dumps_canonical (v : json) :
  Json.dumps true v = canonical_serialization v.
Proof.
  unfold canonical_serialization.
  induction v as [| | | | |l IH|items IH] using json_nested_ind;
    try reflexivity.
  - cbn [Json.dumps canonicalize]. rewrite map_map.
    do 3 f_equal. apply map_ext_Forall, IH.
  - cbn [Json.dumps canonicalize].
    rewrite (sort_items_map canonicalize), (sort_items_map (Json.dumps true)).
    rewrite !map_map. cbn [fst snd]. do 3 f_equal.
    apply map_ext_Forall.
    assert (H : Forall (fun kv => Json.dumps true (snd kv)
                                  = Json.dumps false (canonicalize (snd kv)))
                       (sort_items items))
      by (rewrite <- sort_items_perm; exact IH).
    eapply Forall_impl; [|exact H].
    intros kv Hkv. unfold Json.render_item. cbn [fst snd]. rewrite Hkv.
    reflexivity.
Qed.

Lemma canonicalize_keys_sorted (v : json) :
  keys_sorted (canonicalize v) = true.
Proof.
  induction v as [| | | | |l IH|items IH] using json_nested_ind;
    try reflexivity.
  - cbn [canonicalize keys_sorted]. apply forallb_forall.
    intros x Hx. apply in_map_iff in Hx as (y & <- & Hy).
    rewrite Forall_forall in IH. auto.
  - cbn [canonicalize keys_sorted]. apply andb_true_intro. split.
    + apply in_key_order_ascending, sort_items_order.
    + apply forallb_forall. apply Forall_forall.
      rewrite <- sort_items_perm. apply Forall_map. exact IH.
Qed.

(** ** The serialization can always be encoded *)

Lemma text8_app (a b : str) : text8 a -> text8 b -> text8 (a ++ b).
Proof. unfold text8. intros. apply Forall_app. auto. Qed.

Lemma text8_U (s : string) : text8 (U s).
Proof.
  unfold text8, U. apply Forall_map, Forall_forall. intros a _.
  pose proof (N_ascii_bounded a). lia.
Qed.

Lemma text8_encodable (s : str) : text8 s -> encodable s = true.
Proof.
  intros H. apply forallb_forall. unfold text8 in H.
  rewrite Forall_forall in H. intros c Hc. specialize (H c Hc).
  unfold is_scalar. lia.
Qed.

Lemma text8_join (sep : str) (parts : list str) :
  text8 sep -> Forall text8 parts -> text8 (join sep parts).
Proof.
  intros Hsep. induction 1 as [|p [|q parts] Hp Hparts IH]; simpl.
  - constructor.
  - exact Hp.
  - apply text8_app; [exact Hp|]. apply text8_app; [exact Hsep | exact IH].
Qed.

Lemma hex_digit_range (n : Z) : 0 <= n < 16 -> 0 <= hex_digit n < 256.
Proof. unfold hex_digit. intros H. destruct (n <? 10); lia. Qed.

Lemma land_15_range (x : Z) : 0 <= Z.land x 15 < 16.
Proof.
  change 15 with (Z.ones 4). rewrite Z.land_ones by lia.
  apply Z.mod_pos_bound. reflexivity.
Qed.

Lemma text8_hex4 (n : Z) : text8 (Json.hex4 n).
Proof.
  unfold text8, Json.hex4.
  repeat constructor; apply hex_digit_range, land_15_range.
Qed.

Lemma text8_escape_cp (c : Z) : text8 (Json.escape_cp c).
Proof.
  unfold Json.escape_cp.
  repeat match goal with
         | |- text8 (if ?b then _ else _) => destruct b eqn:?
         end;
    repeat (apply text8_app || apply text8_hex4);
    unfold text8; repeat constructor; lia.
Qed.

Lemma text8_encode_str (s : str) : text8 (Json.encode_str s).
Proof.
  unfold Json.encode_str.
  apply text8_app; [unfold text8; repeat constructor; lia|].
  apply text8_app; [|unfold text8; repeat constructor; lia].
  induction s as [|c s IH]; simpl; [constructor|].
  apply text8_app; [apply text8_escape_cp | exact IH].
Qed.

Lemma text8_floatstr (r : str) : printable r = true -> text8 (Json.floatstr r).
Proof.
  intros H. unfold Json.floatstr.
  repeat match goal with
         | |- text8 (if ?b then _ else _) => destruct b
         end; try apply text8_U.
  unfold printable in H. rewrite forallb_forall in H.
  apply Forall_forall. intros c Hc. specialize (H c Hc). lia.
Qed.

Lemma text8_dumps (sorted : bool) (v : json) :
  wf_json v = true -> text8 (Json.dumps sorted v).
Proof.
  induction v as [|b|n|r|s|l IH|items IH] using json_nested_ind; intros Hwf.
  - apply text8_U.
  - destruct b; apply text8_U.
  - apply text8_U.
  - apply text8_floatstr, Hwf.
  - apply text8_encode_str.
  - cbn [Json.dumps]. apply text8_app; [apply text8_U|].
    apply text8_app; [|apply text8_U].
    apply text8_join; [apply text8_U|].
    apply Forall_map. cbn [wf_json] in Hwf. rewrite forallb_forall in Hwf.
    rewrite Forall_forall in *. auto.
  - cbn [Json.dumps]. apply text8_app; [apply text8_U|].
    apply text8_app; [|apply text8_U].
    apply text8_join; [apply text8_U|]. apply Forall_map.
    cbn [wf_json] in Hwf. apply andb_prop in Hwf as [_ Hwf].
    rewrite forallb_forall in Hwf.
    assert (H : Forall (fun kv => text8 (Json.render_item kv))
                  (map (fun kv => (fst kv, Json.dumps sorted (snd kv))) items)).
    { apply Forall_map. rewrite Forall_forall in *. intros kv Hkv.
      unfold Json.render_item. cbn [fst snd].
      apply text8_app; [apply text8_encode_str|].
      apply text8_app; [apply text8_U | auto]. }
    destruct sorted; [rewrite <- sort_items_perm|]; exact H.
Qed.

(** ** The digest and the token *)

Lemma hex_of_bytes_length (bs : bytes) :
  length (hex_of_bytes bs) = (2 * length bs)%nat.
Proof.
  induction bs as [|b bs IH]; simpl; [reflexivity|]. rewrite IH. lia.
Qed.

Lemma sha256_digest_length (msg : bytes) : length (SHA256.digest msg) = 32%nat.
Proof.
  unfold SHA256.digest.
  generalize (fold_left SHA256.compress (Word32.blocks_of msg) SHA256.init).
  intros st. reflexivity.
Qed.

Lemma etag_length (encoded : bytes) :
  length ([34] ++ firstn 16 (SHA256.hexdigest encoded) ++ [34]) = 18%nat.
Proof.
  rewrite !length_app, length_firstn. unfold SHA256.hexdigest.
  rewrite hex_of_bytes_length, sha256_digest_length. reflexivity.
Qed.

Lemma canonicalize_same_mapping (v : json) : same_mapping v (canonicalize v).
Proof.
  induction v as [| | | | |l IH|items IH] using json_nested_ind;
    try constructor.
  - induction IH; simpl; constructor; assumption.
  - cbn [canonicalize].
    apply SM_dict with (reordered := map (fun kv => (fst kv, canonicalize (snd kv))) items).
    + apply Permutation_sym, sort_items_perm.
    + induction IH; simpl; constructor; auto.
Qed.

Lemma calculate_etag_value (data : json) :
  wf_json data = true ->
  exists encoded,
    utf8_encode (Json.dumps true data) = Ok encoded
    /\ calculate_etag data
       = Ok ([34] ++ firstn 16 (hex_of_bytes (SHA256.digest encoded)) ++ [34]).
Proof.
  intros Hwf.
  destruct (utf8_encode_scalar (Json.dumps true data)) as (encoded & Henc).
  { apply text8_encodable, text8_dumps, Hwf. }
  exists encoded. split; [exact Henc|].
  unfold calculate_etag. rewrite Henc. reflexivity.
Qed.

(** C3. The token is the first 16 hexadecimal characters of the SHA-256 of
    the UTF-8 bytes of the canonical serialization, between double quotes:
    what [json.dumps(sort_keys=True)] writes is the plain serialization of
    the canonical form, which is the same mapping with the keys of every
    dict, at every depth, in ascending order. *)
Theorem calculate_etag_spec (data : json) :
  wf_json data = true ->
  keys_sorted (canonicalize data) = true
  /\ same_mapping data (canonicalize data)
  /\ exists encoded,
       utf8_encode (canonical_serialization data) = Ok encoded
       /\ calculate_etag data
          = Ok ([34] ++ firstn 16 (hex_of_bytes (SHA256.digest encoded)) ++ [34])
       /\ length ([34] ++ firstn 16 (hex_of_bytes (SHA256.digest encoded)) ++ [34])
          = 18%nat.
Proof.
  intros Hwf. split; [apply canonicalize_keys_sorted|].
  split; [apply canonicalize_same_mapping|].
  destruct (calculate_etag_value data Hwf) as (encoded & Henc & Hetag).
  exists encoded. split; [rewrite <- dumps_canonical; exact Henc|].
  split; [exact Hetag | apply etag_length].
Qed.

Lemma calculate_etag_spec_witness :
  calculate_etag payload_ba = Ok ([34] ++ U "d8497d9d82770a70" ++ [34]).
Proof.
  destruct (calculate_etag_spec payload_ba) as (_ & _ & encoded & Henc & -> & _).
  - reflexivity.
  - vm_compute in Henc. injection Henc as <-. vm_compute. reflexivity.
Defined.

(** A payload always has a token. *)
Lemma calculate_etag_total (data : json) :
  wf_json data = true ->
  exists etag, calculate_etag data = Ok etag /\ length etag = 18%nat.
Proof.
  intros Hwf.
  destruct (calculate_etag_value data Hwf) as (encoded & _ & H).
  eexists. split; [exact H | apply etag_length].
Qed.

Lemma calculate_etag_nonempty (data : json) (etag : str) :
  calculate_etag data = Ok etag -> exists rest, etag = 34 :: rest.
Proof.
  unfold calculate_etag. destruct (utf8_encode _) as [encoded|]; [|discriminate].
  cbv beta iota delta [bind].
  generalize (firstn 16 (SHA256.hexdigest encoded)). intros h H.
  injection H as <-. eexists. reflexivity.
Qed.

(** ** Key order does not reach the serialization *)

Lemma dumps_same_mapping (v1 : json) :
  forall v2, wf_json v2 = true -> same_mapping v1 v2 ->
             Json.dumps true v1 = Json.dumps true v2.
Proof.
  induction v1 as [| | | | |l IH|items IH] using json_nested_ind;
    intros v2 Hwf Hsame; inversion Hsame; subst; try reflexivity.
  - cbn [Json.dumps]. do 3 f_equal.
    cbn [wf_json] in Hwf. rewrite forallb_forall in Hwf.
    match goal with H : Forall2 same_mapping _ _ |- _ => rename H into HF end.
    clear Hsame. induction HF as [|x y l l' Hxy HF IHF]; simpl; [reflexivity|].
    inversion IH as [|? ? IHx IHl]; subst. f_equal.
    + apply IHx; [apply Hwf; left; reflexivity | exact Hxy].
    + apply IHF; [exact IHl|]. intros z Hz. apply Hwf. right. exact Hz.
  - match goal with
    | Hp : Permutation _ _, HF : Forall2 _ _ _ |- _ =>
        rename Hp into Hperm; rename HF into HF2
    end.
    cbn [wf_json] in Hwf. apply andb_prop in Hwf as [Hkeys Hvals].
    rewrite forallb_forall in Hvals.
    assert (Hvals' : forall kv, In kv reordered -> wf_json (snd kv) = true).
    { intros kv Hkv. apply Hvals.
      eapply Permutation_in; [apply Permutation_sym, Hperm | exact Hkv]. }
    assert (Hrender :
      map (fun kv => (fst kv, Json.dumps true (snd kv))) items
      = map (fun kv => (fst kv, Json.dumps true (snd kv))) reordered).
    { clear Hsame Hperm. induction HF2 as [|x y l l' [Hk Hv] HF IHF]; simpl;
        [reflexivity|].
      inversion IH as [|? ? IHx IHl]; subst. f_equal.
      - rewrite Hk. f_equal.
        apply IHx; [apply Hvals'; left; reflexivity | exact Hv].
      - apply IHF; [exact IHl|]. intros z Hz. apply Hvals'. right. exact Hz. }
    cbn [Json.dumps]. do 4 f_equal. rewrite Hrender.
    symmetry. apply sort_items_perm_eq.
    + rewrite map_map. cbn [fst]. apply distinct_NoDup, Hkeys.
    + apply Permutation_map, Hperm.
Qed.

(** C4. Two payloads that are the same mapping, whatever the order their
    keys were inserted in, get the same token. *)
Theorem calculate_etag_key_order (data1 data2 : json) :
  wf_json data1 = true -> wf_json data2 = true ->
  same_mapping data1 data2 ->
  calculate_etag data1 = calculate_etag data2.
Proof.
  intros _ Hwf Hsame. unfold calculate_etag.
  rewrite (dumps_same_mapping Hwf Hsame). reflexivity.
Qed.

Lemma payload_ab_ba : same_mapping payload_ab payload_ba.
Proof.
  apply SM_dict with (reordered := [(U "a", JInt 1); (U "b", JInt 2)]).
  - apply perm_swap.
  - repeat constructor.
Qed.

Lemma calculate_etag_key_order_witness :
  calculate_etag payload_ab = calculate_etag payload_ba.
Proof.
  apply calculate_etag_key_order;
    [reflexivity | reflexivity | exact payload_ab_ba].
Defined.

(** ** The conditional decision *)

Section Conditional.

Context {rt : PyRuntime} (w : world).

Lemma conditional_response_ok (if_none_match : option str) (max_age : str)
    (payload : json) (etag : str) :
  calculate_etag payload = Ok etag ->
  exists r, conditional_response if_none_match max_age payload = Ok r.
Proof.
  intros H. unfold conditional_response. rewrite H.
  cbv beta iota delta [bind].
  destruct if_none_match as [[|c header]|]; try (eexists; reflexivity).
  destruct (str_eqb (c :: header) etag); eexists; reflexivity.
Qed.

(** C5. The decision taken at the end of the handlers: a bare 304 exactly
    when [If-None-Match] is present and equal, character for character, to
    the computed ETag (quotes included); in every other case the payload,
    with the ETag and the cache lifetime in the headers.  [get_schedule] and
    [get_game_summary] answer with this decision once the payload is built. *)
Theorem conditional_decision (if_none_match : option str) (max_age : str)
    (payload : json) (etag : str) :
  calculate_etag payload = Ok etag ->
  (conditional_response if_none_match max_age payload = Ok (EmptyResponse 304)
   <-> if_none_match = Some etag)
  /\ (if_none_match <> Some etag ->
      conditional_response if_none_match max_age payload
      = Ok (JsonBody [ (U "ETag", etag);
                       (U "Cache-Control", U "max-age=" ++ max_age) ] payload))
  /\ (forall year month day data st,
        make_date year month day = Ok tt ->
        nba_get_scoreboard w year month day = Ok data ->
        transform_scoreboard_to_schedule data
          (JStr (str_of_Z year ++ U "-" ++ format_02d month
                   ++ U "-" ++ format_02d day)) = Ok payload ->
        fst (get_schedule w year month day if_none_match st)
        = conditional_response if_none_match (U "3600") payload)
  /\ (forall game_id game_uuid data st,
        is_nba_game_id game_id = true ->
        nba_game_id_to_uuid game_id = Ok game_uuid ->
        nba_get_game_summary w (JStr game_id) = Ok data ->
        transform_boxscore_to_summary data (JStr game_uuid) = Ok payload ->
        fst (get_game_summary w game_id if_none_match st)
        = conditional_response if_none_match (U "60") payload).
Proof.
  intros Hetag.
  destruct (calculate_etag_nonempty _ Hetag) as (rest & Hrest).
  assert (Hdec : forall m,
    conditional_response if_none_match m payload
    = match if_none_match with
      | Some header =>
          if str_eqb header etag then Ok (EmptyResponse 304)
          else Ok (JsonBody [(U "ETag", etag); (U "Cache-Control", U "max-age=" ++ m)] payload)
      | None => Ok (JsonBody [(U "ETag", etag); (U "Cache-Control", U "max-age=" ++ m)] payload)
      end).
  { intros m. unfold conditional_response. rewrite Hetag.
    cbv beta iota delta [bind].
    destruct if_none_match as [[|c header]|]; try reflexivity.
    destruct (str_eqb [] etag) eqn:E; [|reflexivity].
    apply str_eqb_eq in E. congruence. }
  split; [|split; [|split]].
  - rewrite Hdec. destruct if_none_match as [header|].
    + destruct (str_eqb header etag) eqn:E.
      * apply str_eqb_eq in E. subst. split; reflexivity.
      * apply str_eqb_neq in E. split; [discriminate | congruence].
    + split; discriminate.
  - intros Hne. rewrite Hdec. destruct if_none_match as [header|]; [|reflexivity].
    destruct (str_eqb header etag) eqn:E; [|reflexivity].
    apply str_eqb_eq in E. congruence.
  - intros year month day data st Hdate Hup Htr.
    destruct (conditional_response_ok if_none_match (U "3600") _ Hetag) as (r & Hr).
    unfold get_schedule, try_except, mbind, lift, call_upstream.
    rewrite Hdate, Hup, Htr, Hr. reflexivity.
  - intros game_id game_uuid data st Hid Huuid Hup Htr.
    destruct (conditional_response_ok if_none_match (U "60") _ Hetag) as (r & Hr).
    unfold get_game_summary, resolve_game_id, try_except, mbind, lift,
      call_upstream, ret.
    rewrite Hid, Huuid. cbn [fst snd]. rewrite Hup, Htr, Hr. reflexivity.
Qed.

End Conditional.

Lemma conditional_decision_witness :
  let w := example_world None (Ok (JDict [])) in
  let etag := [34] ++ U "9296ff14d9f6821c" ++ [34] in
  fst (get_schedule (rt := example_runtime) w 2025 1 8 (Some etag) fresh)
  = Ok (EmptyResponse 304)
  /\ http_status
       (fst (get_schedule (rt := example_runtime) w 2025 1 8 None fresh)) = 200.
Proof.
  intros w etag.
  pose (payload := schedule_of (JStr (U "2025-01-08")) []).
  assert (Hetag : calculate_etag payload = Ok etag) by (vm_compute; reflexivity).
  split.
  - destruct (conditional_decision (rt := example_runtime) w (Some etag)
                (U "3600") payload Hetag) as (Hiff & _ & Hsched & _).
    rewrite (Hsched 2025 1 8 (JDict []) fresh);
      [apply Hiff; reflexivity | reflexivity | reflexivity | reflexivity].
  - destruct (conditional_decision (rt := example_runtime) w None
                (U "3600") payload Hetag) as (_ & Hsend & Hsched & _).
    rewrite (Hsched 2025 1 8 (JDict []) fresh);
      [|reflexivity | reflexivity | reflexivity].
    rewrite Hsend by discriminate. reflexivity.
Defined.

(** ** The status classifier *)

Lemma example_runtime_laws : PyRuntimeLaws example_runtime.
Proof. constructor. intros s _. reflexivity. Qed.

Ltac in_list := solve [repeat first [left; reflexivity | right]].

Section Status.

Context {rt : PyRuntime} {laws : PyRuntimeLaws rt}.

Lemma lower_empty : str_lower [] = [].
Proof. apply (lower_ascii []). reflexivity. Qed.

(** The text the patterns are looked up in. *)
Lemma status_text_lower (text : option str) :
  (if py_truthy (json_of_opt_str text)
   then py_lower (json_of_opt_str text) else Ok [])
  = Ok (match text with Some t => str_lower t | None => [] end).
Proof.
  destruct text as [[|c t]|]; simpl; try reflexivity.
  rewrite lower_empty. reflexivity.
Qed.

(** C6. On a status code, a free text, a period and a clock, each possibly
    absent, [_map_game_status] returns what the priority list gives, first
    match first: code 2, code 3, then the text patterns final, live,
    in progress, postponed, delayed, pm, am, et (looked up in the lowered
    text), then a period together with a non-empty clock, else scheduled.
    The value is one of the five statuses; a final code beats a running
    clock, and a tip-off time is scheduled. *)
Theorem map_game_status_priority (s : signals) :
  _map_game_status (json_of_opt_str (sig_text s)) (json_of_opt_int (sig_code s))
                   (json_of_opt_int (sig_period s)) (json_of_opt_str (sig_clock s))
  = Ok (classify_status s)
  /\ In (classify_status s) status_values
  /\ classify_status final_with_clock = U "closed"
  /\ classify_status tip_off_time = U "scheduled".
Proof.
  assert (Hrun : negb (is_none (json_of_opt_int (sig_period s)))
                 && py_truthy (json_of_opt_str (sig_clock s))
                 = clock_running s).
  { unfold clock_running.
    destruct (sig_period s), (sig_clock s) as [[|c t]|]; reflexivity. }
  assert (Hcode : forall n, py_eq_int (json_of_opt_int (sig_code s)) n = code_is n s).
  { intros n. unfold code_is. destruct (sig_code s); reflexivity. }
  split; [|split; [|split]].
  - unfold _map_game_status, classify_status, status_rules.
    rewrite !Hcode, status_text_lower, Hrun.
    cbv beta iota delta [bind].
    destruct (code_is 2 s); [reflexivity|].
    destruct (code_is 3 s); [reflexivity|].
    unfold text_has. destruct (sig_text s) as [t|].
    + cbn [first_match].
      repeat match goal with
             | |- context [contains ?p (str_lower t)] =>
                 destruct (contains p (str_lower t))
             end;
        cbn [first_match orb]; try reflexivity;
        destruct (clock_running s); reflexivity.
    + cbn [first_match contains starts_with orb].
      change (contains (U "final") []) with false.
      change (contains (U "live") []) with false.
      change (contains (U "in progress") []) with false.
      change (contains (U "postponed") []) with false.
      change (contains (U "delayed") []) with false.
      change (contains (U "pm") []) with false.
      change (contains (U "am") []) with false.
      change (contains (U "et") []) with false.
      cbn [first_match orb].
      destruct (clock_running s); reflexivity.
  - unfold classify_status, status_rules.
    cbn [first_match].
    repeat match goal with
           | |- context [if ?b then _ else _] => destruct b
           end; unfold status_values; cbn [In]; in_list.
  - unfold classify_status, status_rules, final_with_clock, code_is.
    reflexivity.
  - unfold classify_status, status_rules, tip_off_time, code_is, text_has.
    cbn [sig_code sig_text sig_period sig_clock].
    rewrite (lower_ascii (U "7:00 pm ET")) by reflexivity.
    vm_compute. reflexivity.
Qed.

End Status.

Lemma map_game_status_priority_witness :
  _map_game_status (rt := example_runtime)
    (JStr (U "Q4 0:00")) (JInt 3) (JInt 4) (JStr (U "0:00")) = Ok (U "closed")
  /\ _map_game_status (rt := example_runtime)
       (JStr (U "7:00 pm ET")) JNull JNull JNull = Ok (U "scheduled").
Proof.
  split.
  - destruct (map_game_status_priority (laws := example_runtime_laws)
                final_with_clock) as (H & _ & <- & _).
    exact H.
  - destruct (map_game_status_priority (laws := example_runtime_laws)
                tip_off_time) as (H & _ & _ & <-).
    exact H.
Defined.

(** ** The store lookup *)

Section Lookup.

Context {rt : PyRuntime} (w : world).

Lemma get_redis_client_log (st : hstate) :
  upstream_log (snd (get_redis_client w st)) = upstream_log st.
Proof.
  unfold get_redis_client.
  destruct (_redis_client st); [reflexivity|].
  destruct (redis_installed w); [|reflexivity]. cbn [negb].
  destruct (redis_from_url w); [|reflexivity].
  destruct (redis_ping w); reflexivity.
Qed.

Lemma get_redis_client_reachable (st : hstate) :
  reachable w st ->
  exists st', get_redis_client w st = (Ok tt, st')
              /\ upstream_log st' = upstream_log st.
Proof.
  unfold get_redis_client. intros [H|(H1 & H2 & H3)].
  - rewrite H. eexists. split; reflexivity.
  - destruct (_redis_client st); [eexists; split; reflexivity|].
    rewrite H1, H2, H3. eexists. split; reflexivity.
Qed.

(** [get_game_metadata] has a handler for everything: it returns. *)
Lemma get_game_metadata_returns (game_uuid : str) (st : hstate) :
  exists v, fst (get_game_metadata w game_uuid st) = Ok v.
Proof.
  unfold get_game_metadata, try_except.
  match goal with |- context [match ?m with _ => _ end] => destruct m as [[v|e] st'] end;
    eexists; reflexivity.
Qed.

Lemma get_game_metadata_log (game_uuid : str) (st : hstate) :
  upstream_log (snd (get_game_metadata w game_uuid st)) = upstream_log st.
Proof.
  unfold get_game_metadata, try_except, mbind, lift, ret.
  pose proof (get_redis_client_log st) as Hlog.
  destruct (get_redis_client w st) as [[[]|e] st']; cbn [fst snd] in *;
    [|exact Hlog].
  destruct (redis_get w _) as [[[|c text]|]|e]; cbn [fst snd]; try exact Hlog.
  destruct (loads (c :: text)); exact Hlog.
Qed.

(** The lookup never calls the upstream client. *)
Lemma get_nba_game_id_from_uuid_log (game_uuid : str) (st : hstate) :
  upstream_log (snd (get_nba_game_id_from_uuid w game_uuid st)) = upstream_log st.
Proof.
  unfold get_nba_game_id_from_uuid, mbind, lift, ret.
  pose proof (get_game_metadata_log game_uuid st) as Hlog.
  destruct (get_game_metadata w game_uuid st) as [[v|e] st']; cbn [fst snd] in *;
    [|exact Hlog].
  destruct (py_truthy v); [|exact Hlog].
  destruct (py_contains _ v) as [[|]|]; cbn [fst snd]; try exact Hlog.
Qed.

(** What [get_game_metadata] returns, case by case. *)
Lemma get_game_metadata_cases (game_uuid : str) (st : hstate) :
  fst (get_game_metadata w game_uuid st)
  = Ok (match fst (get_redis_client w st) with
        | Raise _ => JNull
        | Ok _ =>
            match redis_get w (meta_key game_uuid) with
            | Ok (Some ((_ :: _) as text)) =>
                match json_loads text with
                | Some v => v
                | None => JNull
                end
            | _ => JNull
            end
        end).
Proof.
  unfold get_game_metadata, try_except, mbind, lift, ret, meta_key, loads.
  destruct (get_redis_client w st) as [[[]|e] st']; cbn [fst snd];
    [|reflexivity].
  destruct (redis_get w _) as [[[|c text]|]|e]; cbn [fst snd]; try reflexivity.
  destruct (json_loads (c :: text)); reflexivity.
Qed.

Lemma get_nba_game_id_from_uuid_cases (game_uuid : str) (st : hstate) :
  forall metadata,
    fst (get_game_metadata w game_uuid st) = Ok metadata ->
    fst (get_nba_game_id_from_uuid w game_uuid st) = field_of metadata.
Proof.
  intros metadata H.
  unfold get_nba_game_id_from_uuid, field_of, mbind, lift, ret.
  destruct (get_game_metadata w game_uuid st) as [[v|e] st']; cbn [fst] in H;
    [|discriminate].
  injection H as ->. destruct (py_truthy metadata); [|reflexivity].
  destruct (py_contains _ metadata) as [[|]|]; reflexivity.
Qed.

(** Failures on the way to the store, an absent key, an empty or unparsable
    value, and a record without the field all come out as [None]; a record
    with the field gives the field. *)
Lemma lookup_not_found (game_uuid : str) (st : hstate) :
  (forall e, fst (get_redis_client w st) = Raise e ->
             fst (get_nba_game_id_from_uuid w game_uuid st) = Ok JNull)
  /\ (forall e, redis_get w (meta_key game_uuid) = Raise e ->
                fst (get_nba_game_id_from_uuid w game_uuid st) = Ok JNull)
  /\ (redis_get w (meta_key game_uuid) = Ok None ->
      fst (get_nba_game_id_from_uuid w game_uuid st) = Ok JNull)
  /\ (forall text, redis_get w (meta_key game_uuid) = Ok (Some text) ->
                   json_loads text = None ->
                   fst (get_nba_game_id_from_uuid w game_uuid st) = Ok JNull)
  /\ (forall text items,
        redis_get w (meta_key game_uuid) = Ok (Some text) ->
        json_loads text = Some (JDict items) ->
        dict_lookup (U "nba_game_id") items = None ->
        fst (get_nba_game_id_from_uuid w game_uuid st) = Ok JNull).
Proof.
  pose proof (get_game_metadata_cases game_uuid st) as Hm.
  repeat split.
  - intros e He. rewrite He in Hm.
    rewrite (get_nba_game_id_from_uuid_cases _ _ Hm). reflexivity.
  - intros e He. rewrite He in Hm.
    rewrite (get_nba_game_id_from_uuid_cases _ _ Hm).
    destruct (fst (get_redis_client w st)); reflexivity.
  - intros He. rewrite He in Hm.
    rewrite (get_nba_game_id_from_uuid_cases _ _ Hm).
    destruct (fst (get_redis_client w st)); reflexivity.
  - intros text He Hl. rewrite He in Hm.
    rewrite (get_nba_game_id_from_uuid_cases _ _ Hm).
    destruct (fst (get_redis_client w st)); [|reflexivity].
    destruct text; [reflexivity|]. rewrite Hl. reflexivity.
  - intros text items He Hl Hk. rewrite He in Hm.
    rewrite (get_nba_game_id_from_uuid_cases _ _ Hm).
    destruct (fst (get_redis_client w st)); [|reflexivity].
    destruct text; [reflexivity|]. rewrite Hl.
    unfold field_of. destruct items; [reflexivity|].
    cbn [py_truthy py_contains]. rewrite Hk. reflexivity.
Qed.

Lemma lookup_record (game_uuid text : str) (items : list (str * json))
    (v : json) (st : hstate) :
  reachable w st ->
  redis_get w (meta_key game_uuid) = Ok (Some text) -> text <> [] ->
  json_loads text = Some (JDict items) ->
  dict_lookup (U "nba_game_id") items = Some v ->
  fst (get_nba_game_id_from_uuid w game_uuid st) = Ok v.
Proof.
  intros Hr He Hne Hl Hk.
  pose proof (get_game_metadata_cases game_uuid st) as Hm.
  destruct (get_redis_client_reachable Hr) as (st' & Hc & _).
  rewrite Hc, He in Hm. cbn [fst] in Hm.
  destruct text as [|c text]; [congruence|]. rewrite Hl in Hm.
  rewrite (get_nba_game_id_from_uuid_cases _ _ Hm).
  unfold field_of. destruct items as [|kv items]; [discriminate|].
  cbn [py_truthy py_contains py_item]. rewrite Hk. reflexivity.
Qed.

(** C8. A stored value that parses to a number is not a record, and the
    membership test on it raises: [get_nba_game_id_from_uuid] lets the
    [TypeError] out instead of returning [None]. *)
Theorem lookup_of_number_raises (game_uuid text : str) (n : Z) (st : hstate) :
  reachable w st ->
  redis_get w (meta_key game_uuid) = Ok (Some text) -> text <> [] ->
  json_loads text = Some (JInt n) -> n <> 0 ->
  fst (get_nba_game_id_from_uuid w game_uuid st) = Raise (PyExc TypeError).
Proof.
  intros Hr He Hne Hl Hn.
  pose proof (get_game_metadata_cases game_uuid st) as Hm.
  destruct (get_redis_client_reachable Hr) as (st' & Hc & _).
  rewrite Hc, He in Hm. cbn [fst] in Hm.
  destruct text as [|c text]; [congruence|]. rewrite Hl in Hm.
  rewrite (get_nba_game_id_from_uuid_cases _ _ Hm).
  unfold field_of. cbn [py_truthy].
  destruct (Z.eqb_spec n 0); [contradiction|]. reflexivity.
Qed.

End Lookup.

Lemma lookup_of_number_raises_witness :
  fst (get_nba_game_id_from_uuid (rt := example_runtime)
         (example_world (Some (U "5")) (Raise (PyExc UpstreamError)))
         example_uuid fresh)
  = Raise (PyExc TypeError).
Proof.
  apply (lookup_of_number_raises (rt := example_runtime)) with (text := U "5") (n := 5).
  - right. repeat split; reflexivity.
  - reflexivity.
  - discriminate.
  - reflexivity.
  - discriminate.
Defined.

(** ** The game handlers *)

Section Games.

Context {rt : PyRuntime} (w : world).

Lemma resolve_absent (game_id : str) (st : hstate) :
  is_nba_game_id game_id = false ->
  reachable w st ->
  redis_get w (meta_key game_id) = Ok None ->
  exists st', resolve_game_id w game_id st = (Raise (not_in_cache game_id), st')
              /\ upstream_log st' = upstream_log st.
Proof.
  intros Hid Hr Hget.
  pose proof (get_nba_game_id_from_uuid_log w game_id st) as Hlog.
  destruct (lookup_not_found w game_id st) as (_ & _ & Habs & _).
  specialize (Habs Hget).
  unfold resolve_game_id. rewrite Hid. unfold mbind, throw.
  destruct (get_nba_game_id_from_uuid w game_id st) as [r st'].
  cbn [fst snd] in *. subst r. cbn [py_truthy negb].
  exists st'. split; [reflexivity | exact Hlog].
Qed.

(** C7. For an id that is not in provider form and has no entry in the
    store, both game handlers leave the upstream client alone, but the 404
    they raise is raised inside their own [try], whose [except Exception]
    turns it into a 500 that carries the 404 in its detail. *)
Theorem absent_game_id_answers_500 (game_id : str) (if_none_match : option str)
    (st : hstate) :
  is_nba_game_id game_id = false ->
  reachable w st ->
  redis_get w (meta_key game_id) = Ok None ->
  let summary := get_game_summary w game_id if_none_match st in
  let pbp := get_play_by_play w game_id if_none_match st in
  fst summary
  = Raise (HTTPException 500
             (Wrapped (U "Error fetching game summary: ") (not_in_cache game_id)))
  /\ fst pbp
     = Raise (HTTPException 500
                (Wrapped (U "Error fetching play-by-play: ") (not_in_cache game_id)))
  /\ http_status (fst summary) = 500 /\ http_status (fst pbp) = 500
  /\ upstream_log (snd summary) = upstream_log st
  /\ upstream_log (snd pbp) = upstream_log st.
Proof.
  intros Hid Hr Hget summary pbp.
  destruct (resolve_absent game_id Hid Hr Hget) as (st' & Hres & Hlog).
  assert (Hs : summary
               = (Raise (HTTPException 500
                    (Wrapped (U "Error fetching game summary: ")
                             (not_in_cache game_id))), st')).
  { unfold summary, get_game_summary, try_except, mbind, throw.
    rewrite Hres. reflexivity. }
  assert (Hp : pbp
               = (Raise (HTTPException 500
                    (Wrapped (U "Error fetching play-by-play: ")
                             (not_in_cache game_id))), st')).
  { unfold pbp, get_play_by_play, try_except, mbind, throw.
    rewrite Hres. reflexivity. }
  rewrite Hs, Hp. cbn [fst snd http_status]. repeat split; assumption.
Qed.

End Games.

Lemma absent_game_id_answers_500_witness :
  let w := example_world None (Ok (JDict [])) in
  http_status (fst (get_game_summary (rt := example_runtime) w example_uuid None fresh))
  = 500
  /\ upstream_log (snd (get_game_summary (rt := example_runtime) w example_uuid None fresh))
     = [].
Proof.
  intros w.
  destruct (absent_game_id_answers_500 (rt := example_runtime) (w := w)
              (st := fresh) example_uuid None)
    as (_ & _ & H1 & _ & H2 & _).
  - reflexivity.
  - right. repeat split; reflexivity.
  - reflexivity.
  - split; [exact H1 | exact H2].
Defined.

(** ** The transformers *)

Section TransformerFacts.

Context {rt : PyRuntime}.

Lemma found_actions_none (k : str) (items : list (str * json)) :
  absent_or_empty k items = true ->
  found_actions match dict_lookup k items with
                | Some x => x
                | None => JNull
                end = Ok None.
Proof.
  unfold absent_or_empty, found_actions.
  destruct (dict_lookup k items) as [v|]; [|reflexivity].
  intros H. apply negb_true_iff in H. rewrite H. reflexivity.
Qed.

Lemma without_actions_none (v : json) :
  without_actions v = true ->
  (if is_dict v
   then actions <- py_get v (U "actions") JNull ;; found_actions actions
   else Ok None) = Ok None.
Proof.
  destruct v as [| | | | | |g]; try reflexivity.
  cbn [without_actions is_dict py_get]. cbv beta iota delta [bind].
  apply found_actions_none.
Qed.

(** No actions are found in a payload of unknown shape. *)
Lemma unknown_pbp_no_actions (items : list (str * json)) :
  unknown_pbp items = true ->
  find_actions (JDict items) = Ok None
  /\ absent_or_empty (U "resultSets") items = true.
Proof.
  unfold unknown_pbp. intros H. apply andb_prop in H as [Hsets H].
  split; [|exact Hsets].
  unfold find_actions. cbn [py_get py_contains]. cbv beta iota delta [bind].
  destruct (dict_lookup (U "game") items) as [game|].
  - destruct (py_truthy game && is_dict game) eqn:E.
    + apply andb_prop in E as [_ Ed].
      pose proof (without_actions_none game H) as Hn. rewrite Ed in Hn.
      exact Hn.
    + apply andb_prop in H as [Hact Hgame].
      pose proof (found_actions_none _ _ Hact) as Hn.
      unfold absent_or_empty in Hact.
      destruct (dict_lookup (U "actions") items) as [a|].
      * apply negb_true_iff in Hact. rewrite Hact.
        apply (without_actions_none _ Hgame).
      * cbn [py_truthy]. apply (without_actions_none _ Hgame).
  - pose proof (found_actions_none _ _ H) as Hn.
    unfold absent_or_empty in H.
    destruct (dict_lookup (U "actions") items) as [a|]; [|reflexivity].
    apply negb_true_iff in H. rewrite H. reflexivity.
Qed.

(** C9. A payload in neither of the formats a transformer knows gets the
    empty answer of the expected shape.  [transform_scoreboard_to_schedule]
    gives the date with no games to a mapping that has no [resultSets] key
    and whose [scoreboard] entry is absent or is a mapping, a list or a
    text that does not hold [games].  [transform_playbyplay_to_pbp] gives
    the game id with sequence 0 and no events to a mapping with nothing
    under [resultSets] in which it finds no actions. *)
Theorem unknown_shape_gives_default (items : list (str * json))
    (game_date game_id : json) :
  (unknown_scoreboard items = true ->
   transform_scoreboard_to_schedule (JDict items) game_date
   = Ok (JDict [(U "date", game_date); (U "games", JList [])]))
  /\ (unknown_pbp items = true ->
      transform_playbyplay_to_pbp (JDict items) game_id
      = Ok (JDict [ (U "id", game_id); (U "sequence", JInt 0);
                    (U "events", JList []) ])).
Proof.
  split.
  - unfold unknown_scoreboard, transform_scoreboard_to_schedule.
    cbn [py_contains py_item].
    destruct (dict_lookup (U "resultSets") items); [discriminate|].
    destruct (dict_lookup (U "scoreboard") items) as [sb|];
      cbv beta iota delta [bind]; [|reflexivity].
    destruct (py_contains (U "games") sb) as [[|]|]; try discriminate.
    reflexivity.
  - intros H. destruct (unknown_pbp_no_actions items H) as [Hfind Hsets].
    unfold transform_playbyplay_to_pbp. rewrite Hfind.
    cbv beta iota delta [bind]. cbn [py_get].
    unfold absent_or_empty in Hsets.
    destruct (dict_lookup (U "resultSets") items) as [r|]; [|reflexivity].
    apply negb_true_iff in Hsets. rewrite Hsets. reflexivity.
Qed.

End TransformerFacts.

Lemma unknown_shape_gives_default_witness :
  transform_scoreboard_to_schedule (rt := example_runtime)
    (JDict [(U "scoreboard", JDict [(U "gameDate", JStr (U "2025-01-08"))])])
    (JStr (U "2025-01-01"))
  = Ok (JDict [(U "date", JStr (U "2025-01-01")); (U "games", JList [])])
  /\ transform_playbyplay_to_pbp
       (JDict [(U "game", JDict [(U "gameId", JStr (U "0022300123"))])])
       (JStr example_uuid)
     = Ok (JDict [ (U "id", JStr example_uuid); (U "sequence", JInt 0);
                   (U "events", JList []) ]).
Proof.
  split.
  - apply (unknown_shape_gives_default (rt := example_runtime)
             [(U "scoreboard", JDict [(U "gameDate", JStr (U "2025-01-08"))])]
             (JStr (U "2025-01-01")) (JStr example_uuid)).
    reflexivity.
  - apply (unknown_shape_gives_default (rt := example_runtime)
             [(U "game", JDict [(U "gameId", JStr (U "0022300123"))])]
             (JStr (U "2025-01-01")) (JStr example_uuid)).
    reflexivity.
Defined.

(** C9, for every payload in no known format.  A payload whose [scoreboard]
    entry is [None] is a mapping in neither scoreboard format: it has no
    [resultSets], and nothing under [scoreboard] that could hold games.
    The transformer does not return the empty schedule for it: the test
    ['games' in scoreboard_data['scoreboard']] raises [TypeError]. *)
Lemma null_scoreboard_gets_no_default :
  dict_lookup (U "resultSets") [(U "scoreboard", JNull)] = None
  /\ dict_lookup (U "scoreboard") [(U "scoreboard", JNull)] = Some JNull
  /\ transform_scoreboard_to_schedule (rt := example_runtime)
       (JDict [(U "scoreboard", JNull)]) (JStr (U "2025-01-08"))
     = Raise (PyExc TypeError)
  /\ transform_scoreboard_to_schedule (rt := example_runtime)
       (JDict [(U "scoreboard", JNull)]) (JStr (U "2025-01-08"))
     <> Ok (JDict [(U "date", JStr (U "2025-01-08")); (U "games", JList [])]).
Proof.
  split; [reflexivity|]. split; [reflexivity|]. split; [reflexivity|].
  intros E. vm_compute in E. discriminate E.
Qed.

(** ** The ids of the schedule entries *)

Lemma dict_lookup_set_other {V} (k k' : str) (v : V) (l : list (str * V)) :
  str_eqb k k' = false ->
  dict_lookup k (dict_set k' v l) = dict_lookup k l.
Proof.
  intros Hk. induction l as [|[kx vx] l IH]; simpl.
  - rewrite Hk. reflexivity.
  - destruct (str_eqb k' kx) eqn:E; simpl.
    + apply str_eqb_eq in E. subst kx. rewrite Hk. reflexivity.
    + rewrite IH. reflexivity.
Qed.

Lemma has_ids_set (k : str) (v : json) items id u :
  str_eqb (U "nba_game_id") k = false -> str_eqb (U "id") k = false ->
  has_ids items id u -> has_ids (dict_set k v items) id u.
Proof.
  intros H1 H2 [Ha Hb]. split; rewrite dict_lookup_set_other; assumption.
Qed.

Lemma for_each_invariant {A S} (P : S -> Prop) (body : S -> A -> result S) :
  (forall acc x acc', P acc -> body acc x = Ok acc' -> P acc') ->
  forall xs acc out, P acc -> for_each body xs acc = Ok out -> P out.
Proof.
  intros Hbody. induction xs as [|x xs IH]; simpl; intros acc out Hacc H.
  - injection H as <-. exact Hacc.
  - destruct (body acc x) as [acc'|] eqn:E; [|discriminate].
    cbv beta iota delta [bind] in H. eapply IH; [|exact H].
    eapply Hbody; eassumption.
Qed.

(** Splits [x <- r ;; k = Ok out] into [r = Ok x] and [k x = Ok out]. *)
Ltac bind_inv H :=
  cbv beta iota zeta delta [bind] in H;
  repeat match type of H with
         | match ?r with Ok _ => _ | Raise _ => _ end = Ok _ =>
             let x := fresh "x" in
             let E := fresh "E" in
             destruct r as [x|] eqn:E; [|discriminate H]
         end.

Lemma column_of_list (l : list json) (i : nat) (default : json) :
  exists v, column (JList l) i default = Ok v.
Proof.
  unfold column. cbn [py_len py_index]. cbv beta iota delta [bind].
  destruct (Nat.ltb_spec i (length l)); [|eexists; reflexivity].
  destruct (nth_error l i) eqn:E; [eexists; reflexivity|].
  apply nth_error_None in E. lia.
Qed.

Section ScheduleIds.

Context {rt : PyRuntime}.

Lemma column_str_of_list (l : list json) (i : nat) :
  exists v, column_str (JList l) i = Ok v.
Proof.
  unfold column_str. cbn [py_len py_index]. cbv beta iota delta [bind].
  destruct (Nat.ltb_spec i (length l)); [|eexists; reflexivity].
  destruct (nth_error l i) eqn:E; [eexists; reflexivity|].
  apply nth_error_None in E. lia.
Qed.

Lemma add_scheduled_ids game time id u :
  has_ids game id u -> has_ids (add_scheduled game time) id u.
Proof.
  intros H. unfold add_scheduled. destruct (py_truthy time); [|exact H].
  destruct (_parse_nba_date time) as [[|c iso]|]; try exact H.
  apply has_ids_set; [reflexivity | reflexivity | exact H].
Qed.

Lemma live_game_consistent (games : list json) (nba_game : json) out :
  Forall game_consistent games ->
  live_game games nba_game = Ok out -> Forall game_consistent out.
Proof.
  intros Hgames H. unfold live_game in H.
  bind_inv H. destruct (py_str x) as [|c id] eqn:Eid.
  - injection H as <-. exact Hgames.
  - bind_inv H. injection H as <-.
    apply Forall_app. split; [exact Hgames|]. constructor; [|constructor].
    eexists _, (c :: id), _. split; [reflexivity|].
    split; [|split; [discriminate | eassumption]].
    match goal with
    | |- has_ids (if ?b then _ else _) _ _ => destruct b
    end;
      [apply has_ids_set; [reflexivity | reflexivity |]|];
      (match goal with
       | |- has_ids (if ?b then _ else _) _ _ => destruct b
       end;
       [apply has_ids_set; [reflexivity | reflexivity |]|]);
      apply add_scheduled_ids; split; reflexivity.
Qed.

Lemma stats_game_consistent (data : json) (games : list json) (row : json) out :
  Forall game_consistent games ->
  stats_game data games row = Ok out -> Forall game_consistent out.
Proof.
  intros Hgames H. unfold stats_game in H.
  bind_inv H. destruct x as [[|c id]|].
  - injection H as <-. exact Hgames.
  - bind_inv H. injection H as <-.
    apply Forall_app. split; [exact Hgames|]. constructor; [|constructor].
    eexists _, (c :: id), _. split; [reflexivity|].
    split; [|split; [discriminate | eassumption]].
    apply add_scheduled_ids; split; reflexivity.
  - injection H as <-. exact Hgames.
Qed.

(** C10. Every game object in the schedule carries a non-empty
    [nba_game_id] and, as its [id], the UUID [nba_game_id_to_uuid] derives
    from it; an upstream entry with no game id, or an empty one, adds
    nothing to the schedule. *)
Theorem schedule_ids_consistent (data game_date : json) :
  (forall out,
     transform_scoreboard_to_schedule data game_date = Ok out ->
     exists date games,
       out = JDict [(U "date", date); (U "games", JList games)]
       /\ Forall game_consistent games)
  /\ (forall games entry,
        dict_lookup (U "gameId") entry = None
        \/ dict_lookup (U "gameId") entry = Some (JStr []) ->
        live_game games (JDict entry) = Ok games)
  /\ (forall games rest,
        stats_game data games (JList []) = Ok games
        /\ stats_game data games (JList (JStr [] :: rest)) = Ok games).
Proof.
  split; [|split].
  - intros out H. unfold transform_scoreboard_to_schedule in H.
    repeat (bind_inv H;
            match type of H with
            | (if ?b then _ else _) = Ok _ => destruct b
            | match ?o with Some _ => _ | None => _ end = Ok _ => destruct o
            end);
      try discriminate H;
      bind_inv H; injection H as <-; eexists _, _;
      (split; [reflexivity|]);
      first [ solve [constructor]
            | eapply for_each_invariant; [|constructor|eassumption];
              intros acc g acc';
              first [apply live_game_consistent | apply stats_game_consistent] ].
  - intros games entry H. unfold live_game. cbn [py_get].
    destruct H as [-> | ->]; reflexivity.
  - intros games rest. split.
    + reflexivity.
    + unfold stats_game.
      change (column_str (JList (JStr [] :: rest)) 0) with (@Ok (option str) (Some [])).
      cbv beta iota delta [bind].
      destruct (column_of_list (JStr [] :: rest) 1 JNull) as (v1 & ->).
      destruct (column_of_list (JStr [] :: rest) 4 (JStr (U "Scheduled"))) as (v4 & ->).
      destruct (column_str_of_list (JStr [] :: rest) 6) as (v6 & ->).
      destruct (column_str_of_list (JStr [] :: rest) 7) as (v7 & ->).
      reflexivity.
Qed.

End ScheduleIds.

Lemma schedule_ids_consistent_witness :
  transform_scoreboard_to_schedule (rt := example_runtime)
    example_scoreboard (JStr (U "2025-01-01"))
  = Ok (JDict [ (U "date", JStr (U "2025-01-08"));
                (U "games",
                 JList [ JDict [ (U "id", JStr (U "c5eb0d93-200d-5c7a-9cca-149bccf231bf"));
                                 (U "nba_game_id", JStr (U "0022300123"));
                                 (U "status", JStr (U "inprogress"));
                                 (U "home", JDict [ (U "id", JStr []); (U "name", JStr []);
                                    (U "alias", JStr []); (U "city", JStr []);
                                    (U "team_name", JStr []); (U "score", JNull);
                                    (U "wins", JNull); (U "losses", JNull);
                                    (U "timeouts_remaining", JNull);
                                    (U "in_bonus", JNull); (U "periods", JList []) ]);
                                 (U "away", JDict [ (U "id", JStr []); (U "name", JStr []);
                                    (U "alias", JStr []); (U "city", JStr []);
                                    (U "team_name", JStr []); (U "score", JNull);
                                    (U "wins", JNull); (U "losses", JNull);
                                    (U "timeouts_remaining", JNull);
                                    (U "in_bonus", JNull); (U "periods", JList []) ]) ] ]) ])
  /\ exists games,
       Forall game_consistent games /\ length games = 1%nat.
Proof.
  assert (H : transform_scoreboard_to_schedule (rt := example_runtime)
                example_scoreboard (JStr (U "2025-01-01"))
              = Ok (JDict [ (U "date", JStr (U "2025-01-08"));
                (U "games",
                 JList [ JDict [ (U "id", JStr (U "c5eb0d93-200d-5c7a-9cca-149bccf231bf"));
                                 (U "nba_game_id", JStr (U "0022300123"));
                                 (U "status", JStr (U "inprogress"));
                                 (U "home", JDict [ (U "id", JStr []); (U "name", JStr []);
                                    (U "alias", JStr []); (U "city", JStr []);
                                    (U "team_name", JStr []); (U "score", JNull);
                                    (U "wins", JNull); (U "losses", JNull);
                                    (U "timeouts_remaining", JNull);
                                    (U "in_bonus", JNull); (U "periods", JList []) ]);
                                 (U "away", JDict [ (U "id", JStr []); (U "name", JStr []);
                                    (U "alias", JStr []); (U "city", JStr []);
                                    (U "team_name", JStr []); (U "score", JNull);
                                    (U "wins", JNull); (U "losses", JNull);
                                    (U "timeouts_remaining", JNull);
                                    (U "in_bonus", JNull); (U "periods", JList []) ]) ] ]) ]))
    by (vm_compute; reflexivity).
  split; [exact H|].
  destruct (schedule_ids_consistent (rt := example_runtime)
              example_scoreboard (JStr (U "2025-01-01"))) as (Hall & _ & _).
  destruct (Hall _ H) as (date & games & Heq & Hgames).
  exists games. split; [exact Hgames|].
  injection Heq as _ <-. reflexivity.
Defined.

(** ** Test vectors *)

Example sha256_abc :
  SHA256.hexdigest (U "abc")
  = U "ba7816bf8f01cfea414140de5dae2223b00361a396177a9cb410ff61f20015ad".
Proof. vm_compute. reflexivity. Qed.

Example uuid5_of_0022300123 :
  nba_game_id_to_uuid (U "0022300123")
  = Ok (U "c5eb0d93-200d-5c7a-9cca-149bccf231bf").
Proof. vm_compute. reflexivity. Qed.

Example is_nba_game_id_examples :
  is_nba_game_id (U "0022300123") = true
  /\ is_nba_game_id example_uuid = false
  /\ is_nba_game_id [] = false
  /\ is_nba_game_id (U "002230012") = false.
Proof. repeat split; reflexivity. Qed.

(** ** Outside the known shapes *)

(** A [scoreboard] entry that is no container is not an unknown format for
    the transformer: the membership test on it raises. *)
Lemma scoreboard_entry_null_raises :
  transform_scoreboard_to_schedule (rt := example_runtime)
    (JDict [(U "scoreboard", JNull)]) (JStr (U "2025-01-08"))
  = Raise (PyExc TypeError).
Proof. reflexivity. Qed.

(** A play-by-play payload from which no actions come out and that has no
    result sets gets the default, whatever else it holds. *)
Lemma pbp_without_events (pbp_data game_id : json) (items : list (str * json)) :
  pbp_data = JDict items ->
  find_actions pbp_data = Ok None ->
  absent_or_empty (U "resultSets") items = true ->
  transform_playbyplay_to_pbp pbp_data game_id
  = Ok (JDict [ (U "id", game_id); (U "sequence", JInt 0);
                (U "events", JList []) ]).
Proof.
  intros -> Hfind Hsets. unfold transform_playbyplay_to_pbp.
  rewrite Hfind. cbv beta iota delta [bind]. cbn [py_get].
  unfold absent_or_empty in Hsets.
  destruct (dict_lookup (U "resultSets") items) as [r|].
  - apply negb_true_iff in Hsets. rewrite Hsets. reflexivity.
  - reflexivity.
Qed.

(** A game that has not started: the live shape with no actions yet. *)
Example pbp_before_tip_off :
  transform_playbyplay_to_pbp
    (JDict [(U "game", JDict [(U "gameId", JStr (U "0022300123"))])])
    (JStr example_uuid)
  = Ok (JDict [ (U "id", JStr example_uuid); (U "sequence", JInt 0);
                (U "events", JList []) ]).
Proof. reflexivity. Qed.

(** Actions come out numbered from 1, in order. *)
Example pbp_two_actions :
  transform_playbyplay_to_pbp
    (JDict [(U "game",
             JDict [(U "actions",
                     JList [ JDict [(U "actionNumber", JInt 7); (U "x", JInt 1)];
                             JStr (U "junk");
                             JDict [(U "clock", JStr (U "PT11M"))] ])])])
    (JStr example_uuid)
  = Ok (JDict
          [ (U "id", JStr example_uuid); (U "sequence", JInt 2);
            (U "events",
             JList
               [ JDict [ (U "sequence", JInt 1); (U "event_num", JInt 7);
                         (U "action_type", JStr []); (U "period", JInt 0);
                         (U "clock", JStr []); (U "description", JStr []);
                         (U "score_home", JStr []); (U "score_away", JStr []);
                         (U "team_id", JNull); (U "team_tricode", JStr []);
                         (U "player_name", JStr []); (U "player_name_i", JStr []);
                         (U "x", JInt 1) ];
                 JDict [ (U "sequence", JInt 3); (U "event_num", JInt 3);
                         (U "action_type", JStr []); (U "period", JInt 0);
                         (U "clock", JStr (U "PT11M")); (U "description", JStr []);
                         (U "score_home", JStr []); (U "score_away", JStr []);
                         (U "team_id", JNull); (U "team_tricode", JStr []);
                         (U "player_name", JStr []); (U "player_name_i", JStr []) ] ]) ]).
Proof. reflexivity. Qed.

(** * Further properties of the bridge *)

(** ** What a derived id looks like *)

Lemma land_255_range (x : Z) : 0 <= Z.land x 255 < 256.
Proof.
  change 255 with (Z.ones 8). rewrite Z.land_ones by lia.
  apply Z.mod_pos_bound. reflexivity.
Qed.

Lemma shiftr_4_range (b : Z) : 0 <= b < 256 -> 0 <= Z.shiftr b 4 < 16.
Proof.
  intros H. rewrite Z.shiftr_div_pow2 by lia. change (2 ^ 4) with 16.
  split; [apply Z.div_pos; lia | apply Z.div_lt_upper_bound; lia].
Qed.

Lemma hex_digit_lower (n : Z) : 0 <= n < 16 -> is_lower_hex (hex_digit n) = true.
Proof. unfold is_lower_hex, hex_digit. intros H. destruct (n <? 10) eqn:E; lia. Qed.

Lemma hex_high_lower (b : Z) :
  0 <= b < 256 -> is_lower_hex (hex_digit (Z.shiftr b 4)) = true.
Proof. intros H. apply hex_digit_lower, shiftr_4_range, H. Qed.

Lemma hex_low_lower (b : Z) : is_lower_hex (hex_digit (Z.land b 15)) = true.
Proof. apply hex_digit_lower, land_15_range. Qed.

(** The text of a UUID, byte by byte. *)
Lemma to_string_of_bytes (b0 b1 b2 b3 b4 b5 b6 b7 b8 b9 b10 b11 b12 b13 b14 b15 : Z) :
  let hex := hex_of_bytes [b0; b1; b2; b3; b4; b5; b6; b7; b8; b9; b10; b11;
                           b12; b13; b14; b15] in
  firstn 8 hex ++ [45] ++ firstn 4 (skipn 8 hex) ++ [45]
    ++ firstn 4 (skipn 12 hex) ++ [45] ++ firstn 4 (skipn 16 hex) ++ [45]
    ++ skipn 20 hex
  = hex_of_byte b0 ++ hex_of_byte b1 ++ hex_of_byte b2 ++ hex_of_byte b3
      ++ [45] ++ hex_of_byte b4 ++ hex_of_byte b5
      ++ [45] ++ hex_of_byte b6 ++ hex_of_byte b7
      ++ [45] ++ hex_of_byte b8 ++ hex_of_byte b9
      ++ [45] ++ hex_of_byte b10 ++ hex_of_byte b11 ++ hex_of_byte b12
      ++ hex_of_byte b13 ++ hex_of_byte b14 ++ hex_of_byte b15.
Proof. reflexivity. Qed.

Lemma to_string_canonical (u : UUID.t) :
  canonical_uuid_text (UUID.to_string u) = true.
Proof.
  unfold UUID.to_string, UUID.to_bytes. cbn [map].
  rewrite to_string_of_bytes.
  repeat match goal with
         | |- context [Z.land (Z.shiftr u ?k) 255] =>
             let b := fresh "b" in
             let Hb := fresh "Hb" in
             pose proof (land_255_range (Z.shiftr u k)) as Hb;
             set (b := Z.land (Z.shiftr u k) 255) in *; clearbody b
         end.
  unfold hex_of_byte, canonical_uuid_text.
  cbn [app length Nat.eqb uuid_chars_ok uuid_char_ok existsb orb andb].
  rewrite !hex_low_lower, !hex_high_lower by assumption.
  reflexivity.
Qed.

Lemma nibble_of_byte (x k : Z) :
  0 <= k ->
  Z.shiftr (Z.land (Z.shiftr x k) 255) 4 = Z.land (Z.shiftr x (k + 4)) 15.
Proof.
  intros Hk. apply Z.bits_inj'. intros n Hn.
  change 255 with (Z.ones 8). change 15 with (Z.ones 4).
  rewrite Z.shiftr_spec, !Z.land_spec, !Z.shiftr_spec, !testbit_ones by lia.
  replace (n + 4 + k) with (n + (k + 4)) by lia.
  destruct (Z.testbit x (n + (k + 4))); lia.
Qed.

(** The characters at positions 14 and 19 are the high digits of bytes 6
    and 8. *)
Lemma to_string_nibbles (u : UUID.t) :
  nth 14 (UUID.to_string u) 0 = hex_digit (Z.land (Z.shiftr u 76) 15)
  /\ nth 19 (UUID.to_string u) 0 = hex_digit (Z.land (Z.shiftr u 60) 15).
Proof.
  unfold UUID.to_string, UUID.to_bytes. cbn [map].
  rewrite to_string_of_bytes. unfold hex_of_byte. cbn [app nth].
  change (8 * 9) with 72. change (8 * 7) with 56.
  rewrite (nibble_of_byte u (k := 72)), (nibble_of_byte u (k := 56)) by lia.
  split; reflexivity.
Qed.

Lemma variant_nibble (u : Z) :
  Z.land (Z.shiftr u 62) 3 = 2 ->
  In (hex_digit (Z.land (Z.shiftr u 60) 15)) [56; 57; 97; 98].
Proof.
  intros H.
  assert (Hv : Z.shiftr (Z.land (Z.shiftr u 60) 15) 2 = 2).
  { transitivity (Z.land (Z.shiftr u 62) 3); [|exact H].
    apply Z.bits_inj'. intros n Hn.
    change 15 with (Z.ones 4). change 3 with (Z.ones 2).
    rewrite Z.shiftr_spec, !Z.land_spec, !Z.shiftr_spec, !testbit_ones by lia.
    replace (n + 2 + 60) with (n + 62) by lia.
    destruct (Z.testbit u (n + 62)); lia. }
  pose proof (land_15_range (Z.shiftr u 60)) as Hr.
  set (v := Z.land (Z.shiftr u 60) 15) in *. clearbody v.
  rewrite Z.shiftr_div_pow2 in Hv by lia. change (2 ^ 2) with 4 in Hv.
  assert (8 <= v < 12).
  { pose proof (Z.div_mod v 4 ltac:(lia)) as Hd.
    pose proof (Z.mod_pos_bound v 4 ltac:(lia)). lia. }
  unfold hex_digit. cbn [In].
  assert (v = 8 \/ v = 9 \/ v = 10 \/ v = 11) as [->|[->|[->| ->]]] by lia;
    cbn; auto.
Qed.

(** What [nba_game_id_to_uuid] returns is the text of a version-5 UUID. *)
Lemma derived_id_text (s u : str) :
  nba_game_id_to_uuid s = Ok u ->
  exists y, u = UUID.to_string (UUID.with_version 5 y).
Proof.
  unfold nba_game_id_to_uuid, UUID.uuid5.
  destruct (strip s) as [|c rest]; [discriminate|].
  destruct (utf8_encode (c :: rest)) as [name|]; [|discriminate].
  cbv beta iota delta [bind].
  match goal with
  | |- context [UUID.of_bytes ?t] => generalize (UUID.of_bytes t)
  end.
  intros y H. exists y. congruence.
Qed.

(** X1. Every id [nba_game_id_to_uuid] returns is a UUID in canonical text
    form: 36 characters, dashes at 8, 13, 18 and 23, lowercase hexadecimal
    digits elsewhere, the version digit 5 and a variant digit 8, 9, a or b. *)
Theorem derived_id_is_canonical (s u : str) :
  nba_game_id_to_uuid s = Ok u ->
  canonical_uuid_text u = true
  /\ length u = 36%nat
  /\ nth 14 u 0 = 53
  /\ In (nth 19 u 0) [56; 57; 97; 98].
Proof.
  intros H. destruct (derived_id_text _ H) as (y & ->).
  pose proof (to_string_canonical (UUID.with_version 5 y)) as Hc.
  destruct (to_string_nibbles (UUID.with_version 5 y)) as [H14 H19].
  split; [exact Hc|]. split.
  - unfold canonical_uuid_text in Hc. apply andb_prop in Hc as [Hl _].
    apply Nat.eqb_eq, Hl.
  - split.
    + rewrite H14, with_version_5. reflexivity.
    + rewrite H19. apply variant_nibble, with_version_variant.
Qed.

Lemma derived_id_is_canonical_witness :
  canonical_uuid_text (U "c5eb0d93-200d-5c7a-9cca-149bccf231bf") = true
  /\ nth 14 (U "c5eb0d93-200d-5c7a-9cca-149bccf231bf") 0 = 53.
Proof.
  destruct (derived_id_is_canonical (U "0022300123")
              (u := U "c5eb0d93-200d-5c7a-9cca-149bccf231bf"))
    as (H1 & _ & H2 & _).
  - vm_compute. reflexivity.
  - split; [exact H1 | exact H2].
Defined.

(** X2. A derived id is never in provider form: [is_nba_game_id] sends it to
    the store lookup. *)
Theorem derived_id_is_not_provider_form (s u : str) :
  nba_game_id_to_uuid s = Ok u -> is_nba_game_id u = false.
Proof.
  intros H. destruct (derived_id_text _ H) as (y & ->).
  pose proof (to_string_canonical (UUID.with_version 5 y)) as Hc.
  unfold canonical_uuid_text in Hc. apply andb_prop in Hc as [Hl _].
  apply Nat.eqb_eq in Hl. unfold is_nba_game_id.
  destruct (UUID.to_string (UUID.with_version 5 y)) as [|c rest] eqn:E;
    [reflexivity|].
  rewrite Hl. apply andb_false_r.
Qed.

Lemma derived_id_is_not_provider_form_witness :
  is_nba_game_id (U "c5eb0d93-200d-5c7a-9cca-149bccf231bf") = false.
Proof.
  apply (derived_id_is_not_provider_form (U "0022300123")).
  vm_compute. reflexivity.
Defined.

(** ** Trimming and the provider form *)

Lemma lstrip_whitespace (l t : str) :
  forallb isspace_cp l = true -> lstrip (l ++ t) = lstrip t.
Proof.
  induction l as [|c l IH]; simpl; intros H; [reflexivity|].
  apply andb_prop in H as [Hc Hl]. rewrite Hc. auto.
Qed.

Lemma lstrip_all_whitespace (l : str) :
  forallb isspace_cp l = true -> lstrip l = [].
Proof.
  intros H. rewrite <- (app_nil_r l). rewrite lstrip_whitespace by exact H.
  reflexivity.
Qed.

Lemma lstrip_app (s r : str) :
  lstrip (s ++ r) = match lstrip s with
                    | [] => lstrip r
                    | _ => lstrip s ++ r
                    end.
Proof.
  induction s as [|c s IH]; simpl.
  - destruct (lstrip r); reflexivity.
  - destruct (isspace_cp c); [exact IH | reflexivity].
Qed.

Lemma rstrip_whitespace (t r : str) :
  forallb isspace_cp r = true -> rstrip (t ++ r) = rstrip t.
Proof.
  intros H. unfold rstrip. rewrite rev_app_distr, lstrip_whitespace; [reflexivity|].
  apply forallb_forall. intros x Hx. rewrite forallb_forall in H.
  apply H, in_rev, Hx.
Qed.

Lemma strip_padding (l s r : str) :
  forallb isspace_cp l = true -> forallb isspace_cp r = true ->
  strip (l ++ s ++ r) = strip s.
Proof.
  intros Hl Hr. unfold strip. rewrite lstrip_whitespace by exact Hl.
  rewrite lstrip_app. destruct (lstrip s) as [|c t] eqn:E.
  - rewrite lstrip_all_whitespace by exact Hr. reflexivity.
  - rewrite rstrip_whitespace by exact Hr. reflexivity.
Qed.

Lemma strip_no_whitespace (s : str) :
  forallb (fun c => negb (isspace_cp c)) s = true -> strip s = s.
Proof.
  intros H.
  assert (Hl : forall t, forallb (fun c => negb (isspace_cp c)) t = true ->
                         lstrip t = t).
  { intros [|c t]; simpl; [reflexivity|]. intros Ht.
    apply andb_prop in Ht as [Hc _]. apply negb_true_iff in Hc.
    rewrite Hc. reflexivity. }
  unfold strip, rstrip. rewrite (Hl s H), Hl; [apply rev_involutive|].
  apply forallb_forall. intros x Hx. rewrite forallb_forall in H.
  apply H, in_rev, Hx.
Qed.

(** A digit is neither whitespace nor a surrogate. *)
Lemma digit_is_plain (c : Z) :
  isdigit_cp c = true -> isspace_cp c = false /\ is_scalar c = true.
Proof.
  unfold isdigit_cp, digit_ranges, isspace_cp, is_scalar.
  cbn [existsb fst snd]. lia.
Qed.

(** X3. An id in provider form always has a stable id, and it is derived
    from the id as given: nothing is trimmed off it. *)
Theorem provider_form_always_derives (game_id : str) :
  is_nba_game_id game_id = true ->
  strip game_id = game_id
  /\ exists game_uuid, nba_game_id_to_uuid game_id = Ok game_uuid.
Proof.
  intros H. unfold is_nba_game_id in H.
  destruct game_id as [|c rest] eqn:E; [discriminate|]. rewrite <- E in *.
  apply andb_prop in H as [Hd _].
  assert (Hall : forallb isdigit_cp game_id = true)
    by (rewrite E in *; exact Hd).
  assert (Hstrip : strip game_id = game_id).
  { apply strip_no_whitespace, forallb_forall. intros x Hx.
    rewrite forallb_forall in Hall.
    destruct (digit_is_plain x (Hall x Hx)) as [-> _]. reflexivity. }
  split; [exact Hstrip|].
  assert (Henc : encodable game_id = true).
  { apply forallb_forall. intros x Hx. rewrite forallb_forall in Hall.
    apply (digit_is_plain x (Hall x Hx)). }
  destruct (utf8_encode_scalar game_id Henc) as (name & Hname).
  eexists. apply nba_game_id_to_uuid_ok with (name := name).
  - rewrite Hstrip, E. discriminate.
  - rewrite Hstrip. exact Hname.
Qed.

Lemma provider_form_always_derives_witness :
  strip superscript_twos = superscript_twos
  /\ exists game_uuid, nba_game_id_to_uuid superscript_twos = Ok game_uuid.
Proof.
  apply provider_form_always_derives. reflexivity.
Defined.

(** X4. Whitespace around the provider id does not change the stable id,
    and trimming first changes nothing. *)
Theorem padding_does_not_change_the_id (l s r : str) :
  forallb isspace_cp l = true -> forallb isspace_cp r = true ->
  nba_game_id_to_uuid (l ++ s ++ r) = nba_game_id_to_uuid s
  /\ nba_game_id_to_uuid (strip s) = nba_game_id_to_uuid s.
Proof.
  intros Hl Hr. split.
  - unfold nba_game_id_to_uuid. rewrite (@strip_padding l s r Hl Hr). reflexivity.
  - destruct (strip_split s) as (l' & r' & Hs & Hl' & Hr').
    unfold nba_game_id_to_uuid.
    assert (H : strip (strip s) = strip s).
    { rewrite Hs at 2. rewrite (@strip_padding l' (strip s) r' Hl' Hr'). reflexivity. }
    rewrite H. reflexivity.
Qed.

Lemma padding_does_not_change_the_id_witness :
  nba_game_id_to_uuid (U " " ++ U "0022300123" ++ [9; 10])
  = nba_game_id_to_uuid (U "0022300123").
Proof.
  apply (@padding_does_not_change_the_id (U " ") (U "0022300123") [9; 10]);
    reflexivity.
Defined.

(** ** The ETag token *)

Lemma sha256_digest_bytes (msg : bytes) :
  Forall (fun b => 0 <= b < 256) (SHA256.digest msg).
Proof.
  unfold SHA256.digest.
  generalize (fold_left SHA256.compress (Word32.blocks_of msg) SHA256.init).
  intros st. cbn [flat_map Word32.to_bytes app].
  repeat constructor; apply land_255_range.
Qed.

Lemma hex_of_bytes_lower (bs : bytes) :
  Forall (fun b => 0 <= b < 256) bs ->
  forallb is_lower_hex (hex_of_bytes bs) = true.
Proof.
  induction 1 as [|b bs Hb _ IH]; [reflexivity|].
  cbn [hex_of_bytes flat_map hex_of_byte app forallb].
  rewrite hex_high_lower by exact Hb. rewrite hex_low_lower.
  exact IH.
Qed.

Lemma forallb_firstn {A} (f : A -> bool) (n : nat) (l : list A) :
  forallb f l = true -> forallb f (firstn n l) = true.
Proof.
  revert n. induction l as [|x l IH]; intros [|n] H; simpl; auto.
  simpl in H. apply andb_prop in H as [Hx Hl]. rewrite Hx. simpl. auto.
Qed.

(** X5. Whenever [calculate_etag] returns, the token is a double quote,
    sixteen lowercase hexadecimal digits, a double quote. *)
Theorem etag_token_format (data : json) (etag : str) :
  calculate_etag data = Ok etag ->
  exists digits,
    etag = [34] ++ digits ++ [34]
    /\ length digits = 16%nat
    /\ forallb is_lower_hex digits = true.
Proof.
  unfold calculate_etag.
  destruct (utf8_encode (Json.dumps true data)) as [encoded|]; [|discriminate].
  cbv beta iota delta [bind].
  assert (Hlen : length (firstn 16 (SHA256.hexdigest encoded)) = 16%nat).
  { rewrite length_firstn. unfold SHA256.hexdigest.
    rewrite hex_of_bytes_length, sha256_digest_length. reflexivity. }
  assert (Hhex : forallb is_lower_hex (firstn 16 (SHA256.hexdigest encoded)) = true).
  { apply forallb_firstn, hex_of_bytes_lower, sha256_digest_bytes. }
  revert Hlen Hhex. generalize (firstn 16 (SHA256.hexdigest encoded)).
  intros digits Hlen Hhex H. exists digits.
  split; [congruence|]. split; assumption.
Qed.

Lemma etag_token_format_witness :
  exists digits,
    [34] ++ U "d8497d9d82770a70" ++ [34] = [34] ++ digits ++ [34]
    /\ length digits = 16%nat
    /\ forallb is_lower_hex digits = true.
Proof.
  apply (etag_token_format payload_ab). vm_compute. reflexivity.
Defined.

(** ** What the handlers answer *)

Lemma mbind_ok {A B} (m : M A) (k : A -> M B) (st : hstate) (b : B) :
  fst (mbind m k st) = Ok b ->
  exists a st', m st = (Ok a, st') /\ fst (k a st') = Ok b.
Proof.
  unfold mbind. destruct (m st) as [[a|e] st']; [|discriminate].
  intros H. exists a, st'. auto.
Qed.

Lemma try_except_ok {A} (m : M A) (f : exn -> exn) (st : hstate) (a : A) :
  fst (try_except m (fun e => throw (f e)) st) = Ok a -> fst (m st) = Ok a.
Proof.
  unfold try_except, throw. destruct (m st) as [[x|e] st']; [auto|discriminate].
Qed.

Lemma try_except_raise {A} (m : M A) (f : exn -> exn) (st : hstate) (e : exn) :
  fst (try_except m (fun e => throw (f e)) st) = Raise e ->
  exists cause, fst (m st) = Raise cause /\ e = f cause.
Proof.
  unfold try_except, throw. destruct (m st) as [[x|c] st']; [discriminate|].
  cbn [fst]. intros H. exists c. split; congruence.
Qed.

Lemma conditional_response_answer (if_none_match : option str)
    (max_age : str) (payload : json) (r : response) :
  conditional_response if_none_match max_age payload = Ok r ->
  answer_ok max_age if_none_match r /\
  (forall headers body, r = JsonBody headers body -> body = payload).
Proof.
  unfold conditional_response.
  destruct (calculate_etag payload) as [etag|] eqn:Hetag; [|discriminate].
  cbv beta iota delta [bind].
  destruct (calculate_etag_nonempty _ Hetag) as (rest & Hrest).
  assert (Hsend : if_none_match <> Some etag ->
                  answer_ok max_age if_none_match
                    (JsonBody [(U "ETag", etag);
                               (U "Cache-Control", U "max-age=" ++ max_age)] payload)).
  { intros Hne. exists etag. auto. }
  destruct if_none_match as [[|c header]|].
  - intros H. injection H as <-. split; [apply Hsend; congruence|].
    intros ? ? E. congruence.
  - destruct (str_eqb (c :: header) etag) eqn:E; intros H; injection H as <-.
    + apply str_eqb_eq in E. split; [|discriminate].
      split; [reflexivity|]. exists (c :: header). split; [reflexivity|discriminate].
    + apply str_eqb_neq in E. split; [apply Hsend; congruence|].
      intros ? ? E'. congruence.
  - intros H. injection H as <-. split; [apply Hsend; discriminate|].
    intros ? ? E. congruence.
Qed.

Section Answers.

Context {rt : PyRuntime} (w : world).

Lemma handlers_answer_well_aux (if_none_match : option str) (st : hstate) :
  (forall year month day r,
     fst (get_schedule w year month day if_none_match st) = Ok r ->
     answer_ok (U "3600") if_none_match r)
  /\ (forall game_id r,
        fst (get_game_summary w game_id if_none_match st) = Ok r ->
        answer_ok (U "60") if_none_match r)
  /\ (forall game_id r,
        fst (get_play_by_play w game_id if_none_match st) = Ok r ->
        answer_ok (U "30") if_none_match r).
Proof.
  split; [|split].
  - intros year month day r H. unfold get_schedule in H.
    unfold try_except in H.
    match type of H with
    | fst (match ?m with _ => _ end) = _ => destruct m as [[x|e] st'] eqn:E
    end.
    + cbn [fst] in H. injection H as ->.
      assert (E' := f_equal fst E). cbn [fst] in E'.
      repeat (apply mbind_ok in E' as (? & ? & _ & E')).
      unfold lift in E'. cbn [fst] in E'.
      apply conditional_response_answer in E' as [E' _]. exact E'.
    + destruct (is_value_error e); discriminate H.
  - intros game_id r H. apply try_except_ok in H. unfold get_game_summary in H.
    repeat (apply mbind_ok in H as (? & ? & _ & H)).
    unfold lift in H. cbn [fst] in H.
    apply conditional_response_answer in H as [H _]. exact H.
  - intros game_id r H. apply try_except_ok in H.
    repeat (apply mbind_ok in H as (? & ? & _ & H)).
    unfold lift in H. cbn [fst] in H.
    apply conditional_response_answer in H as [H _]. exact H.
Qed.


(** X6. Whatever a handler answers without raising is well formed: a body
    carries its own ETag and the endpoint's max-age (3600 for the schedule,
    60 for the summary, 30 for the play-by-play) and goes to a request that
    did not hold that ETag; a bodiless answer is a 304 to a request that
    sent a non-empty [If-None-Match]. *)
Theorem handlers_answer_well (if_none_match : option str) (st : hstate)
    (r : response) :
  (forall year month day,
     fst (get_schedule w year month day if_none_match st) = Ok r ->
     answer_ok (U "3600") if_none_match r)
  /\ (forall game_id,
        fst (get_game_summary w game_id if_none_match st) = Ok r ->
        answer_ok (U "60") if_none_match r)
  /\ (forall game_id,
        fst (get_play_by_play w game_id if_none_match st) = Ok r ->
        answer_ok (U "30") if_none_match r).
Proof.
  destruct (handlers_answer_well_aux if_none_match st) as (H1 & H2 & H3).
  split; [|split]; intros; eauto.
Qed.

End Answers.

Lemma handlers_answer_well_witness :
  answer_ok (U "3600") None
    (JsonBody [ (U "ETag", [34] ++ U "9296ff14d9f6821c" ++ [34]);
                (U "Cache-Control", U "max-age=3600") ]
              (schedule_of (JStr (U "2025-01-08")) [])).
Proof.
  destruct (handlers_answer_well (rt := example_runtime)
              (example_world None (Ok (JDict []))) None fresh
              (JsonBody [ (U "ETag", [34] ++ U "9296ff14d9f6821c" ++ [34]);
                          (U "Cache-Control", U "max-age=3600") ]
                        (schedule_of (JStr (U "2025-01-08")) [])))
    as (H & _ & _).
  apply (H 2025 1 8). vm_compute. reflexivity.
Defined.

(** ** How the handlers fail *)

Section Failures.

Context {rt : PyRuntime} (w : world).

(** X7. The game handlers have one way to fail: whatever went wrong comes
    out as a 500 whose detail is the handler's prefix followed by the cause;
    so they answer 200, 304 or 500 and nothing else. *)
Theorem game_handlers_fail_with_500 (game_id : str)
    (if_none_match : option str) (st : hstate) :
  (forall e, fst (get_game_summary w game_id if_none_match st) = Raise e ->
             exists cause,
               e = HTTPException 500
                     (Wrapped (U "Error fetching game summary: ") cause))
  /\ (forall e, fst (get_play_by_play w game_id if_none_match st) = Raise e ->
                exists cause,
                  e = HTTPException 500
                        (Wrapped (U "Error fetching play-by-play: ") cause))
  /\ In (http_status (fst (get_game_summary w game_id if_none_match st)))
        [200; 304; 500]
  /\ In (http_status (fst (get_play_by_play w game_id if_none_match st)))
        [200; 304; 500].
Proof.
  assert (Hs : forall e,
    fst (get_game_summary w game_id if_none_match st) = Raise e ->
    exists cause,
      e = HTTPException 500 (Wrapped (U "Error fetching game summary: ") cause)).
  { intros e H. apply try_except_raise in H as (cause & _ & ->).
    exists cause. reflexivity. }
  assert (Hp : forall e,
    fst (get_play_by_play w game_id if_none_match st) = Raise e ->
    exists cause,
      e = HTTPException 500 (Wrapped (U "Error fetching play-by-play: ") cause)).
  { intros e H. apply try_except_raise in H as (cause & _ & ->).
    exists cause. reflexivity. }
  split; [exact Hs|]. split; [exact Hp|].
  destruct (handlers_answer_well_aux w if_none_match st) as (_ & Hsum & Hpbp).
  split.
  - destruct (fst (get_game_summary w game_id if_none_match st)) as [r|e] eqn:E.
    + specialize (Hsum game_id r E). destruct r as [h b|c]; cbn [http_status In].
      * auto.
      * destruct Hsum as [-> _]. auto.
    + destruct (Hs e eq_refl) as (cause & ->). cbn [http_status In]. auto.
  - destruct (fst (get_play_by_play w game_id if_none_match st)) as [r|e] eqn:E.
    + specialize (Hpbp game_id r E). destruct r as [h b|c]; cbn [http_status In].
      * auto.
      * destruct Hpbp as [-> _]. auto.
    + destruct (Hp e eq_refl) as (cause & ->). cbn [http_status In]. auto.
Qed.

End Failures.

Lemma game_handlers_fail_with_500_witness :
  exists cause,
    fst (get_game_summary (rt := example_runtime)
           (example_world None (Ok (JDict []))) example_uuid None fresh)
    = Raise (HTTPException 500
               (Wrapped (U "Error fetching game summary: ") cause)).
Proof.
  destruct (game_handlers_fail_with_500 (rt := example_runtime)
              (example_world None (Ok (JDict []))) example_uuid None fresh)
    as (H & _).
  destruct (H (HTTPException 500
                 (Wrapped (U "Error fetching game summary: ")
                          (not_in_cache example_uuid))) eq_refl)
    as (cause & Hc).
  exists cause. rewrite <- Hc. reflexivity.
Defined.

(** ** The schedule handler and its dates *)

Section Schedule.

Context {rt : PyRuntime} (w : world).

(** X8. A request for a day that does not exist is answered 400
    "Invalid date" before anything else happens: the upstream client is not
    called. *)
Theorem invalid_date_is_400 (year month day : Z)
    (if_none_match : option str) (st : hstate) :
  c_int year -> c_int month -> c_int day ->
  ~ (1 <= year <= 9999 /\ 1 <= month <= 12
     /\ 1 <= day <= days_in_month year month) ->
  get_schedule w year month day if_none_match st
  = (Raise (HTTPException 400
              (Wrapped (U "Invalid date: ") (PyExc ValueError))), st).
Proof.
  intros _ _ _ Hbad.
  assert (Hd : make_date year month day = Raise (PyExc ValueError)).
  { unfold make_date.
    destruct ((1 <=? year) && (year <=? 9999) && (1 <=? month)
              && (month <=? 12) && (1 <=? day)
              && (day <=? days_in_month year month)) eqn:E; [|reflexivity].
    exfalso. apply Hbad. lia. }
  unfold get_schedule, try_except, mbind, lift, throw. rewrite Hd.
  reflexivity.
Qed.

(** X9. Once the date is valid, whatever the upstream client or the
    transformer raises decides the status by its class alone: a
    [ValueError] (or a subclass) is answered 400 under the words
    "Invalid date", anything else 500. *)
Theorem schedule_failure_status (year month day : Z)
    (if_none_match : option str) (st : hstate) (e : exn) :
  make_date year month day = Ok tt ->
  let date_str := str_of_Z year ++ U "-" ++ format_02d month
                    ++ U "-" ++ format_02d day in
  nba_get_scoreboard w year month day = Raise e
  \/ (exists data, nba_get_scoreboard w year month day = Ok data
                   /\ transform_scoreboard_to_schedule data (JStr date_str)
                      = Raise e) ->
  fst (get_schedule w year month day if_none_match st)
  = Raise (if is_value_error e
           then HTTPException 400 (Wrapped (U "Invalid date: ") e)
           else HTTPException 500 (Wrapped (U "Error fetching schedule: ") e)).
Proof.
  intros Hd date_str [Hup | (data & Hup & Htr)];
    unfold get_schedule, try_except, mbind, lift, call_upstream, throw;
    rewrite Hd, Hup; [|fold date_str; rewrite Htr];
    cbn [fst snd]; destruct (is_value_error e); reflexivity.
Qed.

End Schedule.

Lemma invalid_date_is_400_witness :
  http_status
    (fst (get_schedule (rt := example_runtime)
            (example_world None (Ok (JDict []))) 2025 2 30 None fresh)) = 400
  /\ upstream_log
       (snd (get_schedule (rt := example_runtime)
               (example_world None (Ok (JDict []))) 2025 2 30 None fresh)) = [].
Proof.
  rewrite (@invalid_date_is_400 example_runtime
             (example_world None (Ok (JDict []))) 2025 2 30 None fresh).
  - split; reflexivity.
  - unfold c_int. lia.
  - unfold c_int. lia.
  - unfold c_int. lia.
  - vm_compute. intros (_ & _ & _ & H). apply H. reflexivity.
Defined.

Lemma schedule_failure_status_witness :
  fst (get_schedule (rt := example_runtime)
         (example_world None (Ok blank_id_scoreboard)) 2025 1 8 None fresh)
  = Raise (HTTPException 400 (Wrapped (U "Invalid date: ") (PyExc ValueError))).
Proof.
  apply (@schedule_failure_status example_runtime
           (example_world None (Ok blank_id_scoreboard)) 2025 1 8 None fresh
           (PyExc ValueError)).
  - reflexivity.
  - right. exists blank_id_scoreboard. split; reflexivity.
Defined.

(** ** The two ways to name a game *)

Section Routes.

Context {rt : PyRuntime}.

(** X10. For an id in provider form the store plays no part: two worlds
    whose upstream clients answer alike give the same answers, whatever
    their stores hold, and the Redis client is not created. *)
Theorem provider_form_ignores_the_store (w1 w2 : world) (game_id : str)
    (if_none_match : option str) (st1 st2 : hstate) :
  is_nba_game_id game_id = true ->
  (forall id, nba_get_game_summary w1 id = nba_get_game_summary w2 id) ->
  (forall id, nba_get_play_by_play w1 id = nba_get_play_by_play w2 id) ->
  fst (get_game_summary w1 game_id if_none_match st1)
  = fst (get_game_summary w2 game_id if_none_match st2)
  /\ fst (get_play_by_play w1 game_id if_none_match st1)
     = fst (get_play_by_play w2 game_id if_none_match st2)
  /\ _redis_client (snd (get_game_summary w1 game_id if_none_match st1))
     = _redis_client st1
  /\ _redis_client (snd (get_play_by_play w1 game_id if_none_match st1))
     = _redis_client st1.
Proof.
  intros Hid Hs Hp.
  unfold get_game_summary, get_play_by_play, resolve_game_id, try_except,
    mbind, lift, ret, throw, call_upstream.
  rewrite Hid. destruct (nba_game_id_to_uuid game_id) as [u|e]; cbn [fst snd].
  - rewrite (Hs (JStr game_id)), (Hp (JStr game_id)).
    destruct (nba_get_game_summary w2 (JStr game_id)) as [d|e];
      destruct (nba_get_play_by_play w2 (JStr game_id)) as [d'|e'];
      cbn [fst snd];
      repeat match goal with
             | |- context [match ?r with Ok _ => _ | Raise _ => _ end] =>
                 destruct r; cbn [fst snd]
             end;
      repeat split; reflexivity.
  - repeat split; reflexivity.
Qed.

(** X11. A stable id whose store record holds a provider id is served with
    that provider id: the upstream client is asked once, for the stored id,
    and the payload is built under the stable id the caller gave. *)
Theorem stable_id_is_served_from_the_record (w : world) (game_uuid text : str)
    (items : list (str * json)) (provider_id : str)
    (if_none_match : option str) (st : hstate) :
  is_nba_game_id game_uuid = false ->
  reachable w st ->
  redis_get w (meta_key game_uuid) = Ok (Some text) -> text <> [] ->
  json_loads text = Some (JDict items) ->
  dict_lookup (U "nba_game_id") items = Some (JStr provider_id) ->
  provider_id <> [] ->
  upstream_log (snd (get_game_summary w game_uuid if_none_match st))
  = upstream_log st ++ [GetGameSummary (JStr provider_id)]
  /\ forall data summary etag,
       nba_get_game_summary w (JStr provider_id) = Ok data ->
       transform_boxscore_to_summary data (JStr game_uuid) = Ok summary ->
       calculate_etag summary = Ok etag ->
       fst (get_game_summary w game_uuid if_none_match st)
       = conditional_response if_none_match (U "60") summary.
Proof.
  intros Hid Hr Hget Hne Hloads Hfield Hpid.
  pose proof (lookup_record game_uuid Hr Hget Hne Hloads Hfield) as Hl.
  pose proof (get_nba_game_id_from_uuid_log w game_uuid st) as Hlog.
  unfold get_game_summary, resolve_game_id, try_except, mbind.
  rewrite Hid.
  destruct (get_nba_game_id_from_uuid w game_uuid st) as [r st'].
  cbn [fst snd] in Hl, Hlog. subst r.
  destruct provider_id as [|c p]; [congruence|].
  cbn [py_truthy negb]. unfold ret, call_upstream, lift, throw. cbn [fst snd].
  split.
  - destruct (nba_get_game_summary w (JStr (c :: p))) as [d|e]; cbn [fst snd];
      [|rewrite Hlog; reflexivity].
    destruct (transform_boxscore_to_summary d (JStr game_uuid)) as [sm|e];
      cbn [fst snd]; [|rewrite Hlog; reflexivity].
    destruct (conditional_response if_none_match (U "60") sm); cbn [fst snd];
      rewrite Hlog; reflexivity.
  - intros data summary etag Hup Htr Hetag. rewrite Hup. cbn [fst snd].
    rewrite Htr.
    destruct (conditional_response_ok if_none_match (U "60") _ Hetag) as (r & ->).
    reflexivity.
Qed.

End Routes.

Lemma provider_form_ignores_the_store_witness :
  fst (get_game_summary (rt := example_runtime)
         (example_world None (Ok (JDict []))) (U "0022300123") None fresh)
  = fst (get_game_summary (rt := example_runtime)
           (example_world (Some (U "5")) (Ok (JDict []))) (U "0022300123") None fresh).
Proof.
  destruct (@provider_form_ignores_the_store example_runtime
              (example_world None (Ok (JDict [])))
              (example_world (Some (U "5")) (Ok (JDict [])))
              (U "0022300123") None fresh fresh) as (H & _);
    [reflexivity | reflexivity | reflexivity | exact H].
Defined.

Lemma stable_id_is_served_from_the_record_witness :
  upstream_log
    (snd (get_game_summary (rt := example_runtime)
            (example_world (Some (Json.dumps false example_record)) (Ok (JDict [])))
            example_uuid None fresh))
  = [GetGameSummary (JStr (U "0022300123"))].
Proof.
  apply (@stable_id_is_served_from_the_record example_runtime
           (example_world (Some (Json.dumps false example_record)) (Ok (JDict [])))
           example_uuid (Json.dumps false example_record)
           [(U "nba_game_id", JStr (U "0022300123"))] (U "0022300123") None fresh).
  - reflexivity.
  - right. repeat split; reflexivity.
  - reflexivity.
  - vm_compute. discriminate.
  - reflexivity.
  - reflexivity.
  - discriminate.
Defined.

(** ** Calls to the upstream client *)

Lemma calls_ret {A} (a : A) : calls_at_most 0 (ret a).
Proof. intros st. exists []. rewrite app_nil_r. auto. Qed.

Lemma calls_throw {A} (e : exn) : calls_at_most 0 (@throw A e).
Proof. intros st. exists []. rewrite app_nil_r. auto. Qed.

Lemma calls_lift {A} (r : result A) : calls_at_most 0 (lift r).
Proof. intros st. exists []. rewrite app_nil_r. auto. Qed.

Lemma calls_call_upstream (c : upstream_call) (answer : result json) :
  calls_at_most 1 (call_upstream c answer).
Proof. intros st. exists [c]. auto. Qed.

Lemma calls_mbind {A B} (n k : nat) (m : M A) (f : A -> M B) :
  calls_at_most n m -> (forall a, calls_at_most k (f a)) ->
  calls_at_most (n + k) (mbind m f).
Proof.
  intros Hm Hf st. unfold mbind. destruct (Hm st) as (c1 & H1 & L1).
  destruct (m st) as [[a|e] st']; cbn [snd] in H1.
  - destruct (Hf a st') as (c2 & H2 & L2). exists (c1 ++ c2).
    rewrite H2, H1, app_assoc, length_app. split; [reflexivity | lia].
  - exists c1. cbn [snd]. split; [exact H1 | lia].
Qed.

Lemma calls_try_except {A} (n k : nat) (m : M A) (h : exn -> M A) :
  calls_at_most n m -> (forall e, calls_at_most k (h e)) ->
  calls_at_most (n + k) (try_except m h).
Proof.
  intros Hm Hh st. unfold try_except. destruct (Hm st) as (c1 & H1 & L1).
  destruct (m st) as [[a|e] st']; cbn [snd] in H1.
  - exists c1. cbn [snd]. split; [exact H1 | lia].
  - destruct (Hh e st') as (c2 & H2 & L2). exists (c1 ++ c2).
    rewrite H2, H1, app_assoc, length_app. split; [reflexivity | lia].
Qed.

Section Calls.

Context {rt : PyRuntime} (w : world).

Lemma calls_lookup (game_uuid : str) :
  calls_at_most 0 (get_nba_game_id_from_uuid w game_uuid).
Proof.
  intros st. exists []. rewrite app_nil_r.
  split; [apply get_nba_game_id_from_uuid_log | auto].
Qed.

Lemma calls_resolve (game_id : str) : calls_at_most 0 (resolve_game_id w game_id).
Proof.
  unfold resolve_game_id. destruct (is_nba_game_id game_id).
  - apply (calls_mbind (n := 0) (k := 0)); [apply calls_lift|].
    intros a. apply calls_ret.
  - apply (calls_mbind (n := 0) (k := 0)); [apply calls_lookup|].
    intros a. destruct (negb (py_truthy a)); [apply calls_throw | apply calls_ret].
Qed.

(** X12. A request makes at most one call to the upstream client, whatever
    the handler and however the request ends.  The store lookup makes none,
    whether it finds the id or not, and so does the resolution of the id
    that the two game handlers start with, also when it ends in the 404:
    the one call of a game handler is the fetch itself. *)
Theorem one_upstream_call_per_request (if_none_match : option str) :
  (forall year month day,
     calls_at_most 1 (get_schedule w year month day if_none_match))
  /\ (forall game_id, calls_at_most 1 (get_game_summary w game_id if_none_match))
  /\ (forall game_id, calls_at_most 1 (get_play_by_play w game_id if_none_match))
  /\ (forall game_uuid st,
        upstream_log (snd (get_game_metadata w game_uuid st)) = upstream_log st
        /\ upstream_log (snd (get_nba_game_id_from_uuid w game_uuid st))
           = upstream_log st)
  /\ (forall game_id, calls_at_most 0 (resolve_game_id w game_id)).
Proof.
  split; [|split; [|split; [|split]]];
    [| | | intros game_uuid st; split;
           [apply get_game_metadata_log | apply get_nba_game_id_from_uuid_log]
     | apply calls_resolve].
  - intros year month day. unfold get_schedule.
    apply (calls_try_except (n := 1) (k := 0)).
    + apply (calls_mbind (n := 0) (k := 1)); [apply calls_lift|]. intros _.
      apply (calls_mbind (n := 1) (k := 0)); [apply calls_call_upstream|].
      intros data.
      apply (calls_mbind (n := 0) (k := 0)); [apply calls_lift|]. intros s.
      apply calls_lift.
    + intros e. destruct (is_value_error e); apply calls_throw.
  - intros game_id. unfold get_game_summary.
    apply (calls_try_except (n := 1) (k := 0)); [|intros e; apply calls_throw].
    apply (calls_mbind (n := 0) (k := 1)); [apply calls_resolve|]. intros ids.
    apply (calls_mbind (n := 1) (k := 0)); [apply calls_call_upstream|].
    intros data.
    apply (calls_mbind (n := 0) (k := 0)); [apply calls_lift|]. intros s.
    apply calls_lift.
  - intros game_id. unfold get_play_by_play.
    apply (calls_try_except (n := 1) (k := 0)); [|intros e; apply calls_throw].
    apply (calls_mbind (n := 0) (k := 1)); [apply calls_resolve|]. intros ids.
    apply (calls_mbind (n := 1) (k := 0)); [apply calls_call_upstream|].
    intros data.
    apply (calls_mbind (n := 0) (k := 0)); [apply calls_lift|]. intros s.
    apply calls_lift.
Qed.

(** ** The Redis client *)

(** X13. The module keeps the first client it manages to create, verified
    or not: once [from_url] has succeeded, every later call returns the
    client at once, even when the first call failed on its [ping]. *)
Theorem redis_client_is_kept (st : hstate) :
  (_redis_client st = true -> get_redis_client w st = (Ok tt, st))
  /\ (redis_installed w = true -> redis_from_url w = Ok tt ->
      let st1 := snd (get_redis_client w st) in
      _redis_client st1 = true
      /\ get_redis_client w st1 = (Ok tt, st1))
  /\ (_redis_client st = false -> redis_installed w = true ->
      redis_from_url w = Ok tt -> forall e, redis_ping w = Raise e ->
      fst (get_redis_client w st) = Raise e
      /\ fst (get_redis_client w (snd (get_redis_client w st))) = Ok tt).
Proof.
  split; [|split].
  - intros H. unfold get_redis_client. rewrite H. reflexivity.
  - intros Hi Hf. unfold get_redis_client.
    destruct (_redis_client st) eqn:E.
    + cbn [snd]. rewrite E. auto.
    + rewrite Hi, Hf. cbn [negb]. destruct (redis_ping w); cbn [snd _redis_client];
        auto.
  - intros E Hi Hf e Hp. unfold get_redis_client.
    rewrite E, Hi, Hf, Hp. cbn [negb fst snd _redis_client]. auto.
Qed.

(** X14. Whatever goes wrong on the way to the record comes out of
    [get_nba_game_id_from_uuid] as [None]: no client, a failed read, no such
    key, an empty or unparsable value, a record without the field.
    [get_game_metadata] itself never raises. *)
Theorem store_failures_give_none (game_uuid : str) (st : hstate) :
  (exists metadata, fst (get_game_metadata w game_uuid st) = Ok metadata)
  /\ (forall e, fst (get_redis_client w st) = Raise e ->
                fst (get_nba_game_id_from_uuid w game_uuid st) = Ok JNull)
  /\ (forall e, redis_get w (meta_key game_uuid) = Raise e ->
                fst (get_nba_game_id_from_uuid w game_uuid st) = Ok JNull)
  /\ (redis_get w (meta_key game_uuid) = Ok None
      \/ redis_get w (meta_key game_uuid) = Ok (Some []) ->
      fst (get_nba_game_id_from_uuid w game_uuid st) = Ok JNull)
  /\ (forall text, redis_get w (meta_key game_uuid) = Ok (Some text) ->
                   json_loads text = None ->
                   fst (get_nba_game_id_from_uuid w game_uuid st) = Ok JNull)
  /\ (forall text items,
        redis_get w (meta_key game_uuid) = Ok (Some text) ->
        json_loads text = Some (JDict items) ->
        dict_lookup (U "nba_game_id") items = None ->
        fst (get_nba_game_id_from_uuid w game_uuid st) = Ok JNull).
Proof.
  destruct (lookup_not_found w game_uuid st) as (H1 & H2 & H3 & H4 & H5).
  split; [apply get_game_metadata_returns|].
  split; [exact H1|]. split; [exact H2|]. split; [|split; [exact H4 | exact H5]].
  intros [H|H]; [exact (H3 H)|].
  pose proof (get_game_metadata_cases w game_uuid st) as Hm.
  rewrite H in Hm. rewrite (get_nba_game_id_from_uuid_cases _ _ _ Hm).
  destruct (fst (get_redis_client w st)); reflexivity.
Qed.

(** X15. With a record in the store, [get_nba_game_id_from_uuid] hands
    back the value of its [nba_game_id] field as it is stored, string or
    not. *)
Theorem record_field_is_returned (game_uuid text : str)
    (items : list (str * json)) (v : json) (st : hstate) :
  reachable w st ->
  redis_get w (meta_key game_uuid) = Ok (Some text) -> text <> [] ->
  json_loads text = Some (JDict items) ->
  dict_lookup (U "nba_game_id") items = Some v ->
  fst (get_nba_game_id_from_uuid w game_uuid st) = Ok v.
Proof. intros. eapply lookup_record; eassumption. Qed.

End Calls.

Lemma one_upstream_call_per_request_witness :
  exists calls,
    upstream_log
      (snd (get_game_summary (rt := example_runtime)
              (example_world None (Ok (JDict []))) (U "0022300123") None fresh))
    = [] ++ calls
    /\ (length calls <= 1)%nat.
Proof.
  destruct (one_upstream_call_per_request (rt := example_runtime)
              (example_world None (Ok (JDict []))) None) as (_ & H & _).
  exact (H (U "0022300123") fresh).
Defined.

Lemma redis_client_is_kept_witness :
  fst (get_redis_client unreachable_world fresh) = Raise (PyExc ConnectionError)
  /\ fst (get_redis_client unreachable_world
            (snd (get_redis_client unreachable_world fresh))) = Ok tt.
Proof.
  destruct (redis_client_is_kept unreachable_world fresh) as (_ & _ & H).
  apply H; reflexivity.
Defined.

Lemma store_failures_give_none_witness :
  fst (get_nba_game_id_from_uuid (rt := example_runtime) unreachable_world
         example_uuid fresh) = Ok JNull.
Proof.
  destruct (store_failures_give_none (rt := example_runtime) unreachable_world
              example_uuid fresh) as (_ & H & _).
  apply (H (PyExc ConnectionError)). reflexivity.
Defined.

Lemma record_field_is_returned_witness :
  fst (get_nba_game_id_from_uuid (rt := example_runtime)
         (example_world (Some (Json.dumps false example_record)) (Ok (JDict [])))
         example_uuid fresh)
  = Ok (JStr (U "0022300123")).
Proof.
  apply (@record_field_is_returned example_runtime
           (example_world (Some (Json.dumps false example_record)) (Ok (JDict [])))
           example_uuid (Json.dumps false example_record)
           [(U "nba_game_id", JStr (U "0022300123"))]).
  - right. repeat split; reflexivity.
  - reflexivity.
  - vm_compute. discriminate.
  - reflexivity.
  - reflexivity.
Defined.

(** ** The status, whatever the payload holds *)

Lemma text_status_value (lowered : str) (period clock : json) :
  In (text_status lowered period clock) status_values.
Proof.
  unfold text_status.
  repeat match goal with
         | |- context [if ?b then _ else _] => destruct b
         end; unfold status_values; cbn [In]; in_list.
Qed.

Section StatusJson.

Context {rt : PyRuntime}.

Lemma map_game_status_value (status_text game_status period clock : json) :
  _map_game_status status_text game_status period clock
  = if py_eq_int game_status 2 then Ok (U "inprogress")
    else if py_eq_int game_status 3 then Ok (U "closed")
    else match status_text with
         | JStr t =>
             Ok (text_status (match t with [] => [] | _ => str_lower t end)
                             period clock)
         | _ =>
             if py_truthy status_text then Raise (PyExc AttributeError)
             else Ok (text_status [] period clock)
         end.
Proof.
  unfold _map_game_status, text_status.
  destruct (py_eq_int game_status 2); [reflexivity|].
  destruct (py_eq_int game_status 3); [reflexivity|].
  destruct status_text as [|b|n|r|t|l|items]; cbn [py_truthy py_lower].
  - cbv beta iota delta [bind].
    repeat match goal with
           | |- context [if ?b then _ else _] => destruct b
           end; reflexivity.
  - destruct b; cbv beta iota delta [bind]; [reflexivity|].
    repeat match goal with
           | |- context [if ?b then _ else _] => destruct b
           end; reflexivity.
  - destruct (negb (n =? 0)); cbv beta iota delta [bind]; [reflexivity|].
    repeat match goal with
           | |- context [if ?b then _ else _] => destruct b
           end; reflexivity.
  - destruct (negb (str_eqb r (U "0.0") || str_eqb r (U "-0.0")));
      cbv beta iota delta [bind]; [reflexivity|].
    repeat match goal with
           | |- context [if ?b then _ else _] => destruct b
           end; reflexivity.
  - destruct t as [|c t]; cbv beta iota delta [bind];
      repeat match goal with
             | |- context [if ?b then _ else _] => destruct b
             end; reflexivity.
  - destruct l; cbv beta iota delta [bind]; [|reflexivity].
    repeat match goal with
           | |- context [if ?b then _ else _] => destruct b
           end; reflexivity.
  - destruct items; cbv beta iota delta [bind]; [|reflexivity].
    repeat match goal with
           | |- context [if ?b then _ else _] => destruct b
           end; reflexivity.
Qed.

(** X16. On arbitrary JSON values [_map_game_status] returns one of the
    five statuses or raises [AttributeError], and it raises exactly when
    the code is neither 2 nor 3 and the text is a truthy value that is not
    a string; a code 2 or 3 (integer or float) settles the status before
    the text is looked at. *)
Theorem map_game_status_outcomes (status_text game_status period clock : json) :
  (forall s, _map_game_status status_text game_status period clock = Ok s ->
             In s status_values)
  /\ (forall e, _map_game_status status_text game_status period clock = Raise e ->
                e = PyExc AttributeError
                /\ py_eq_int game_status 2 = false
                /\ py_eq_int game_status 3 = false
                /\ py_truthy status_text = true
                /\ forall t, status_text <> JStr t)
  /\ (py_eq_int game_status 2 = false -> py_eq_int game_status 3 = false ->
      py_truthy status_text = true -> (forall t, status_text <> JStr t) ->
      _map_game_status status_text game_status period clock
      = Raise (PyExc AttributeError))
  /\ (py_eq_int game_status 2 = true ->
      _map_game_status status_text game_status period clock = Ok (U "inprogress"))
  /\ (py_eq_int game_status 2 = false -> py_eq_int game_status 3 = true ->
      _map_game_status status_text game_status period clock = Ok (U "closed")).
Proof.
  rewrite map_game_status_value.
  split; [|split; [|split; [|split]]].
  - intros s H.
    destruct (py_eq_int game_status 2);
      [injection H as <-; unfold status_values; cbn [In]; in_list|].
    destruct (py_eq_int game_status 3);
      [injection H as <-; unfold status_values; cbn [In]; in_list|].
    destruct status_text; try destruct (py_truthy _); try discriminate H;
      injection H as <-; apply text_status_value.
  - intros e H.
    destruct (py_eq_int game_status 2); [discriminate|].
    destruct (py_eq_int game_status 3); [discriminate|].
    destruct status_text as [|b|n|r|t|l|items];
      try destruct (py_truthy _) eqn:Et; try discriminate H;
      injection H as <-; repeat split; discriminate.
  - intros E2 E3 Et Hns. rewrite E2, E3, Et.
    destruct status_text; try reflexivity. exfalso. eapply Hns. reflexivity.
  - intros E2. rewrite E2. reflexivity.
  - intros E2 E3. rewrite E2, E3. reflexivity.
Qed.

End StatusJson.

Lemma map_game_status_outcomes_witness :
  _map_game_status (rt := example_runtime) (JInt 5) (JFloat (U "3.0")) JNull JNull
  = Ok (U "closed")
  /\ _map_game_status (rt := example_runtime) (JInt 5) JNull JNull JNull
     = Raise (PyExc AttributeError).
Proof.
  destruct (map_game_status_outcomes (rt := example_runtime)
              (JInt 5) (JFloat (U "3.0")) JNull JNull) as (_ & _ & _ & _ & H1).
  destruct (map_game_status_outcomes (rt := example_runtime)
              (JInt 5) JNull JNull JNull) as (_ & _ & H2 & _).
  split.
  - apply H1; reflexivity.
  - apply H2; try reflexivity. discriminate.
Defined.

(** ** The play-by-play answer *)

Lemma live_events_dicts (idx : nat) (actions : list json) :
  Forall (fun e => is_dict e = true) (live_events idx actions).
Proof.
  revert idx. induction actions as [|a actions IH]; intros idx; simpl.
  - constructor.
  - destruct a; try apply IH. constructor; [reflexivity | apply IH].
Qed.

Lemma live_events_length (idx : nat) (actions : list json) :
  length (live_events idx actions) = length (filter is_dict actions).
Proof.
  revert idx. induction actions as [|a actions IH]; intros idx; simpl.
  - reflexivity.
  - destruct a; simpl; rewrite ?IH; reflexivity.
Qed.

Lemma stats_events_shape (rows : list json) :
  forall idx events,
    stats_events idx rows = Ok events ->
    Forall (fun e => is_dict e = true) events /\ length events = length rows.
Proof.
  induction rows as [|row rows IH]; intros idx events H; simpl in H.
  - injection H as <-. split; [constructor | reflexivity].
  - destruct (column row 1 (JInt (Z.of_nat idx + 1))) as [n|]; [|discriminate].
    cbv beta iota delta [bind] in H.
    destruct (stats_events (S idx) rows) as [evs|] eqn:E; [|discriminate].
    injection H as <-. destruct (IH _ _ E) as [Hd Hl].
    split; [constructor; [reflexivity | exact Hd] | simpl; congruence].
Qed.

(** X17. Whatever [transform_playbyplay_to_pbp] returns has the three
    fields of a play-by-play answer: the id it was given, the list of
    events, all of them objects, and their number as the sequence. *)
Theorem pbp_sequence_counts_events (pbp_data game_id out : json) :
  transform_playbyplay_to_pbp pbp_data game_id = Ok out ->
  exists events,
    out = JDict [ (U "id", game_id);
                  (U "sequence", JInt (Z.of_nat (length events)));
                  (U "events", JList events) ]
    /\ Forall (fun e => is_dict e = true) events.
Proof.
  intros H. unfold transform_playbyplay_to_pbp in H.
  destruct (find_actions pbp_data) as [[acts|]|]; [| |discriminate];
    cbv beta iota delta [bind] in H.
  - injection H as <-. eexists. split; [reflexivity|]. apply live_events_dicts.
  - repeat (bind_inv H;
            match type of H with
            | (if ?b then _ else _) = Ok _ => destruct b
            | match ?o with Some _ => _ | None => _ end = Ok _ => destruct o
            end);
      bind_inv H; injection H as <-; eexists; (split; [reflexivity|]);
      first [ solve [constructor]
            | match goal with
              | E : stats_events _ _ = Ok _ |- _ =>
                  apply (stats_events_shape _ _ E)
              end ].
Qed.

Lemma pbp_sequence_counts_events_witness :
  exists events,
    transform_playbyplay_to_pbp
      (JDict [(U "game",
               JDict [(U "actions",
                       JList [ JDict [(U "actionNumber", JInt 7); (U "x", JInt 1)];
                               JStr (U "junk");
                               JDict [(U "clock", JStr (U "PT11M"))] ])])])
      (JStr example_uuid)
    = Ok (JDict [ (U "id", JStr example_uuid);
                  (U "sequence", JInt (Z.of_nat (length events)));
                  (U "events", JList events) ])
    /\ length events = 2%nat
    /\ Forall (fun e => is_dict e = true) events.
Proof.
  pose proof pbp_two_actions as E.
  destruct (@pbp_sequence_counts_events
              (JDict [(U "game",
                       JDict [(U "actions",
                               JList [ JDict [(U "actionNumber", JInt 7);
                                              (U "x", JInt 1)];
                                       JStr (U "junk");
                                       JDict [(U "clock", JStr (U "PT11M"))] ])])])
              (JStr example_uuid) _ E) as (events & Hout & Hd).
  exists events. rewrite E. split; [f_equal; exact Hout|].
  split; [|exact Hd].
  injection Hout as _ Hev. rewrite <- Hev. reflexivity.
Defined.

(** ** The fields of an event *)

Lemma dict_lookup_set_same {V} (k : str) (v : V) (l : list (str * V)) :
  dict_lookup k (dict_set k v l) = Some v.
Proof.
  induction l as [|[kx vx] l IH]; simpl.
  - rewrite str_eqb_refl. reflexivity.
  - destruct (str_eqb k kx) eqn:E; simpl.
    + rewrite str_eqb_refl. reflexivity.
    + rewrite E. exact IH.
Qed.

Lemma dict_lookup_none {V} (k : str) (l : list (str * V)) :
  ~ In k (map fst l) -> dict_lookup k l = None.
Proof.
  induction l as [|[kx vx] l IH]; simpl; intros H; [reflexivity|].
  destruct (str_eqb k kx) eqn:E.
  - apply str_eqb_eq in E. subst. exfalso. auto.
  - apply IH. auto.
Qed.

Lemma dict_lookup_filter {V} (p : str -> bool) (k : str) (l : list (str * V)) :
  dict_lookup k (filter (fun kv => p (fst kv)) l)
  = if p k then dict_lookup k l else None.
Proof.
  induction l as [|[kx vx] l IH]; simpl.
  - destruct (p k); reflexivity.
  - destruct (p kx) eqn:Ep; simpl.
    + destruct (str_eqb k kx) eqn:E.
      * apply str_eqb_eq in E. subst. rewrite Ep. reflexivity.
      * exact IH.
    + destruct (str_eqb k kx) eqn:E.
      * apply str_eqb_eq in E. subst. rewrite Ep in *. exact IH.
      * exact IH.
Qed.

Lemma NoDup_filter_keys {V} (p : str * V -> bool) (l : list (str * V)) :
  NoDup (map fst l) -> NoDup (map fst (filter p l)).
Proof.
  induction l as [|kv l IH]; simpl; intros H; [constructor|].
  inversion H as [|? ? Hnot Hl]; subst.
  destruct (p kv); simpl; [|auto].
  constructor; [|auto]. intros Hin. apply Hnot.
  apply in_map_iff in Hin as (x & Hx & Hin). apply filter_In in Hin as [Hin _].
  apply in_map_iff. exists x. auto.
Qed.

(** Merging [others] into [d]: a key of [others] takes its value there, any
    other key keeps the value it had. *)
Lemma merge_lookup {V} (k : str) (others d : list (str * V)) :
  NoDup (map fst others) ->
  dict_lookup k (fold_left (fun acc kv => dict_set (fst kv) (snd kv) acc) others d)
  = match dict_lookup k others with
    | Some v => Some v
    | None => dict_lookup k d
    end.
Proof.
  revert d. induction others as [|[k1 v1] others IH]; intros d Hnd; simpl.
  - reflexivity.
  - inversion Hnd as [|? ? Hnot Hrest]; subst.
    rewrite IH by exact Hrest.
    destruct (str_eqb k k1) eqn:E.
    + apply str_eqb_eq in E. subst k1.
      rewrite (dict_lookup_none _ _ Hnot). apply dict_lookup_set_same.
    + rewrite dict_lookup_set_other by exact E. reflexivity.
Qed.

(** X18. The fields of the event built from an action: every field of the
    action that is not one of the eleven renamed ones is carried over under
    its own key with its own value (also over a computed field of the same
    key); a renamed field appears under its new key with the action's value
    or the default; the sequence is the position in the list, starting at
    one, unless the action carries a field of that key. *)
Theorem event_fields (idx : nat) (action : list (str * json)) :
  NoDup (map fst action) ->
  exists event,
    action_event idx action = JDict event
    /\ (forall k v, dict_lookup k action = Some v -> is_renamed k = false ->
                    dict_lookup k event = Some v)
    /\ (forall source target default,
          In (source, target, default) (renamed_fields idx) ->
          dict_lookup target action = None \/ is_renamed target = true ->
          dict_lookup target event = Some (lookup_or source action default))
    /\ (dict_lookup (U "sequence") action = None ->
        dict_lookup (U "sequence") event = Some (JInt (Z.of_nat idx + 1))).
Proof.
  intros Hnd. unfold action_event. eexists. split; [reflexivity|].
  set (others := filter (fun kv => negb (existsb (str_eqb (fst kv)) renamed_action_keys))
                        action).
  assert (Hothers : forall k,
            dict_lookup k others
            = if negb (is_renamed k) then dict_lookup k action else None).
  { intros k. unfold others, is_renamed.
    apply (dict_lookup_filter
             (fun key => negb (existsb (str_eqb key) renamed_action_keys))). }
  assert (Hnd' : NoDup (map fst others)) by (apply NoDup_filter_keys, Hnd).
  split; [|split].
  - intros k v Hk Hr. rewrite merge_lookup by exact Hnd'.
    rewrite Hothers, Hr. cbn [negb]. rewrite Hk. reflexivity.
  - intros source target default Hin Hfree.
    rewrite merge_lookup by exact Hnd'. rewrite Hothers.
    assert (Hnone : (if negb (is_renamed target)
                     then dict_lookup target action else None) = None).
    { destruct Hfree as [-> | ->]; [destruct (negb _)|]; reflexivity. }
    rewrite Hnone. clear Hnone Hfree Hothers.
    unfold renamed_fields in Hin. cbn [In] in Hin.
    unfold lookup_or.
    repeat (destruct Hin as [Hin|Hin];
            [injection Hin as <- <- <-; reflexivity|]).
    contradiction.
  - intros Hseq. rewrite merge_lookup by exact Hnd'. rewrite Hothers, Hseq.
    destruct (negb (is_renamed (U "sequence"))); reflexivity.
Qed.

Lemma event_fields_witness :
  exists event,
    action_event 0 [(U "actionNumber", JInt 7); (U "x", JInt 1)] = JDict event
    /\ dict_lookup (U "x") event = Some (JInt 1)
    /\ dict_lookup (U "event_num") event = Some (JInt 7)
    /\ dict_lookup (U "sequence") event = Some (JInt 1).
Proof.
  destruct (@event_fields 0 [(U "actionNumber", JInt 7); (U "x", JInt 1)])
    as (event & He & Hpass & Hren & Hseq).
  - repeat constructor; simpl; intuition discriminate.
  - exists event. split; [exact He|]. split; [|split].
    + apply Hpass; reflexivity.
    + apply (Hren (U "actionNumber") (U "event_num") (JInt (Z.of_nat 0 + 1))).
      * left. reflexivity.
      * left. reflexivity.
    + apply Hseq. reflexivity.
Defined.

(** ** The games of a live schedule *)

Section LiveSchedule.

Context {rt : PyRuntime}.

Lemma live_game_step (games : list json) (entry : json) (out : list json) :
  live_game games entry = Ok out ->
  (entry_game_id entry = [] /\ out = games)
  \/ (entry_game_id entry <> []
      /\ exists game, out = games ++ [game]
                      /\ game_provider_id game = Some (JStr (entry_game_id entry))).
Proof.
  intros H. unfold live_game in H.
  destruct entry as [| | | | | |items]; try discriminate H.
  cbn [py_get] in H. cbv beta iota zeta delta [bind] in H.
  unfold entry_game_id, lookup_or.
  destruct (py_str match dict_lookup (U "gameId") items with
                   | Some x => x
                   | None => JStr []
                   end) as [|c id] eqn:Eid.
  - left. injection H as <-. auto.
  - right. split; [discriminate|].
    bind_inv H. injection H as <-. eexists. split; [reflexivity|].
    cbn [game_provider_id].
    match goal with
    | |- dict_lookup _ (if ?b then _ else _) = _ => destruct b
    end;
      [rewrite dict_lookup_set_other by reflexivity|];
      (match goal with
       | |- dict_lookup _ (if ?b then _ else _) = _ => destruct b
       end;
       [rewrite dict_lookup_set_other by reflexivity|]);
      (unfold add_scheduled;
       destruct (py_truthy _); [|reflexivity];
       destruct (_parse_nba_date _) as [[|? ?]|]; try reflexivity;
       rewrite dict_lookup_set_other by reflexivity; reflexivity).
Qed.

Lemma live_games_ids (entries : list json) :
  forall acc out,
    for_each live_game entries acc = Ok out ->
    map game_provider_id out
    = map game_provider_id acc
        ++ map (fun id => Some (JStr id))
               (filter non_empty (map entry_game_id entries)).
Proof.
  induction entries as [|e entries IH]; intros acc out H; simpl in H.
  - injection H as <-. simpl. rewrite app_nil_r. reflexivity.
  - destruct (live_game acc e) as [acc'|] eqn:E; [|discriminate].
    cbv beta iota delta [bind] in H. rewrite (IH _ _ H).
    destruct (live_game_step _ _ E) as [[Hid ->] | (Hid & g & -> & Hg)]; simpl.
    + rewrite Hid. reflexivity.
    + destruct (entry_game_id e) eqn:Ee; [congruence|]. simpl.
      rewrite map_app, <- app_assoc. simpl. rewrite Hg. reflexivity.
Qed.

(** X19. From a live scoreboard the schedule lists exactly the upstream
    entries that have a game id, in upstream order, each under the id the
    entry gave; its date is the scoreboard's [gameDate] when that is set,
    the requested date otherwise. *)
Theorem live_schedule_lists_the_entries (items board : list (str * json))
    (entries : list json) (game_date out : json) :
  dict_lookup (U "scoreboard") items = Some (JDict board) ->
  dict_lookup (U "games") board = Some (JList entries) ->
  transform_scoreboard_to_schedule (JDict items) game_date = Ok out ->
  exists games,
    out = JDict [ (U "date",
                   if py_truthy (lookup_or (U "gameDate") board JNull)
                   then lookup_or (U "gameDate") board JNull else game_date);
                  (U "games", JList games) ]
    /\ map game_provider_id games
       = map (fun id => Some (JStr id))
             (filter non_empty (map entry_game_id entries)).
Proof.
  intros Hboard Hgames H. unfold transform_scoreboard_to_schedule in H.
  cbn [py_contains py_item] in H. rewrite Hboard in H.
  cbv beta iota delta [bind] in H. cbn [py_contains py_item py_get] in H.
  rewrite Hgames in H. cbv beta iota zeta delta [bind] in H.
  cbn [py_iter] in H.
  destruct (for_each live_game entries []) as [games|] eqn:E; [|discriminate].
  injection H as <-. exists games. split; [reflexivity|].
  apply (live_games_ids _ _ E).
Qed.

End LiveSchedule.

Lemma live_schedule_lists_the_entries_witness :
  exists games,
    transform_scoreboard_to_schedule (rt := example_runtime) example_scoreboard
      (JStr (U "2025-01-01"))
    = Ok (JDict [(U "date", JStr (U "2025-01-08")); (U "games", JList games)])
    /\ map game_provider_id games = [Some (JStr (U "0022300123"))].
Proof.
  destruct (transform_scoreboard_to_schedule (rt := example_runtime)
              example_scoreboard (JStr (U "2025-01-01"))) as [out|] eqn:E;
    [|vm_compute in E; discriminate E].
  destruct (@live_schedule_lists_the_entries example_runtime
              [ (U "scoreboard",
                 JDict [ (U "gameDate", JStr (U "2025-01-08"));
                         (U "games",
                          JList [ JDict [ (U "gameId", JStr (U "0022300123"));
                                          (U "gameStatus", JInt 2);
                                          (U "gameStatusText", JStr (U "Q1 1:42")) ];
                                  JDict [ (U "gameId", JStr []) ] ]) ]) ]
              [ (U "gameDate", JStr (U "2025-01-08"));
                (U "games",
                 JList [ JDict [ (U "gameId", JStr (U "0022300123"));
                                 (U "gameStatus", JInt 2);
                                 (U "gameStatusText", JStr (U "Q1 1:42")) ];
                         JDict [ (U "gameId", JStr []) ] ]) ]
              [ JDict [ (U "gameId", JStr (U "0022300123"));
                        (U "gameStatus", JInt 2);
                        (U "gameStatusText", JStr (U "Q1 1:42")) ];
                JDict [ (U "gameId", JStr []) ] ]
              (JStr (U "2025-01-01")) out eq_refl eq_refl E)
    as (games & -> & Hids).
  exists games. split; [reflexivity | exact Hids].
Defined.

(** ** The summary *)

Lemma dict_set_keys {V} (P : str -> Prop) (k : str) (v : V) (l : list (str * V)) :
  P k -> Forall (fun kv => P (fst kv)) l ->
  Forall (fun kv => P (fst kv)) (dict_set k v l).
Proof.
  intros Hk. induction 1 as [|[kx vx] l Hx Hl IH]; simpl.
  - constructor; [exact Hk | constructor].
  - destruct (str_eqb k kx); constructor; auto.
Qed.

Lemma summary_shape_base (game_id : json) :
  summary_shape game_id
    [ (U "id", game_id); (U "status", JStr (U "inprogress"));
      (U "home", JDict []); (U "away", JDict []) ].
Proof.
  exists (U "inprogress"), (JDict []), (JDict []), [].
  split; [reflexivity|]. split; [|constructor].
  unfold status_values. cbn [In]. in_list.
Qed.

Lemma summary_shape_status (game_id : json) (s : str) items :
  In s status_values -> summary_shape game_id items ->
  summary_shape game_id (dict_set (U "status") (JStr s) items).
Proof.
  intros Hs (status & home & away & rest & -> & _ & Hrest).
  exists s, home, away, rest. split; [reflexivity|]. auto.
Qed.

Lemma summary_shape_home (game_id v : json) items :
  summary_shape game_id items ->
  summary_shape game_id (dict_set (U "home") v items).
Proof.
  intros (status & home & away & rest & -> & Hs & Hrest).
  exists status, v, away, rest. split; [reflexivity|]. auto.
Qed.

Lemma summary_shape_away (game_id v : json) items :
  summary_shape game_id items ->
  summary_shape game_id (dict_set (U "away") v items).
Proof.
  intros (status & home & away & rest & -> & Hs & Hrest).
  exists status, home, v, rest. split; [reflexivity|]. auto.
Qed.

Lemma summary_shape_extra (game_id v : json) (k : str) items :
  In k summary_extras -> summary_shape game_id items ->
  summary_shape game_id (dict_set k v items).
Proof.
  intros Hk (status & home & away & rest & -> & Hs & Hrest).
  exists status, home, away, (dict_set k v rest). split; [|split].
  - unfold summary_extras in Hk. cbn [In] in Hk.
    destruct Hk as [<-|[<-|[<-|[<-|[]]]]]; reflexivity.
  - exact Hs.
  - apply (dict_set_keys (fun key => In key summary_extras)); assumption.
Qed.

Section Summary.

Context {rt : PyRuntime}.

Lemma map_game_status_in_values (status_text game_status period clock : json) s :
  _map_game_status status_text game_status period clock = Ok s ->
  In s status_values.
Proof.
  rewrite map_game_status_value. intros H.
  destruct (py_eq_int game_status 2);
    [injection H as <-; unfold status_values; cbn [In]; in_list|].
  destruct (py_eq_int game_status 3);
    [injection H as <-; unfold status_values; cbn [In]; in_list|].
  destruct status_text; try destruct (py_truthy _); try discriminate H;
    injection H as <-; apply text_status_value.
Qed.

Ltac shape_here :=
  do 4 eexists; split; [reflexivity|]; split;
  [ first [ eapply map_game_status_in_values; eassumption
          | unfold status_values; cbn [In]; in_list ]
  | repeat (constructor; [unfold summary_extras; cbn [In fst]; in_list|]);
    constructor ].

Ltac shape :=
  repeat match goal with
         | |- context [if ?b then _ else _] => destruct b
         end;
  shape_here.

(** X20. Whatever [transform_boxscore_to_summary] returns is a mapping that
    starts with [id] (the id it was given), [status] (one of the five
    statuses), [home] and [away], in this order, followed only by fields
    among [period], [clock], [game_status] and [leaders]. *)
Theorem summary_has_its_shape (boxscore_data game_id out : json) :
  transform_boxscore_to_summary boxscore_data game_id = Ok out ->
  exists items, out = JDict items /\ summary_shape game_id items.
Proof.
  intros H. unfold transform_boxscore_to_summary, live_summary in H.
  repeat (bind_inv H;
          match type of H with
          | (if ?b then _ else _) = Ok _ => destruct b
          | match ?o with Some _ => _ | None => _ end = Ok _ => destruct o
          end);
    bind_inv H; injection H as <-; eexists; (split; [reflexivity|]); shape.
Qed.

(** X21. A payload with nothing under [game] and no [resultSets] gets the
    default summary: the given id, status inprogress, empty teams. *)
Theorem summary_default (items : list (str * json)) (game_id : json) :
  absent_or_empty (U "game") items = true ->
  dict_lookup (U "resultSets") items = None ->
  transform_boxscore_to_summary (JDict items) game_id
  = Ok (JDict [ (U "id", game_id); (U "status", JStr (U "inprogress"));
                (U "home", JDict []); (U "away", JDict []) ]).
Proof.
  unfold absent_or_empty. intros Hgame Hsets.
  unfold transform_boxscore_to_summary. cbn [py_get].
  cbv beta iota zeta delta [bind]. rewrite Hsets. cbn [py_iter find_result_set].
  destruct (dict_lookup (U "game") items) as [g|].
  - apply negb_true_iff in Hgame. rewrite Hgame.
    rewrite andb_false_r. cbn [andb]. reflexivity.
  - cbn [py_truthy]. rewrite andb_false_r. cbn [andb]. reflexivity.
Qed.

End Summary.

Lemma summary_has_its_shape_witness :
  exists items,
    transform_boxscore_to_summary (rt := example_runtime)
      (JDict [ (U "_source", JStr (U "live_scoreboard"));
               (U "game", JDict [ (U "gameStatus", JInt 3); (U "period", JInt 4) ]) ])
      (JStr example_uuid)
    = Ok (JDict items)
    /\ summary_shape (JStr example_uuid) items.
Proof.
  destruct (transform_boxscore_to_summary (rt := example_runtime)
      (JDict [ (U "_source", JStr (U "live_scoreboard"));
               (U "game", JDict [ (U "gameStatus", JInt 3); (U "period", JInt 4) ]) ])
      (JStr example_uuid)) as [out|] eqn:E; [|vm_compute in E; discriminate E].
  destruct (summary_has_its_shape _ _ E) as (items & -> & Hs).
  exists items. split; [reflexivity | exact Hs].
Defined.

Lemma summary_default_witness :
  transform_boxscore_to_summary (rt := example_runtime)
    (JDict [(U "error", JStr (U "no data"))]) (JStr example_uuid)
  = Ok (JDict [ (U "id", JStr example_uuid); (U "status", JStr (U "inprogress"));
                (U "home", JDict []); (U "away", JDict []) ]).
Proof.
  apply (summary_default (rt := example_runtime)); reflexivity.
Defined.

(** ** The detailed health check *)

Lemma sort_endpoints_filter (has : str -> bool) (names : list str) :
  sort_endpoints has names
  = (filter has names, filter (fun name => negb (has name)) names).
Proof.
  unfold sort_endpoints.
  assert (G : forall acc,
             fold_left
               (fun acc endpoint_name =>
                  if has endpoint_name
                  then (fst acc ++ [endpoint_name], snd acc)
                  else (fst acc, snd acc ++ [endpoint_name]))
               names acc
             = (fst acc ++ filter has names,
                snd acc ++ filter (fun name => negb (has name)) names)).
  { induction names as [|n names IH]; intros [found missing]; simpl.
    - rewrite !app_nil_r. reflexivity.
    - rewrite IH. destruct (has n); simpl; rewrite <- app_assoc; reflexivity. }
  apply (G ([], [])).
Qed.

Lemma none_missing_iff (has : str -> bool) (names : list str) :
  filter (fun name => negb (has name)) names = []
  <-> forall name, In name names -> has name = true.
Proof.
  induction names as [|n names IH]; simpl.
  - split; [intros _ ? [] | reflexivity].
  - destruct (has n) eqn:E; simpl.
    + rewrite IH. split.
      * intros H name [<-|Hn]; auto.
      * intros H name Hn. apply H. auto.
    + split; [discriminate|]. intros H.
      rewrite (H n) in E by auto. discriminate E.
Qed.

Lemma filter_split_perm {A} (f : A -> bool) (l : list A) :
  Permutation (filter f l ++ filter (fun x => negb (f x)) l) l.
Proof.
  induction l as [|a l IH]; simpl; [constructor|].
  destruct (f a); simpl.
  - apply perm_skip, IH.
  - apply Permutation_sym, Permutation_cons_app, Permutation_sym, IH.
Qed.

Section HealthProperties.

Context (w : world) (libs : libraries) (exc_text : exn -> str).

Lemma redis_check_returns (st : hstate) :
  exists check passed st',
    redis_check w exc_text st = (Ok (check, passed), st')
    /\ (passed = true <-> store_answers w st).
Proof.
  unfold redis_check, try_except, mbind, lift, ret, get_redis_client,
    store_answers.
  destruct (_redis_client st) eqn:Ec.
  - destruct (redis_ping w) as [[]|e] eqn:Ep; do 3 eexists;
      (split; [reflexivity|]).
    + split; auto.
    + split; [discriminate | intros [_ H]; discriminate H].
  - destruct (redis_installed w) eqn:Ei; cbn [negb].
    + destruct (redis_from_url w) as [[]|e] eqn:Eu.
      * destruct (redis_ping w) as [[]|e] eqn:Ep; do 3 eexists;
          (split; [reflexivity|]).
        -- split; auto.
        -- split; [discriminate | intros [_ H]; discriminate H].
      * do 3 eexists. split; [reflexivity|].
        split; [discriminate|].
        intros [[H|[_ H]] _]; discriminate H.
    + do 3 eexists. split; [reflexivity|].
      split; [discriminate|].
      intros [[H|[H _]] _]; discriminate H.
Qed.

Lemma nba_api_check_passes :
  snd (nba_api_check libs exc_text) = true <-> endpoints_present libs.
Proof.
  unfold nba_api_check, endpoints_present.
  destruct (stats_endpoints libs) as [has|e].
  - rewrite sort_endpoints_filter.
    destruct (filter (fun name => negb (has name)) key_endpoints) eqn:E;
      cbn [snd].
    + split; [|reflexivity]. intros _. exists has. split; [reflexivity|].
      apply none_missing_iff, E.
    + split; [discriminate|]. intros (has' & [= <-] & H).
      apply none_missing_iff in H. congruence.
  - cbn [snd]. split; [discriminate|]. intros (has & H & _). discriminate H.
Qed.

(** X22. [detailed_health_check] never raises, whatever fails: it returns
    the report with the three checks, [redis], [nba_api] and [nba_api_live],
    in this order.  The overall status is [healthy] exactly when the store
    answers a ping and the stats module has the three endpoints, and
    [degraded] otherwise; the import of the live endpoints has no part in
    it. *)
Theorem health_overall_status (st : hstate) :
  exists status redis nba_api nba_api_live st',
    detailed_health_check w libs exc_text st
    = (Ok (health_report status redis nba_api nba_api_live), st')
    /\ (store_answers w st /\ endpoints_present libs -> status = U "healthy")
    /\ (~ (store_answers w st /\ endpoints_present libs)
        -> status = U "degraded").
Proof.
  destruct (redis_check_returns st) as (check & passed & st' & Hr & Hp).
  pose proof nba_api_check_passes as Hn.
  unfold detailed_health_check, mbind, ret. rewrite Hr. cbn [fst snd].
  destruct passed; cbn [andb].
  - destruct (snd (nba_api_check libs exc_text)).
    + do 5 eexists. split; [reflexivity|]. split; [reflexivity|].
      intros H. exfalso. apply H. split; [apply Hp | apply Hn]; reflexivity.
    + do 5 eexists. split; [reflexivity|]. split; [|reflexivity].
      intros [_ H]. apply Hn in H. discriminate H.
  - do 5 eexists. split; [reflexivity|]. split; [|reflexivity].
    intros [H _]. apply Hp in H. discriminate H.
Qed.

(** X23. When the stats module can be imported, the [nba_api] check lists
    under [endpoints_found] the endpoints the module has and under
    [endpoints_missing] those it lacks, each of BoxScoreSummaryV2,
    PlayByPlayV2 and ScoreboardV2 in exactly one of the two, in this order;
    its status is [healthy] when none is missing and [degraded] otherwise,
    never [unhealthy]. *)
Theorem nba_api_check_sorts_endpoints (has : str -> bool) :
  stats_endpoints libs = Ok has ->
  let missing := filter (fun name => negb (has name)) key_endpoints in
  fst (nba_api_check libs exc_text)
  = JDict [ (U "status",
             JStr (match missing with [] => U "healthy" | _ => U "degraded" end));
            (U "endpoints_found", JList (map JStr (filter has key_endpoints)));
            (U "endpoints_missing", JList (map JStr missing)) ]
  /\ Permutation (filter has key_endpoints ++ missing) key_endpoints.
Proof.
  intros H missing. split.
  - unfold nba_api_check. rewrite H, sort_endpoints_filter. fold missing.
    destruct missing; reflexivity.
  - apply filter_split_perm.
Qed.

(** X24. A client that is kept is pinged again by the health check: when the
    ping fails, the [redis] check is [unhealthy] with the text of the ping's
    exception and the overall status is [degraded], although
    [get_redis_client] itself returns the client. *)
Theorem health_check_pings_the_kept_client (st : hstate) (e : exn) :
  _redis_client st = true ->
  redis_ping w = Raise e ->
  fst (get_redis_client w st) = Ok tt
  /\ exists nba_api nba_api_live,
       detailed_health_check w libs exc_text st
       = (Ok (health_report (U "degraded")
                (failed_check exc_text (U "unhealthy") e)
                nba_api nba_api_live), st).
Proof.
  intros Hc Hp. split.
  - unfold get_redis_client. rewrite Hc. reflexivity.
  - unfold detailed_health_check, redis_check, try_except, mbind, lift, ret,
      get_redis_client.
    rewrite Hc, Hp. cbn [fst snd andb]. do 2 eexists. reflexivity.
Qed.

End HealthProperties.

Lemma nba_api_check_sorts_endpoints_witness :
  fst (nba_api_check example_libraries example_exc_text)
  = JDict [ (U "status", JStr (U "healthy"));
            (U "endpoints_found", JList (map JStr key_endpoints));
            (U "endpoints_missing", JList []) ].
Proof.
  destruct (@nba_api_check_sorts_endpoints example_libraries example_exc_text
              (fun _ => true) eq_refl) as [H _].
  exact H.
Defined.

Lemma health_check_pings_the_kept_client_witness :
  fst (detailed_health_check unreachable_world example_libraries
         example_exc_text
         {| _redis_client := true; upstream_log := [] |})
  = Ok (health_report (U "degraded")
          (failed_check example_exc_text (U "unhealthy") (PyExc ConnectionError))
          (fst (nba_api_check example_libraries example_exc_text))
          (nba_api_live_check example_libraries example_exc_text)).
Proof.
  destruct (@health_check_pings_the_kept_client unreachable_world
              example_libraries example_exc_text
              {| _redis_client := true; upstream_log := [] |}
              (PyExc ConnectionError) eq_refl eq_refl)
    as [_ (nba_api & live & H)].
  rewrite H. cbn [fst]. vm_compute in H. injection H as <- <-. reflexivity.
Defined.

(** ** [is_valid_uuid] *)

Lemma remove_sub_absent (p : Z) (old s : str) :
  Forall (fun c => c <> p) s -> remove_sub (p :: old) 0 s = s.
Proof.
  induction 1 as [|c s Hc Hs IH]; [reflexivity|].
  cbn [remove_sub starts_with].
  replace (p =? c) with false by (symmetry; apply Z.eqb_neq; congruence).
  cbn [andb]. rewrite IH. reflexivity.
Qed.

Lemma lstrip_chars_plain (chars s : str) :
  Forall (fun c => existsb (Z.eqb c) chars = false) s ->
  lstrip_chars chars s = s.
Proof.
  intros [|c s' Hc _]; [reflexivity|]. cbn [lstrip_chars]. rewrite Hc.
  reflexivity.
Qed.

Lemma strip_chars_plain (chars s : str) :
  Forall (fun c => existsb (Z.eqb c) chars = false) s ->
  strip_chars chars s = s.
Proof.
  intros H. unfold strip_chars.
  rewrite (@lstrip_chars_plain chars s H),
    (@lstrip_chars_plain chars (rev s) (Forall_rev H)).
  apply rev_involutive.
Qed.

Lemma strip_chars_braced (s : str) :
  Forall (fun c => existsb (Z.eqb c) [123; 125] = false) s ->
  strip_chars [123; 125] ([123] ++ s ++ [125]) = s.
Proof.
  intros H. unfold strip_chars.
  change (lstrip_chars [123; 125] ([123] ++ s ++ [125]))
    with (lstrip_chars [123; 125] (s ++ [125])).
  assert (E : lstrip_chars [123; 125] (s ++ [125])
              = match s with [] => [] | _ => s ++ [125] end).
  { destruct H as [|c s Hc Hs]; [reflexivity|].
    cbn [app lstrip_chars]. rewrite Hc. reflexivity. }
  rewrite E. destruct s as [|c s]; [reflexivity|].
  rewrite rev_unit.
  change (lstrip_chars [123; 125] (125 :: rev (c :: s)))
    with (lstrip_chars [123; 125] (rev (c :: s))).
  rewrite (@lstrip_chars_plain [123; 125] (rev (c :: s)) (Forall_rev H)).
  apply rev_involutive.
Qed.

Lemma replace_cp_absent (old : Z) (new s : str) :
  Forall (fun c => c <> old) s -> replace_cp old new s = s.
Proof.
  unfold replace_cp. induction 1 as [|c s Hc Hs IH]; [reflexivity|].
  cbn [flat_map]. rewrite IH.
  replace (c =? old) with false by (symmetry; apply Z.eqb_neq; exact Hc).
  reflexivity.
Qed.

(** What a hexadecimal digit is not, and its value. *)
Lemma is_hex_facts (c : Z) :
  is_hex c = true ->
  c <> 117 /\ c <> 123 /\ c <> 125 /\ c <> 45 /\ c <> 43 /\ c <> 95
  /\ c <> 120 /\ c <> 88 /\ c < 128 /\ c_isspace c = false
  /\ exists d, digit_value c = Some d /\ 0 <= d < 16.
Proof.
  unfold is_hex, is_lower_hex, c_isspace, digit_value. intros H.
  repeat (split; [lia|]).
  destruct ((48 <=? c) && (c <=? 57)) eqn:E1;
    [eexists; split; [reflexivity | lia]|].
  destruct ((97 <=? c) && (c <=? 122)) eqn:E2;
    [eexists; split; [reflexivity | lia]|].
  destruct ((65 <=? c) && (c <=? 90)) eqn:E3;
    [eexists; split; [reflexivity | lia]|].
  lia.
Qed.

Lemma lower_hex_is_hex (s : str) :
  forallb is_lower_hex s = true -> hex_digits s.
Proof.
  unfold hex_digits. induction s as [|c s IH]; [reflexivity|].
  cbn [forallb]. intros H. apply andb_prop in H as [Hc Hs].
  rewrite (IH Hs). unfold is_hex. rewrite Hc. reflexivity.
Qed.

Lemma hex_digits_Forall (s : str) (P : Z -> Prop) :
  (forall c, is_hex c = true -> P c) -> hex_digits s -> Forall P s.
Proof.
  unfold hex_digits. intros HP H. apply Forall_forall. intros c Hc.
  apply HP. rewrite forallb_forall in H. apply H, Hc.
Qed.

Lemma no_braces (c : Z) :
  c <> 123 -> c <> 125 -> existsb (Z.eqb c) [123; 125] = false.
Proof. intros H1 H2. cbn [existsb]. lia. Qed.

(** A text of hexadecimal digits is read as it stands. *)
Lemma uuid_digits_hex (s : str) : hex_digits s -> uuid_digits s = s.
Proof.
  intros H. unfold uuid_digits.
  change (U "urn:") with (117 :: U "rn:").
  change (U "uuid:") with (117 :: U "uid:").
  change (U "{}") with [123; 125].
  assert (Hu : Forall (fun c => c <> 117) s)
    by (apply hex_digits_Forall; [intros c Hc; apply (is_hex_facts c Hc) | exact H]).
  rewrite (@remove_sub_absent 117 (U "rn:") s Hu),
    (@remove_sub_absent 117 (U "uid:") s Hu).
  rewrite strip_chars_plain.
  - apply replace_cp_absent.
    apply hex_digits_Forall; [intros c Hc; apply (is_hex_facts c Hc) | exact H].
  - apply hex_digits_Forall; [|exact H].
    intros c Hc. apply no_braces; apply (is_hex_facts c Hc).
Qed.

Lemma scan_digits_hex (h : str) :
  forall acc,
    0 <= acc -> hex_digits h ->
    exists n, scan_digits false acc h = Some (n, [])
              /\ 0 <= n < (acc + 1) * 16 ^ Z.of_nat (length h).
Proof.
  unfold hex_digits.
  induction h as [|c h IH]; intros acc Hacc Hh.
  - exists acc. split; [reflexivity|]. cbn [length Z.of_nat]. lia.
  - cbn [forallb] in Hh. apply andb_prop in Hh as [Hc Hh].
    destruct (is_hex_facts c Hc)
      as (_ & _ & _ & _ & _ & H95 & _ & _ & _ & _ & d & Hd & Hr).
    cbn [scan_digits]. rewrite Hd.
    replace (c =? 95) with false by lia.
    replace (d <? 16) with true by lia.
    destruct (IH (16 * acc + d) ltac:(lia) Hh) as (n & Hn & Hb).
    exists n. split; [exact Hn|].
    cbn [length]. rewrite Nat2Z.inj_succ, Z.pow_succ_r by lia.
    assert (Hp : 0 < 16 ^ Z.of_nat (length h)) by (apply Z.pow_pos_nonneg; lia).
    nia.
Qed.

Lemma read_digits_hex (sign : Z) (h : str) :
  h <> [] -> hex_digits h ->
  exists n, read_digits sign h = Some (sign * n)
            /\ 0 <= n < 16 ^ Z.of_nat (length h).
Proof.
  intros Hne Hh. destruct (@scan_digits_hex h 0 ltac:(lia) Hh) as (n & Hn & Hb).
  exists n. split; [|lia].
  unfold read_digits. rewrite Hn.
  destruct h as [|c h]; [congruence|].
  unfold hex_digits in Hh. cbn [forallb] in Hh.
  apply andb_prop in Hh as [Hc _].
  cbn [starts_with_underscore].
  replace (c =? 95) with false by (pose proof (is_hex_facts c Hc); lia).
  reflexivity.
Qed.

Lemma hex_digits_ascii (h : str) :
  hex_digits h -> to_ascii_digits h = h.
Proof.
  intros H. unfold to_ascii_digits.
  replace (forallb (fun c => c <? 128) h) with true; [reflexivity|].
  symmetry. apply forallb_forall. intros c Hc.
  unfold hex_digits in H. rewrite forallb_forall in H.
  pose proof (is_hex_facts c (H c Hc)). lia.
Qed.

(** [int(h, 16)] of hexadecimal digits. *)
Lemma int_base16_hex (h : str) :
  h <> [] -> hex_digits h ->
  exists n, int_base16 h = Some n /\ 0 <= n < 16 ^ Z.of_nat (length h).
Proof.
  intros Hne Hh. destruct (@read_digits_hex 1 h Hne Hh) as (n & Hn & Hb).
  exists n. split; [|exact Hb].
  unfold int_base16. rewrite (@hex_digits_ascii _ Hh).
  destruct h as [|c h]; [congruence|].
  pose proof Hh as Hh'. unfold hex_digits in Hh'. cbn [forallb] in Hh'.
  apply andb_prop in Hh' as [Hc Hrest].
  pose proof (is_hex_facts c Hc) as Fc.
  cbn [skip_spaces].
  replace (c_isspace c) with false by (symmetry; apply Fc).
  unfold read_sign.
  replace (c =? 43) with false by lia.
  replace (c =? 45) with false by lia.
  assert (Hp : skip_prefix (c :: h) = c :: h).
  { unfold skip_prefix. destruct h as [|x h]; [reflexivity|].
    cbn [forallb] in Hrest. apply andb_prop in Hrest as [Hx _].
    pose proof (is_hex_facts x Hx).
    replace ((x =? 120) || (x =? 88)) with false by lia.
    rewrite andb_false_r. reflexivity. }
  rewrite Hp, Hn. f_equal. lia.
Qed.

(** [int('0x' + h, 16)] of hexadecimal digits. *)
Lemma int_base16_prefixed (h : str) :
  h <> [] -> hex_digits h ->
  exists n, int_base16 (48 :: 120 :: h) = Some n
            /\ 0 <= n < 16 ^ Z.of_nat (length h).
Proof.
  intros Hne Hh. destruct (@read_digits_hex 1 h Hne Hh) as (n & Hn & Hb).
  exists n. split; [|exact Hb].
  unfold int_base16, to_ascii_digits. cbn [forallb].
  change (48 <? 128) with true. change (120 <? 128) with true. cbn [andb].
  pose proof (@hex_digits_ascii h Hh) as Ha. unfold to_ascii_digits in Ha.
  destruct (forallb (fun c => c <? 128) h) eqn:E.
  - destruct h as [|c h]; [congruence|].
    unfold hex_digits in Hh. cbn [forallb] in Hh.
    apply andb_prop in Hh as [Hc _].
    pose proof (is_hex_facts c Hc) as Fc.
    change (skip_spaces (48 :: 120 :: c :: h)) with (48 :: 120 :: c :: h).
    change (read_sign (48 :: 120 :: c :: h)) with (1, 48 :: 120 :: c :: h).
    unfold skip_prefix.
    change ((48 =? 48) && ((120 =? 120) || (120 =? 88))) with true.
    cbv iota. replace (c =? 95) with false by lia.
    rewrite Hn. f_equal. lia.
  - exfalso. assert (F : forallb (fun c => c <? 128) h = true).
    { apply forallb_forall. intros c Hc.
      unfold hex_digits in Hh. rewrite forallb_forall in Hh.
      pose proof (is_hex_facts c (Hh c Hc)). lia. }
    congruence.
Qed.

(** The text is valid when its digits number 32 and read as a number of
    128 bits. *)
Lemma valid_when_read (s : str) (n : Z) :
  length (uuid_digits s) = 32%nat ->
  int_base16 (uuid_digits s) = Some n ->
  0 <= n < 16 ^ 32 ->
  is_valid_uuid (JStr s) = Ok true.
Proof.
  intros Hl Hn Hb. unfold is_valid_uuid, uuid_UUID.
  rewrite Hl, Hn. cbn [Nat.eqb negb].
  change (16 ^ 32) with (2 ^ 128) in Hb.
  set (B := 2 ^ 128) in *.
  replace ((0 <=? n) && (n <? B)) with true by lia. reflexivity.
Qed.

Lemma valid_hex (s h : str) :
  uuid_digits s = h -> length h = 32%nat -> hex_digits h ->
  is_valid_uuid (JStr s) = Ok true.
Proof.
  intros E Hl Hh.
  assert (Hne : h <> []) by (intros ->; discriminate Hl).
  destruct (@int_base16_hex h Hne Hh) as (n & Hn & Hb).
  apply (@valid_when_read s n).
  - rewrite E. exact Hl.
  - rewrite E. exact Hn.
  - rewrite Hl in Hb. exact Hb.
Qed.

Lemma hex_not_dash (c : Z) : is_lower_hex c = true -> (c =? 45) = false.
Proof. unfold is_lower_hex. lia. Qed.

(** The canonical text: its characters, and its digits once the dashes are
    dropped. *)
Lemma canonical_digits (u : str) :
  canonical_uuid_text u = true ->
  Forall (fun c => is_lower_hex c = true \/ c = 45) u
  /\ length (replace_cp 45 [] u) = 32%nat
  /\ forallb is_lower_hex (replace_cp 45 [] u) = true.
Proof.
  unfold canonical_uuid_text. intros H. apply andb_prop in H as [Hl Hc].
  apply Nat.eqb_eq in Hl.
  do 36 (destruct u as [|? u]; [discriminate Hl|]).
  destruct u; [|discriminate Hl]. clear Hl.
  cbn [uuid_chars_ok uuid_char_ok existsb Nat.eqb orb] in Hc.
  repeat (apply andb_prop in Hc as [? Hc]). clear Hc.
  repeat match goal with
         | H : (_ =? 45) = true |- _ => apply Z.eqb_eq in H; subst
         end.
  split.
  - repeat (constructor; [first [left; assumption | right; reflexivity]|]).
    constructor.
  - unfold replace_cp. cbn [flat_map].
    repeat match goal with
           | H : is_lower_hex ?c = true |- context [?c =? 45] =>
               rewrite (hex_not_dash c H)
           end.
    change (45 =? 45) with true. cbv iota. cbn [app].
    split; [reflexivity|]. cbn [forallb].
    repeat match goal with
           | H : is_lower_hex _ = true |- _ => rewrite H; clear H
           end.
    reflexivity.
Qed.

(** The digits of a text without [u] and braces: its dashes are dropped. *)
Lemma uuid_digits_plain (s : str) :
  Forall (fun c => c <> 117) s ->
  Forall (fun c => existsb (Z.eqb c) [123; 125] = false) s ->
  uuid_digits s = replace_cp 45 [] s.
Proof.
  intros Hu Hb. unfold uuid_digits.
  change (U "urn:") with (117 :: U "rn:").
  change (U "uuid:") with (117 :: U "uid:").
  change (U "{}") with [123; 125].
  rewrite (@remove_sub_absent 117 (U "rn:") s Hu),
    (@remove_sub_absent 117 (U "uid:") s Hu),
    (@strip_chars_plain [123; 125] s Hb).
  reflexivity.
Qed.

Lemma canonical_plain (u : str) :
  canonical_uuid_text u = true ->
  Forall (fun c => c <> 117) u
  /\ Forall (fun c => existsb (Z.eqb c) [123; 125] = false) u.
Proof.
  intros H. destruct (canonical_digits u H) as (Hall & _).
  split; (eapply Forall_impl; [|exact Hall]); cbv beta;
    intros c [Hc | ->]; try reflexivity; try discriminate;
    unfold is_lower_hex in Hc; cbn [existsb]; lia.
Qed.

Lemma canonical_is_valid (u : str) :
  canonical_uuid_text u = true -> is_valid_uuid (JStr u) = Ok true.
Proof.
  intros H. destruct (canonical_digits u H) as (_ & Hl & Hh).
  destruct (canonical_plain u H) as [Hu Hb].
  apply valid_hex with (h := replace_cp 45 [] u).
  - apply uuid_digits_plain; assumption.
  - exact Hl.
  - apply lower_hex_is_hex, Hh.
Qed.

(** X25. Every id [nba_game_id_to_uuid] returns passes [is_valid_uuid]. *)
Theorem derived_id_is_valid (nba_game_id game_uuid : str) :
  nba_game_id_to_uuid nba_game_id = Ok game_uuid ->
  is_valid_uuid (JStr game_uuid) = Ok true.
Proof.
  intros H. destruct (derived_id_text _ H) as (y & ->).
  apply canonical_is_valid, to_string_canonical.
Qed.

(** X26. [is_valid_uuid] holds of every UUID in canonical text form, and of
    the same UUID written in other forms: after [urn:uuid:], between braces,
    and without its dashes.  A text that passes need not be canonical. *)
Theorem valid_uuid_forms (u : str) :
  canonical_uuid_text u = true ->
  is_valid_uuid (JStr u) = Ok true
  /\ is_valid_uuid (JStr (U "urn:uuid:" ++ u)) = Ok true
  /\ is_valid_uuid (JStr (U "{" ++ u ++ U "}")) = Ok true
  /\ is_valid_uuid (JStr (replace_cp 45 [] u)) = Ok true.
Proof.
  intros H. destruct (canonical_digits u H) as (_ & Hl & Hh).
  destruct (canonical_plain u H) as [Hu Hb].
  apply lower_hex_is_hex in Hh.
  split; [apply canonical_is_valid, H|]. split; [|split].
  - apply valid_hex with (h := replace_cp 45 [] u); [|exact Hl | exact Hh].
    unfold uuid_digits.
    change (U "urn:uuid:" ++ u)
      with (117 :: 114 :: 110 :: 58 :: 117 :: 117 :: 105 :: 100 :: 58 :: u).
    change (U "urn:") with (117 :: U "rn:").
    change (U "uuid:") with (117 :: U "uid:").
    change (remove_sub (117 :: U "rn:") 0
              (117 :: 114 :: 110 :: 58 :: 117 :: 117 :: 105 :: 100 :: 58 :: u))
      with (117 :: 117 :: 105 :: 100 :: 58 :: remove_sub (117 :: U "rn:") 0 u).
    rewrite (@remove_sub_absent 117 (U "rn:") u Hu).
    change (remove_sub (117 :: U "uid:") 0 (117 :: 117 :: 105 :: 100 :: 58 :: u))
      with (remove_sub (117 :: U "uid:") 0 u).
    rewrite (@remove_sub_absent 117 (U "uid:") u Hu).
    change (U "{}") with [123; 125].
    rewrite (@strip_chars_plain [123; 125] u Hb). reflexivity.
  - apply valid_hex with (h := replace_cp 45 [] u); [|exact Hl | exact Hh].
    unfold uuid_digits.
    change (U "urn:") with (117 :: U "rn:").
    change (U "uuid:") with (117 :: U "uid:").
    change (U "{}") with [123; 125].
    change (U "{") with [123]. change (U "}") with [125].
    assert (Hu' : Forall (fun c => c <> 117) ([123] ++ u ++ [125])).
    { constructor; [discriminate|]. apply Forall_app. split; [exact Hu|].
      constructor; [discriminate | constructor]. }
    rewrite (@remove_sub_absent 117 (U "rn:") _ Hu'),
      (@remove_sub_absent 117 (U "uid:") _ Hu'),
      (@strip_chars_braced u Hb).
    reflexivity.
  - apply valid_hex with (h := replace_cp 45 [] u); [|exact Hl | exact Hh].
    apply uuid_digits_hex, Hh.
Qed.

(** X27. [is_valid_uuid] also holds of texts that are no UUID in any
    written form: [0x] followed by thirty hexadecimal digits, which [int]
    reads as a number. *)
Theorem prefixed_number_is_valid (h : str) :
  length h = 30%nat -> hex_digits h ->
  is_valid_uuid (JStr (U "0x" ++ h)) = Ok true.
Proof.
  intros Hl Hh. change (U "0x" ++ h) with (48 :: 120 :: h).
  assert (Hne : h <> []) by (intros ->; discriminate Hl).
  destruct (@int_base16_prefixed h Hne Hh) as (n & Hn & Hb).
  assert (Hd : uuid_digits (48 :: 120 :: h) = 48 :: 120 :: h).
  { assert (Hu : Forall (fun c => c <> 117) (48 :: 120 :: h)).
    { do 2 (constructor; [discriminate|]).
      apply hex_digits_Forall; [|exact Hh].
      intros c Hc. apply (is_hex_facts c Hc). }
    assert (Hb' : Forall (fun c => existsb (Z.eqb c) [123; 125] = false)
                    (48 :: 120 :: h)).
    { do 2 (constructor; [reflexivity|]).
      apply hex_digits_Forall; [|exact Hh].
      intros c Hc. apply no_braces; apply (is_hex_facts c Hc). }
    rewrite (@uuid_digits_plain _ Hu Hb'). apply replace_cp_absent.
    do 2 (constructor; [discriminate|]).
    apply hex_digits_Forall; [|exact Hh].
    intros c Hc. apply (is_hex_facts c Hc). }
  apply (@valid_when_read (48 :: 120 :: h) n).
  - rewrite Hd. cbn [length]. rewrite Hl. reflexivity.
  - rewrite Hd. exact Hn.
  - rewrite Hl in Hb. change (16 ^ Z.of_nat 30) with (16 ^ 30) in Hb.
    assert (16 ^ 30 < 16 ^ 32) by reflexivity. lia.
Qed.

Lemma digit_not_uuid_mark (c : Z) :
  isdigit_cp c = true -> c <> 117 /\ c <> 123 /\ c <> 125 /\ c <> 45.
Proof.
  unfold isdigit_cp, digit_ranges. cbn [existsb fst snd]. lia.
Qed.

(** X28. An id in provider form is never a valid UUID. *)
Theorem provider_form_is_not_a_uuid (game_id : str) :
  is_nba_game_id game_id = true -> is_valid_uuid (JStr game_id) = Ok false.
Proof.
  intros H. unfold is_nba_game_id in H.
  destruct game_id as [|c rest] eqn:E; [discriminate|]. rewrite <- E in *.
  apply andb_prop in H as [Hd Hl].
  assert (Hall : forallb isdigit_cp game_id = true)
    by (rewrite E in *; exact Hd).
  apply Z.eqb_eq in Hl.
  assert (Hm : Forall (fun c => c <> 117 /\ c <> 123 /\ c <> 125 /\ c <> 45)
                 game_id).
  { apply Forall_forall. intros x Hx. rewrite forallb_forall in Hall.
    apply digit_not_uuid_mark, Hall, Hx. }
  assert (Hdig : uuid_digits game_id = game_id).
  { rewrite uuid_digits_plain.
    - apply replace_cp_absent. eapply Forall_impl; [|exact Hm].
      cbv beta. intros x Hx. apply Hx.
    - eapply Forall_impl; [|exact Hm]. cbv beta. intros x Hx. apply Hx.
    - eapply Forall_impl; [|exact Hm]. cbv beta. intros x Hx.
      apply no_braces; apply Hx. }
  unfold is_valid_uuid, uuid_UUID. rewrite Hdig.
  replace (length game_id) with 10%nat by lia. reflexivity.
Qed.

(** X29. [is_valid_uuid] returns a boolean for every value but [None], for
    which it raises [TypeError]: the constructor's complaint that no
    argument was given is not among the exceptions it catches.  A value
    that is neither [None] nor a text is no UUID. *)
Theorem is_valid_uuid_outcomes (x : json) :
  match x with
  | JNull => is_valid_uuid x = Raise (PyExc TypeError)
  | JStr _ => exists b, is_valid_uuid x = Ok b
  | _ => is_valid_uuid x = Ok false
  end.
Proof.
  destruct x as [| | | |s| |]; try reflexivity.
  unfold is_valid_uuid, uuid_UUID.
  destruct (negb (Nat.eqb (length (uuid_digits s)) 32));
    [eexists; reflexivity|].
  destruct (int_base16 (uuid_digits s)) as [n|]; [|eexists; reflexivity].
  destruct ((0 <=? n) && (n <? 2 ^ 128)); eexists; reflexivity.
Qed.

Lemma derived_id_is_valid_witness :
  is_valid_uuid (JStr (U "c5eb0d93-200d-5c7a-9cca-149bccf231bf")) = Ok true.
Proof.
  apply (@derived_id_is_valid (U "0022300123")
           (U "c5eb0d93-200d-5c7a-9cca-149bccf231bf")).
  vm_compute. reflexivity.
Defined.

Lemma valid_uuid_forms_witness :
  is_valid_uuid (JStr (U "{6ba7b810-9dad-11d1-80b4-00c04fd430c8}")) = Ok true.
Proof.
  destruct (@valid_uuid_forms (U "6ba7b810-9dad-11d1-80b4-00c04fd430c8")
              eq_refl) as (_ & _ & H & _).
  exact H.
Defined.

Lemma prefixed_number_is_valid_witness :
  is_valid_uuid (JStr (U "0x6ba7b8109dad11d180b400c04fd430")) = Ok true.
Proof.
  apply (@prefixed_number_is_valid (U "6ba7b8109dad11d180b400c04fd430"));
    reflexivity.
Defined.

Lemma provider_form_is_not_a_uuid_witness :
  is_valid_uuid (JStr (U "0022300123")) = Ok false.
Proof.
  apply (@provider_form_is_not_a_uuid (U "0022300123")). reflexivity.
Defined.

(** ** The live schedule returns *)

Section LiveScheduleReturns.

Context {rt : PyRuntime}.

Lemma live_game_returns (games : list json) (entry : json) :
  live_entry_ok entry -> exists out, live_game games entry = Ok out.
Proof.
  intros (items & -> & Hid & Htext & Hhome & Haway).
  unfold live_game. cbn [py_get]. cbv beta iota zeta delta [bind].
  unfold entry_game_id, lookup_or in Hid.
  destruct (py_str match dict_lookup (U "gameId") items with
                   | Some x => x
                   | None => JStr []
                   end) as [|c id] eqn:Eid.
  - eexists. reflexivity.
  - destruct Hid as [Hid | [Hne Henc]]; [discriminate Hid|].
    destruct (utf8_encode_scalar _ Henc) as (name & Hname).
    destruct (nba_game_id_to_uuid (c :: id)) as [u|e] eqn:Eu;
      [|rewrite (nba_game_id_to_uuid_ok _ Hne Hname) in Eu; discriminate Eu].
    rewrite map_game_status_value.
    assert (Ht : exists t,
               match dict_lookup (U "gameStatusText") items with
               | Some x => x
               | None => JStr (U "Scheduled")
               end = JStr t).
    { destruct (dict_lookup (U "gameStatusText") items) as [v|];
        [apply (Htext v eq_refl) | eexists; reflexivity]. }
    destruct Ht as (t & ->).
    assert (Hh : exists d,
               match dict_lookup (U "homeTeam") items with
               | Some x => x
               | None => JDict []
               end = JDict d).
    { destruct (dict_lookup (U "homeTeam") items) as [v|];
        [|eexists; reflexivity].
      specialize (Hhome v eq_refl). destruct v; try discriminate Hhome.
      eexists. reflexivity. }
    destruct Hh as (home & ->).
    assert (Ha : exists d,
               match dict_lookup (U "awayTeam") items with
               | Some x => x
               | None => JDict []
               end = JDict d).
    { destruct (dict_lookup (U "awayTeam") items) as [v|];
        [|eexists; reflexivity].
      specialize (Haway v eq_refl). destruct v; try discriminate Haway.
      eexists. reflexivity. }
    destruct Ha as (away & ->).
    destruct (py_eq_int _ 2); [eexists; reflexivity|].
    destruct (py_eq_int _ 3); eexists; reflexivity.
Qed.

Lemma live_games_return (entries : list json) :
  Forall live_entry_ok entries ->
  forall acc, exists out, for_each live_game entries acc = Ok out.
Proof.
  induction 1 as [|e entries He Hes IH]; intros acc; cbn [for_each].
  - eexists. reflexivity.
  - destruct (live_game_returns acc He) as (acc' & ->).
    cbv beta iota delta [bind]. apply IH.
Qed.

(** X30. A live scoreboard whose entries are readable is always
    transformed, nothing is raised: the schedule has one game for each
    entry with a game id, and none for the others. *)
Theorem live_schedule_returns (items board : list (str * json))
    (entries : list json) (game_date : json) :
  dict_lookup (U "scoreboard") items = Some (JDict board) ->
  dict_lookup (U "games") board = Some (JList entries) ->
  Forall live_entry_ok entries ->
  exists date games,
    transform_scoreboard_to_schedule (JDict items) game_date
    = Ok (JDict [ (U "date", date); (U "games", JList games) ])
    /\ length games
       = length (filter non_empty (map entry_game_id entries)).
Proof.
  intros Hboard Hgames Hok. unfold transform_scoreboard_to_schedule.
  cbn [py_contains py_item]. rewrite Hboard.
  cbv beta iota delta [bind]. cbn [py_contains py_item py_get].
  rewrite Hgames. cbv beta iota zeta delta [bind]. cbn [py_iter].
  destruct (live_games_return Hok []) as (games & E). rewrite E.
  do 2 eexists. split; [reflexivity|].
  pose proof (live_games_ids _ _ E) as Hids. cbn [map app] in Hids.
  rewrite <- (length_map game_provider_id games), Hids, length_map.
  reflexivity.
Qed.

End LiveScheduleReturns.

Lemma live_schedule_returns_witness :
  exists date games,
    transform_scoreboard_to_schedule (rt := example_runtime) example_scoreboard
      (JStr (U "2025-01-01"))
    = Ok (JDict [ (U "date", date); (U "games", JList games) ])
    /\ length games = 1%nat.
Proof.
  destruct (@live_schedule_returns example_runtime
              [ (U "scoreboard",
                 JDict [ (U "gameDate", JStr (U "2025-01-08"));
                         (U "games",
                          JList [ JDict [ (U "gameId", JStr (U "0022300123"));
                                          (U "gameStatus", JInt 2);
                                          (U "gameStatusText", JStr (U "Q1 1:42")) ];
                                  JDict [ (U "gameId", JStr []) ] ]) ]) ]
              [ (U "gameDate", JStr (U "2025-01-08"));
                (U "games",
                 JList [ JDict [ (U "gameId", JStr (U "0022300123"));
                                 (U "gameStatus", JInt 2);
                                 (U "gameStatusText", JStr (U "Q1 1:42")) ];
                         JDict [ (U "gameId", JStr []) ] ]) ]
              [ JDict [ (U "gameId", JStr (U "0022300123"));
                        (U "gameStatus", JInt 2);
                        (U "gameStatusText", JStr (U "Q1 1:42")) ];
                JDict [ (U "gameId", JStr []) ] ]
              (JStr (U "2025-01-01")) eq_refl eq_refl)
    as (date & games & H & Hl).
  - constructor; [|constructor; [|constructor]].
    + eexists. split; [reflexivity|]. split; [|split; [|split]].
      * right. split; [discriminate | reflexivity].
      * intros v Hv. vm_compute in Hv. injection Hv as <-.
        eexists. reflexivity.
      * intros v Hv. vm_compute in Hv. discriminate Hv.
      * intros v Hv. vm_compute in Hv. discriminate Hv.
    + eexists. split; [reflexivity|]. split; [|split; [|split]].
      * left. reflexivity.
      * intros v Hv. vm_compute in Hv. discriminate Hv.
      * intros v Hv. vm_compute in Hv. discriminate Hv.
      * intros v Hv. vm_compute in Hv. discriminate Hv.
  - exists date, games. split; [exact H | exact Hl].
Defined.
